(** * Smart Data Analyzer: the browser client, embedded and verified

    The repository holds three variants of one client:
    - [frontend/static/js/app.js]  (module [AppJs]),
    - [frontend/script (11).js]    (module [Script11]),
    - an unnamed third variant     (module [Part000]).

    The client is JavaScript.  Its values are embedded as [jsval], its
    numbers as IEEE 754 binary64 values ([spec_float] at precision 53),
    its strings as [string], and its effects (DOM writes, alerts, network
    calls, timers, chart construction) as a state-and-exception monad over
    a [world] that carries the page and an event log. *)

From Stdlib Require Import ZArith NArith List String Ascii Bool Lia.
From Stdlib Require Import Floats.SpecFloat.
Import ListNotations.
Local Open Scope string_scope.
Local Open Scope Z_scope.

(** ** Characters and strings *)

Module Str.

Definition dq : string := String (ascii_of_nat 34) EmptyString.
Definition nl : string := String (ascii_of_nat 10) EmptyString.

Definition chars (s : string) : list ascii := list_ascii_of_string s.
Definition of_chars (l : list ascii) : string := string_of_list_ascii l.

Definition is_digit (c : ascii) : bool :=
  let n := nat_of_ascii c in (48 <=? n)%nat && (n <=? 57)%nat.

Definition digit_val (c : ascii) : Z := Z.of_nat (nat_of_ascii c) - 48.

Definition digit_char (d : Z) : ascii := ascii_of_nat (Z.to_nat (48 + d)).

(** White space and line terminators of the ASCII range (TrimString). *)
Definition is_space (c : ascii) : bool :=
  let n := nat_of_ascii c in
  (n =? 32)%nat || (n =? 9)%nat || (n =? 10)%nat || (n =? 11)%nat
  || (n =? 12)%nat || (n =? 13)%nat.

Fixpoint trim_start (l : list ascii) : list ascii :=
  match l with
  | c :: r => if is_space c then trim_start r else l
  | [] => []
  end.

Definition trim_end (l : list ascii) : list ascii :=
  rev (trim_start (rev l)).

(** [span p l]: the longest prefix of [l] whose characters satisfy [p],
    and the rest. *)
Fixpoint span (p : ascii -> bool) (l : list ascii) : list ascii * list ascii :=
  match l with
  | c :: r => if p c then let (a, b) := span p r in (c :: a, b) else ([], l)
  | [] => ([], [])
  end.

Fixpoint strip_prefix (p l : list ascii) : option (list ascii) :=
  match p, l with
  | [], _ => Some l
  | a :: p', b :: l' => if Ascii.eqb a b then strip_prefix p' l' else None
  | _ :: _, [] => None
  end.

(** Decimal digits of a non-negative integer, most significant first;
    [0] is the single digit [0]. *)
Fixpoint digits_fuel (fuel : nat) (n : Z) (acc : list ascii) : list ascii :=
  match fuel with
  | O => acc
  | S f =>
      let acc' := digit_char (n mod 10) :: acc in
      if n <? 10 then acc' else digits_fuel f (n / 10) acc'
  end.

Definition digits (n : Z) : list ascii :=
  digits_fuel (S (Z.to_nat (Z.log2 n))) n [].

Definition of_digits (l : list ascii) : Z :=
  fold_left (fun acc c => acc * 10 + digit_val c) l 0.

Definition repeat_char (c : ascii) (n : Z) : list ascii :=
  repeat c (Z.to_nat n).

Definition lower_char (c : ascii) : ascii :=
  let n := nat_of_ascii c in
  if (65 <=? n)%nat && (n <=? 90)%nat then ascii_of_nat (n + 32) else c.

Definition toLowerCase (s : string) : string :=
  of_chars (map lower_char (chars s)).

Definition toUpperCase_char (c : ascii) : ascii :=
  let n := nat_of_ascii c in
  if (97 <=? n)%nat && (n <=? 122)%nat then ascii_of_nat (n - 32) else c.

Definition toUpperCase (s : string) : string :=
  of_chars (map toUpperCase_char (chars s)).

(** [join sep l]: the elements of [l] separated by [sep]. *)
Fixpoint join (sep : string) (l : list string) : string :=
  match l with
  | [] => ""
  | [x] => x
  | x :: r => x ++ sep ++ join sep r
  end.

(** [s.endsWith(suffix)] *)
Definition endsWith (s suffix : string) : bool :=
  (String.length suffix <=? String.length s)%nat
  && String.eqb
       (String.substring (String.length s - String.length suffix)
          (String.length suffix) s)
       suffix.

(** *** Text of any alphabet

    A JavaScript string is a sequence of UTF-16 code units, and [length],
    [substring] and [split] count and cut code units.  The text of a
    chosen file can hold any character, and the preview measures and cuts
    it: it is embedded as the list of its code units.  The page keeps
    text as a [string], in UTF-8: [utf8] writes the code units out, a
    surrogate pair as the four bytes of its character, any other unit (a
    surrogate without its partner too) as one to three bytes. *)

(** The code units of a text of the ASCII range. *)
Definition units (s : string) : list N := map N_of_ascii (chars s).

Definition is_high (u : N) : bool := ((55296 <=? u) && (u <? 56320))%N.
Definition is_low (u : N) : bool := ((56320 <=? u) && (u <? 57344))%N.

(** The UTF-8 bytes of the code point [c]. *)
Definition encode (c : N) : list ascii :=
  (if c <? 128 then [ascii_of_N c]
   else if c <? 2048 then
     [ascii_of_N (192 + c / 64); ascii_of_N (128 + c mod 64)]
   else if c <? 65536 then
     [ascii_of_N (224 + c / 4096); ascii_of_N (128 + (c / 64) mod 64);
      ascii_of_N (128 + c mod 64)]
   else
     [ascii_of_N (240 + c / 262144); ascii_of_N (128 + (c / 4096) mod 64);
      ascii_of_N (128 + (c / 64) mod 64); ascii_of_N (128 + c mod 64)])%N.

Fixpoint utf8_chars (l : list N) : list ascii :=
  match l with
  | [] => []
  | u :: r =>
      match r with
      | v :: r' =>
          if is_high u && is_low v
          then (encode (65536 + (u - 55296) * 1024 + (v - 56320))%N
                ++ utf8_chars r')%list
          else (encode u ++ utf8_chars r)%list
      | [] => encode u
      end
  end.

Definition utf8 (l : list N) : string := of_chars (utf8_chars l).

(** [text.split(sep)] for a separator of one code unit: the pieces
    between the separators, one piece more than there are separators. *)
Fixpoint split_at (sep : N) (l acc : list N) : list (list N) :=
  match l with
  | [] => [acc]
  | c :: r =>
      if N.eqb c sep then acc :: split_at sep r []
      else split_at sep r (acc ++ [c])%list
  end.

Definition split (sep : N) (text : list N) : list (list N) :=
  split_at sep text [].

End Str.

(** ** Numbers

    A JavaScript Number is an IEEE 754 binary64 value.  The arithmetic is
    the reference implementation of the standard library at precision 53
    and maximal exponent 1024 (round to nearest, ties to even). *)

Module Num.

Definition prec : Z := 53.
Definition emax : Z := 1024.

Definition number : Type := spec_float.

Definition nan : number := S754_nan.
Definition zero : number := S754_zero false.
Definition inf (neg : bool) : number := S754_infinity neg.

Definition add : number -> number -> number := SFadd prec emax.
Definition mul : number -> number -> number := SFmul prec emax.
Definition div : number -> number -> number := SFdiv prec emax.
Definition ltb : number -> number -> bool := SFltb.
Definition eqb : number -> number -> bool := SFeqb.

(** The Number nearest to an integer. *)
Definition of_Z (z : Z) : number := binary_normalize prec emax z 0 false.

(** The Number nearest to the ratio [a / b] of two non-negative integers,
    with the sign [neg]. *)
Definition of_ratio (neg : bool) (a b : Z) : number :=
  match a, b with
  | Z0, Zpos _ => S754_zero neg
  | Zpos p, Zpos q => div (S754_finite neg p 0) (S754_finite false q 0)
  | _, _ => nan
  end.

(** The Number nearest to [m * 10^e], with the sign [neg]. *)
Definition of_decimal (neg : bool) (m e : Z) : number :=
  if 0 <=? e then of_ratio neg (m * 10 ^ e) 1
  else of_ratio neg m (10 ^ (- e)).

(** The exact value of a finite positive Number [m * 2^e] as a ratio. *)
Definition ratio (m : positive) (e : Z) : Z * Z :=
  if 0 <=? e then (Zpos m * 2 ^ e, 1) else (Zpos m, 2 ^ (- e)).

(** Math.floor *)
Definition floor (x : number) : number :=
  match x with
  | S754_finite s m e =>
      if 0 <=? e then x
      else
        let d := 2 ^ (- e) in
        let q := Zpos m / d in
        let exact := Zpos m mod d =? 0 in
        if s then of_Z (- (if exact then q else q + 1))
        else if q =? 0 then S754_zero false else of_Z q
  | _ => x
  end.

(** [floor (a / b + 1/2)] for non-negative [a] and positive [b]: the
    integer nearest to [a / b], the larger one on a tie. *)
Definition round_half_up (a b : Z) : Z := (2 * a + b) / (2 * b).

(** *** Number::toString (radix 10) *)

(** The [n] with [10^(n-1) <= a / b < 10^n], for positive [a], [b]. *)
Definition dec_exponent (a b : Z) : Z :=
  let j := Z.of_nat (List.length (Str.digits a)) - Z.of_nat (List.length (Str.digits b)) in
  let ge := if 0 <=? j then b * 10 ^ j <=? a else b <=? a * 10 ^ (- j) in
  if ge then j + 1 else j.

(** [a / b] in units of [10^(n-k)]: numerator and denominator. *)
Definition scaled (a b n k : Z) : Z * Z :=
  if n <=? k then (a * 10 ^ (k - n), b) else (a, b * 10 ^ (n - k)).

(** The [k]-digit candidates around [a / b]; the one that reads back as
    [x], the nearer one (the even one on a tie) when both do. *)
Definition candidate (x : number) (a b n k : Z) : option Z :=
  let (a', b') := scaled a b n k in
  let lo := a' / b' in
  let hi := lo + 1 in
  let ok s := eqb (of_decimal false s (n - k)) x in
  match ok lo, ok hi with
  | true, true =>
      match (2 * (a' - lo * b')) ?= b' with
      | Lt => Some lo
      | Gt => Some hi
      | Eq => Some (if Z.even lo then lo else hi)
      end
  | true, false => Some lo
  | false, true => Some hi
  | false, false => None
  end.

Fixpoint shortest (fuel : nat) (x : number) (a b n k : Z) : Z * Z :=
  match fuel with
  | O => (a / b, k)
  | S f =>
      match candidate x a b n k with
      | Some s => (s, k)
      | None => shortest f x a b n (k + 1)
      end
  end.

(** The digits [s] and the exponent [n] of step 5 of Number::toString. *)
Definition decimal_of (x : number) (m : positive) (e : Z) : list ascii * Z :=
  let (a, b) := ratio m e in
  let n := dec_exponent a b in
  let (s, k) := shortest 25 x a b n 1 in
  if s =? 10 ^ k then (Str.digits 1, n + 1) else (Str.digits s, n).

Definition format_decimal (ds : list ascii) (n : Z) : list ascii :=
  let k := Z.of_nat (List.length ds) in
  let dot := Str.chars "." in
  if (-5 <=? n) && (n <=? 21) then
    if k <=? n then (ds ++ Str.repeat_char "0" (n - k))%list
    else if 0 <? n then (firstn (Z.to_nat n) ds ++ dot ++ skipn (Z.to_nat n) ds)%list
    else (Str.chars "0." ++ Str.repeat_char "0" (- n) ++ ds)%list
  else
    let ex := n - 1 in
    let sign := if ex <? 0 then "-" else "+" in
    let tail := (Str.chars "e" ++ Str.chars sign ++ Str.digits (Z.abs ex))%list in
    match ds with
    | [d] => d :: tail
    | d :: r => (d :: dot ++ r ++ tail)%list
    | [] => tail
    end.

Definition toString (x : number) : string :=
  match x with
  | S754_nan => "NaN"
  | S754_zero _ => "0"
  | S754_infinity s => if s then "-Infinity" else "Infinity"
  | S754_finite s m e =>
      let (ds, n) := decimal_of (S754_finite false m e) m e in
      (if s then "-" else "") ++ Str.of_chars (format_decimal ds n)
  end.

(** *** Number.prototype.toFixed *)

(** The digits of the integer [n] with a point before the last [f]. *)
Definition fixed_digits (f n : Z) : list ascii :=
  let m := Str.digits n in
  if f =? 0 then m
  else
    let k := Z.of_nat (List.length m) in
    let m := if k <=? f then (Str.repeat_char "0" (f + 1 - k) ++ m)%list else m in
    let k := Z.of_nat (List.length m) in
    (firstn (Z.to_nat (k - f)) m ++ Str.chars "." ++ skipn (Z.to_nat (k - f)) m)%list.

Definition toFixed (f : Z) (x : number) : string :=
  match x with
  | S754_nan | S754_infinity _ => toString x
  | S754_zero _ => Str.of_chars (fixed_digits f 0)
  | S754_finite s m e =>
      let (a, b) := ratio m e in
      (if s then "-" else "") ++
      (if 10 ^ 21 * b <=? a then toString (S754_finite false m e)
       else Str.of_chars (fixed_digits f (round_half_up (a * 10 ^ f) b)))
  end.

(** *** Reading numbers: StrDecimalLiteral, parseFloat, StringToNumber *)

(** The exponent part [e], an optional sign, digits; without digits
    there is no exponent part and nothing is consumed. *)
Definition scan_exponent (l : list ascii) : Z * list ascii :=
  match l with
  | c :: r =>
      if Ascii.eqb c "e" || Ascii.eqb c "E" then
        let (neg, r') :=
          match r with
          | d :: r'' =>
              if Ascii.eqb d "-" then (true, r'')
              else if Ascii.eqb d "+" then (false, r'')
              else (false, r)
          | [] => (false, r)
          end in
        let (ds, rest) := Str.span Str.is_digit r' in
        match ds with
        | [] => (0, l)
        | _ => ((if neg then - Str.of_digits ds else Str.of_digits ds), rest)
        end
      else (0, l)
  | [] => (0, l)
  end.

(** The longest prefix of [l] that is a StrUnsignedDecimalLiteral, as a
    Number with the sign [neg], and what follows it. *)
Definition scan_unsigned (neg : bool) (l : list ascii) : option (number * list ascii) :=
  match Str.strip_prefix (Str.chars "Infinity") l with
  | Some rest => Some (inf neg, rest)
  | None =>
      let (ip, r1) := Str.span Str.is_digit l in
      let (fp, r2) :=
        match r1 with
        | c :: r =>
            if Ascii.eqb c "." then
              let (fp, r2) := Str.span Str.is_digit r in
              match ip, fp with
              | [], [] => ([], r1)
              | _, _ => (fp, r2)
              end
            else ([], r1)
        | [] => ([], r1)
        end in
      match ip, fp with
      | [], [] => None
      | _, _ =>
          let (ex, rest) := scan_exponent r2 in
          Some (of_decimal neg (Str.of_digits (ip ++ fp)%list)
                  (ex - Z.of_nat (List.length fp)), rest)
      end
  end.

(** The longest prefix that is a StrDecimalLiteral. *)
Definition scan_decimal (l : list ascii) : option (number * list ascii) :=
  match l with
  | c :: r =>
      if Ascii.eqb c "-" then scan_unsigned true r
      else if Ascii.eqb c "+" then scan_unsigned false r
      else scan_unsigned false l
  | [] => None
  end.

(** parseFloat: leading white space is dropped, the longest numeric
    prefix is read, what follows it is ignored.  The value read is
    rounded to the nearest Number. *)
Definition parseFloat (s : string) : number :=
  match scan_decimal (Str.trim_start (Str.chars s)) with
  | Some (x, _) => x
  | None => nan
  end.

Definition radix_digit (radix : Z) (c : ascii) : option Z :=
  let n := Z.of_nat (nat_of_ascii c) in
  let d := if (48 <=? n) && (n <=? 57) then n - 48
           else if (97 <=? n) && (n <=? 102) then n - 87
           else if (65 <=? n) && (n <=? 70) then n - 55
           else 16 in
  if d <? radix then Some d else None.

Fixpoint radix_value (radix : Z) (l : list ascii) (acc : Z) : option Z :=
  match l with
  | [] => Some acc
  | c :: r =>
      match radix_digit radix c with
      | Some d => radix_value radix r (acc * radix + d)
      | None => None
      end
  end.

(** NonDecimalIntegerLiteral: [0x], [0o], [0b] and at least one digit. *)
Definition scan_radix (l : list ascii) : option number :=
  match l with
  | z :: p :: (d :: _) as ds =>
      if Ascii.eqb z "0" then
        let radix :=
          if Ascii.eqb p "x" || Ascii.eqb p "X" then 16
          else if Ascii.eqb p "o" || Ascii.eqb p "O" then 8
          else if Ascii.eqb p "b" || Ascii.eqb p "B" then 2
          else 0 in
        if radix =? 0 then None
        else option_map of_Z (radix_value radix ds 0)
      else None
  | _ => None
  end.

(** StringToNumber: the whole string, white space trimmed, is a numeric
    literal, or the result is NaN; the empty string is [+0]. *)
Definition of_string (s : string) : number :=
  let l := Str.trim_end (Str.trim_start (Str.chars s)) in
  match l with
  | [] => zero
  | _ =>
      match scan_radix l with
      | Some x => x
      | None =>
          match scan_decimal l with
          | Some (x, []) => x
          | _ => nan
          end
      end
  end.

End Num.

(** ** Values

    [jsval] holds what a parsed JSON document holds, and [undefined].  An
    object lists its own properties in the order [Object.keys] reports
    them, each key once.  Properties inherited from the prototypes are
    not part of the model. *)

Module Js.

Import Num.

#[warnings="-register-all"] Inductive jsval : Type :=
| JUndefined
| JNull
| JBool (b : bool)
| JNum (x : number)
| JStr (s : string)
| JArr (l : list jsval)
| JObj (l : list (string * jsval)).

(** A thrown value: the [name] and the [message] of an Error object. *)
Record exn : Type := mkExn { exn_name : string; exn_message : string }.

Inductive res (A : Type) : Type :=
| Ok (a : A)
| Throw (e : exn).
Arguments Ok {A} a.
Arguments Throw {A} e.

Definition new_Error (msg : string) : exn := mkExn "Error" msg.
Definition type_error (msg : string) : exn := mkExn "TypeError" msg.

Definition num (z : Z) : jsval := JNum (of_Z z).

(** ToBoolean *)
Definition truthy (v : jsval) : bool :=
  match v with
  | JUndefined | JNull => false
  | JBool b => b
  | JNum (S754_nan | S754_zero _) => false
  | JNum _ => true
  | JStr s => negb (String.eqb s "")
  | JArr _ | JObj _ => true
  end.

(** [a || b] *)
Definition or_else (a b : jsval) : jsval := if truthy a then a else b.

(** ToString *)
Fixpoint ToString (v : jsval) : string :=
  match v with
  | JUndefined => "undefined"
  | JNull => "null"
  | JBool b => if b then "true" else "false"
  | JNum x => toString x
  | JStr s => s
  | JArr l =>
      Str.join ","
        (map (fun e => match e with
                       | JUndefined | JNull => ""
                       | _ => ToString e
                       end) l)
  | JObj _ => "[object Object]"
  end.

(** Array.prototype.join on the elements of an array. *)
Definition join (sep : string) (l : list jsval) : string :=
  Str.join sep
    (map (fun e => match e with
                   | JUndefined | JNull => ""
                   | _ => ToString e
                   end) l).

(** ToNumber *)
Definition ToNumber (v : jsval) : number :=
  match v with
  | JUndefined => nan
  | JNull => zero
  | JBool b => if b then of_Z 1 else zero
  | JNum x => x
  | JStr s => of_string s
  | JArr _ => of_string (ToString v)
  | JObj _ => nan
  end.

(** [a + b] *)
Definition plus (a b : jsval) : jsval :=
  let is_text v := match v with JStr _ | JArr _ | JObj _ => true | _ => false end in
  if is_text a || is_text b then JStr (ToString a ++ ToString b)
  else JNum (add (ToNumber a) (ToNumber b)).

(** [a / b] and [a * b] *)
Definition divide (a b : jsval) : jsval := JNum (div (ToNumber a) (ToNumber b)).
Definition times (a b : jsval) : jsval := JNum (mul (ToNumber a) (ToNumber b)).

(** [v > c] for a Number [c] *)
Definition gt_number (v : jsval) (c : number) : bool := ltb c (ToNumber v).

(** [typeof v === 'number'] *)
Definition is_number (v : jsval) : bool :=
  match v with JNum _ => true | _ => false end.

Fixpoint lookup (k : string) (l : list (string * jsval)) : jsval :=
  match l with
  | [] => JUndefined
  | (k', v) :: r => if String.eqb k' k then v else lookup k r
  end.

(** A canonical array index: decimal digits without a leading zero. *)
Definition index_of_key (k : string) : option nat :=
  let cs := Str.chars k in
  match cs with
  | [] => None
  | c :: r =>
      if forallb Str.is_digit cs
         && (negb (Ascii.eqb c "0") || match r with [] => true | _ => false end)
      then Some (Z.to_nat (Str.of_digits cs)) else None
  end.

Definition index_key (i : nat) : string := Str.of_chars (Str.digits (Z.of_nat i)).

(** [v[k]] and [v.k] *)
Definition get (v : jsval) (k : string) : res jsval :=
  match v with
  | JUndefined | JNull =>
      Throw (type_error ("Cannot read properties of " ++ ToString v
                         ++ " (reading '" ++ k ++ "')"))
  | JObj l => Ok (lookup k l)
  | JArr l =>
      if String.eqb k "length" then Ok (num (Z.of_nat (List.length l)))
      else match index_of_key k with
           | Some i => Ok (nth i l JUndefined)
           | None => Ok JUndefined
           end
  | JStr s =>
      if String.eqb k "length" then Ok (num (Z.of_nat (String.length s)))
      else match index_of_key k with
           | Some i => Ok (match String.get i s with
                           | Some c => JStr (String c EmptyString)
                           | None => JUndefined
                           end)
           | None => Ok JUndefined
           end
  | JBool _ | JNum _ => Ok JUndefined
  end.

(** [v?.k] *)
Definition get_opt (v : jsval) (k : string) : jsval :=
  match get v k with
  | Ok x => x
  | Throw _ => JUndefined
  end.

(** [v[i]] for a number [i]: the property key is [ToString i]. *)
Definition get_at (v : jsval) (i : jsval) : res jsval := get v (ToString i).

Definition not_a_function (what : string) : exn :=
  type_error (what ++ " is not a function").

(** [v.toFixed(f)] *)
Definition call_toFixed (v : jsval) (f : Z) : res string :=
  match v with
  | JNum x => Ok (toFixed f x)
  | JUndefined | JNull =>
      Throw (type_error ("Cannot read properties of " ++ ToString v
                         ++ " (reading 'toFixed')"))
  | _ => Throw (not_a_function "toFixed")
  end.

(** [v.slice(0, n)] *)
Definition call_slice0 (v : jsval) (n : nat) : res jsval :=
  match v with
  | JArr l => Ok (JArr (firstn n l))
  | JStr s => Ok (JStr (String.substring 0 (Nat.min n (String.length s)) s))
  | JUndefined | JNull =>
      Throw (type_error ("Cannot read properties of " ++ ToString v
                         ++ " (reading 'slice')"))
  | _ => Throw (not_a_function "slice")
  end.

(** [v.join(sep)] *)
Definition call_join (v : jsval) (sep : string) : res string :=
  match v with
  | JArr l => Ok (join sep l)
  | JUndefined | JNull =>
      Throw (type_error ("Cannot read properties of " ++ ToString v
                         ++ " (reading 'join')"))
  | _ => Throw (not_a_function "join")
  end.

(** [v.toLowerCase()] *)
Definition call_toLowerCase (v : jsval) : res string :=
  match v with
  | JStr s => Ok (Str.toLowerCase s)
  | JUndefined | JNull =>
      Throw (type_error ("Cannot read properties of " ++ ToString v
                         ++ " (reading 'toLowerCase')"))
  | _ => Throw (not_a_function "toLowerCase")
  end.

(** The elements of an array, for [forEach], [map], [filter], [some];
    any other receiver has no such method. *)
Definition elements (method : string) (v : jsval) : res (list jsval) :=
  match v with
  | JArr l => Ok l
  | JUndefined | JNull =>
      Throw (type_error ("Cannot read properties of " ++ ToString v
                         ++ " (reading '" ++ method ++ "')"))
  | _ => Throw (not_a_function method)
  end.

Definition string_entries (s : string) : list (string * jsval) :=
  map (fun p => (index_key (fst p), JStr (String (snd p) EmptyString)))
      (combine (seq 0 (String.length s)) (Str.chars s)).

(** Object.entries *)
Definition entries (v : jsval) : res (list (string * jsval)) :=
  match v with
  | JUndefined | JNull =>
      Throw (type_error "Cannot convert undefined or null to object")
  | JObj l => Ok l
  | JArr l => Ok (combine (map index_key (seq 0 (List.length l))) l)
  | JStr s => Ok (string_entries s)
  | JBool _ | JNum _ => Ok []
  end.

(** Object.keys and Object.values *)
Definition keys (v : jsval) : res (list string) :=
  match entries v with
  | Ok l => Ok (map fst l)
  | Throw e => Throw e
  end.

Definition values (v : jsval) : res (list jsval) :=
  match entries v with
  | Ok l => Ok (map snd l)
  | Throw e => Throw e
  end.

Definition bindr {A B} (r : res A) (k : A -> res B) : res B :=
  match r with
  | Ok a => k a
  | Throw e => Throw e
  end.

(** The keys a [for ... in] loop visits. *)
Definition for_in_keys (v : jsval) : list string :=
  match keys v with
  | Ok l => l
  | Throw _ => []
  end.

End Js.

(** ** The page: document, event log, timers

    Markup assigned through [innerHTML] is kept as text, tag by tag, without
    the layout white space of the template literals; elements the code
    looks up by id afterwards (the canvases) are kept as [Element] nodes.
    Console output is not part of the model. *)

Module Page.

Import Js.

#[warnings="-register-all"] Inductive node : Type :=
| Markup (html : string)
| Element (tag id cls : string) (children : list node).

(** What a request carries. *)
Inductive payload : Type :=
| FormFile (name : string)
| Json (v : jsval).

(** [JSON.stringify] of an object literal: a property whose value is
    [undefined] is left out of the text. *)
Definition stringify (fields : list (string * jsval)) : payload :=
  Json (JObj (filter (fun p => match snd p with
                               | JUndefined => false
                               | _ => true
                               end) fields)).

Inductive event : Type :=
| Alert (msg : string)
| FetchSent (url : string) (body : payload)
| XhrSent (url : string) (body : payload)
| Aborted
| ModalShown
| ModalHidden
| Scrolled (id : string)
| StyleSet (id prop value : string)
| ClassAdded (id cls : string)
| Disabled (id : string) (b : bool)
| Clicked (selector : string)
| Select2 (id : string)
| Listening (id kind : string)
| TimerSet (t : nat) (ms : Z)
| TimerCleared (t : nat)
| ChartCreated (h : nat) (canvas kind : string) (labels data : jsval)
| ChartDestroyed (h : nat).

(** The state of a page.  [G] holds the script's own variables; [log]
    lists the events, the latest first. *)
Record world (G : Type) : Type := mkWorld {
  globals : G;
  dom : list node;
  log : list event;
  next_id : nat;
  timers : list nat
}.
Arguments mkWorld {G}.
Arguments globals {G}.
Arguments dom {G}.
Arguments log {G}.
Arguments next_id {G}.
Arguments timers {G}.

(** *** Document tree *)

Definition has_id (i : string) (n : node) : bool :=
  match n with
  | Element _ j _ _ => String.eqb j i
  | Markup _ => false
  end.

Definition has_tag (t : string) (n : node) : bool :=
  match n with
  | Element t' _ _ _ => String.eqb t' t
  | Markup _ => false
  end.

(** The first node, in document order, that satisfies [p]. *)
Fixpoint find (p : node -> bool) (n : node) : option node :=
  if p n then Some n
  else match n with
       | Markup _ => None
       | Element _ _ _ ch =>
           (fix go (l : list node) : option node :=
              match l with
              | [] => None
              | x :: r => match find p x with
                          | Some y => Some y
                          | None => go r
                          end
              end) ch
       end.

Fixpoint find_in (p : node -> bool) (l : list node) : option node :=
  match l with
  | [] => None
  | x :: r => match find p x with
              | Some y => Some y
              | None => find_in p r
              end
  end.

(** The first element that satisfies [p], its children rewritten by [f]. *)
Fixpoint update (p : node -> bool) (f : list node -> list node) (n : node)
  : option node :=
  match n with
  | Markup _ => None
  | Element t j c ch =>
      if p n then Some (Element t j c (f ch))
      else
        option_map (Element t j c)
          ((fix go (l : list node) : option (list node) :=
              match l with
              | [] => None
              | x :: r => match update p f x with
                          | Some y => Some (y :: r)
                          | None => option_map (cons x) (go r)
                          end
              end) ch)
  end.

Fixpoint update_in (p : node -> bool) (f : list node -> list node) (l : list node)
  : option (list node) :=
  match l with
  | [] => None
  | x :: r => match update p f x with
              | Some y => Some (y :: r)
              | None => option_map (cons x) (update_in p f r)
              end
  end.

(** The first descendant with tag [t] of the first element with id [i],
    its children rewritten by [f]. *)
Definition update_within (i t : string) (f : list node -> list node)
    (l : list node) : option (list node) :=
  match find_in (has_id i) l with
  | Some (Element _ _ _ ch) =>
      match update_in (has_tag t) f ch with
      | Some ch' => update_in (has_id i) (fun _ => ch') l
      | None => None
      end
  | _ => None
  end.

(** The parent of the first element with id [i] in document order, its
    children replaced. *)
Inductive hit : Type :=
| Direct
| Inside (l : list node)
| Miss.

Fixpoint update_parent (i : string) (new : list node) (n : node) : option node :=
  match n with
  | Markup _ => None
  | Element t j c ch =>
      match (fix go (l : list node) : hit :=
               match l with
               | [] => Miss
               | x :: r =>
                   if has_id i x then Direct
                   else match update_parent i new x with
                        | Some y => Inside (y :: r)
                        | None => match go r with
                                  | Direct => Direct
                                  | Inside r' => Inside (x :: r')
                                  | Miss => Miss
                                  end
                        end
               end) ch with
      | Direct => Some (Element t j c new)
      | Inside ch' => Some (Element t j c ch')
      | Miss => None
      end
  end.

Fixpoint update_parent_in (i : string) (new : list node) (l : list node) : hit :=
  match l with
  | [] => Miss
  | x :: r =>
      if has_id i x then Direct
      else match update_parent i new x with
           | Some y => Inside (y :: r)
           | None => match update_parent_in i new r with
                     | Direct => Direct
                     | Inside r' => Inside (x :: r')
                     | Miss => Miss
                     end
           end
  end.

(** *** Charts that are alive after a log *)

Definition destroyed_in (l : list event) (h : nat) : bool :=
  existsb (fun e => match e with ChartDestroyed h' => Nat.eqb h h' | _ => false end) l.

(** The handles created on [canvas] in the log [l] (latest event first)
    and not destroyed since. *)
Fixpoint live (canvas : string) (l : list event) : list nat :=
  match l with
  | [] => []
  | ChartCreated h c _ _ _ :: r =>
      if String.eqb c canvas then h :: live canvas r else live canvas r
  | ChartDestroyed h :: r => filter (fun h' => negb (Nat.eqb h h')) (live canvas r)
  | _ :: r => live canvas r
  end.

(** *** The monad of scripts *)

Section Monad.

Context {G : Type}.

Definition M (A : Type) : Type := world G -> res A * world G.

Definition ret {A} (a : A) : M A := fun w => (Ok a, w).

Definition bind {A B} (m : M A) (k : A -> M B) : M B :=
  fun w => match m w with
           | (Ok a, w') => k a w'
           | (Throw e, w') => (Throw e, w')
           end.

Definition throw {A} (e : exn) : M A := fun w => (Throw e, w).

Definition lift {A} (r : res A) : M A := fun w => (r, w).

(** [try { m } catch (e) { h e }] *)
Definition try_catch {A} (m : M A) (h : exn -> M A) : M A :=
  fun w => match m w with
           | (Ok a, w') => (Ok a, w')
           | (Throw e, w') => h e w'
           end.

(** [m.finally(k)], and [try { m } finally { k }] *)
Definition finally {A} (m : M A) (k : M unit) : M A :=
  fun w => match m w with
           | (r, w') => match k w' with
                        | (Ok _, w'') => (r, w'')
                        | (Throw e, w'') => (Throw e, w'')
                        end
           end.

Definition read : M G := fun w => (Ok (globals w), w).

Definition write (g : G) : M unit :=
  fun w => (Ok tt, mkWorld g (dom w) (log w) (next_id w) (timers w)).

Definition emit (e : event) : M unit :=
  fun w => (Ok tt, mkWorld (globals w) (dom w) (e :: log w) (next_id w) (timers w)).

Definition fresh : M nat :=
  fun w => (Ok (next_id w),
            mkWorld (globals w) (dom w) (log w) (S (next_id w)) (timers w)).

Definition set_dom (d : list node) : M unit :=
  fun w => (Ok tt, mkWorld (globals w) d (log w) (next_id w) (timers w)).

Definition get_dom : M (list node) := fun w => (Ok (dom w), w).

Definition set_timers (t : list nat) : M unit :=
  fun w => (Ok tt, mkWorld (globals w) (dom w) (log w) (next_id w) t).

Definition get_timers : M (list nat) := fun w => (Ok (timers w), w).

Definition get_log : M (list event) := fun w => (Ok (log w), w).

End Monad.

Declare Scope js_scope.
Delimit Scope js_scope with js.
Notation "'let*' x ':=' m 'in' k" := (bind m (fun x => k))
  (at level 10, x name, m at level 100, k at level 200) : js_scope.
Notation "'let?' x ':=' r 'in' k" := (bindr r (fun x => k))
  (at level 10, x name, r at level 100, k at level 200) : js_scope.
Notation "m ';;' k" := (bind m (fun _ => k))
  (at level 100, k at level 200, right associativity) : js_scope.
Local Open Scope js_scope.

Section Dom.

Context {G : Type}.

Fixpoint for_each {A} (l : list A) (f : A -> M (G:=G) unit) : M unit :=
  match l with
  | [] => ret tt
  | x :: r => f x ;; for_each r f
  end.

Definition when (b : bool) (m : M (G:=G) unit) : M unit :=
  if b then m else ret tt.

(** A user action that may send a request: its first half, then, when
    a request was sent, the chain that runs as the request settles. *)
Definition request_then (start : M (G:=G) bool) (settle : M (G:=G) unit) : M unit :=
  let* sent := start in
  if sent then settle else ret tt.

Definition null_error (what : string) : exn :=
  type_error ("Cannot access properties of null (" ++ what ++ ")").

(** [document.getElementById(i)] is an element. *)
Definition exists_id (i : string) : M (G:=G) bool :=
  let* d := get_dom in
  ret (match find_in (has_id i) d with Some _ => true | None => false end).

(** [document.getElementById(i).getContext('2d')]: the element is there
    and is a canvas. *)
Definition getContext (i : string) : M (G:=G) unit :=
  let* d := get_dom in
  match find_in (has_id i) d with
  | Some (Element t _ _ _) =>
      if String.eqb t "canvas" then ret tt else throw (not_a_function "getContext")
  | _ => throw (null_error i)
  end.

(** [document.getElementById(i)?.getContext('2d')] is not [undefined]. *)
Definition getContext_opt (i : string) : M (G:=G) bool :=
  let* d := get_dom in
  match find_in (has_id i) d with
  | Some (Element t _ _ _) =>
      if String.eqb t "canvas" then ret true else throw (not_a_function "getContext")
  | _ => ret false
  end.

(** A use of [document.getElementById(i)] that throws on [null]. *)
Definition require (i : string) : M (G:=G) unit :=
  let* b := exists_id i in
  if b then ret tt else throw (null_error i).

(** [document.getElementById(i).innerHTML = ...]: the children of the
    element are replaced. *)
Definition set_content (i : string) (c : list node) : M (G:=G) unit :=
  let* d := get_dom in
  match update_in (has_id i) (fun _ => c) d with
  | Some d' => set_dom d'
  | None => throw (null_error i)
  end.

(** [innerHTML += ...] and [appendChild]: children are added at the end. *)
Definition add_content (i : string) (c : list node) : M (G:=G) unit :=
  let* d := get_dom in
  match update_in (has_id i) (fun old => old ++ c)%list d with
  | Some d' => set_dom d'
  | None => throw (null_error i)
  end.

(** [document.getElementById(i).querySelector(t).innerHTML = ...] and
    [... .appendChild(...)] *)
Definition set_content_within (i t : string) (c : list node) : M (G:=G) unit :=
  let* d := get_dom in
  match update_within i t (fun _ => c) d with
  | Some d' => set_dom d'
  | None => throw (null_error (i ++ " " ++ t))
  end.

Definition add_content_within (i t : string) (c : list node) : M (G:=G) unit :=
  let* d := get_dom in
  match update_within i t (fun old => old ++ c)%list d with
  | Some d' => set_dom d'
  | None => throw (null_error (i ++ " " ++ t))
  end.

(** [document.getElementById(i).parentElement.innerHTML = ...] *)
Definition set_parent_content (i : string) (c : list node) : M (G:=G) unit :=
  let* d := get_dom in
  match update_parent_in i c d with
  | Direct => set_dom c
  | Inside d' => set_dom d'
  | Miss => throw (null_error i)
  end.

Definition alert (msg : string) : M (G:=G) unit := emit (Alert msg).

(** [el.style.prop = value], [el.classList.add(cls)] *)
Definition set_style (i prop value : string) : M (G:=G) unit :=
  require i ;; emit (StyleSet i prop value).

Definition add_class (i cls : string) : M (G:=G) unit :=
  require i ;; emit (ClassAdded i cls).

Definition set_disabled (i : string) (b : bool) : M (G:=G) unit :=
  require i ;; emit (Disabled i b).

(** [el.scrollIntoView(...)] *)
Definition scroll_to (i : string) : M (G:=G) unit :=
  require i ;; emit (Scrolled i).

(** [setTimeout(f, ms)]: a fresh timer becomes pending. *)
Definition setTimeout (ms : Z) : M (G:=G) nat :=
  let* t := fresh in
  let* ts := get_timers in
  set_timers (t :: ts) ;;
  emit (TimerSet t ms) ;;
  ret t.

(** [clearTimeout(t)] *)
Definition clearTimeout (t : nat) : M (G:=G) unit :=
  let* ts := get_timers in
  set_timers (filter (fun t' => negb (Nat.eqb t t')) ts) ;;
  emit (TimerCleared t).

(** The timer [t] fires: it is no longer pending. *)
Definition timer_fires (t : nat) : M (G:=G) unit :=
  let* ts := get_timers in
  set_timers (filter (fun t' => negb (Nat.eqb t t')) ts).

(** [new Chart(ctx, config)] on the canvas [canvas] *)
Definition new_Chart (canvas kind : string) (labels data : jsval) : M (G:=G) nat :=
  let* h := fresh in
  emit (ChartCreated h canvas kind labels data) ;;
  ret h.

(** [chart.destroy()] *)
Definition destroy (h : nat) : M (G:=G) unit := emit (ChartDestroyed h).

End Dom.

(** *** Markup *)

(** The text an element shows after [el.textContent = v]. *)
Definition text_of (v : jsval) : string :=
  match v with
  | JNull => ""
  | _ => ToString v
  end.

Definition attr (name value : string) : string :=
  " " ++ name ++ "=" ++ Str.dq ++ value ++ Str.dq.

Definition tag (name attrs content : string) : string :=
  "<" ++ name ++ attrs ++ ">" ++ content ++ "</" ++ name ++ ">".

Definition div_class (cls content : string) : string :=
  tag "div" (attr "class" cls) content.

Definition p_class (cls content : string) : string :=
  tag "p" (attr "class" cls) content.

Definition no_data (content : string) : node :=
  Markup (div_class "no-data" content).

(** *** What the network answers *)

Inductive body_result : Type :=
| BodyJson (v : jsval)
| BodyInvalid (e : exn).

Inductive fetch_outcome : Type :=
| Rejected (e : exn)
| Responded (ok : bool) (status : Z) (statusText : string) (body : body_result).

End Page.

(** ** frontend/static/js/app.js *)

Module AppJs.

Import Num Js Page.
Local Open Scope js_scope.

(** The variables of the script.  [jquery] tells whether [$] is defined;
    the script loads jQuery after the page. *)
Record vars : Type := mkVars {
  currentFileId : jsval;
  availableColumns : jsval;
  currentHistogramChart : option nat;
  currentScatterChart : option nat;
  jquery : bool
}.

Definition initial : vars := mkVars JNull (JArr []) None None false.

Definition set_currentFileId (v : jsval) : M (G:=vars) unit :=
  let* g := read in
  write (mkVars v (availableColumns g) (currentHistogramChart g)
           (currentScatterChart g) (jquery g)).

Definition set_availableColumns (v : jsval) : M (G:=vars) unit :=
  let* g := read in
  write (mkVars (currentFileId g) v (currentHistogramChart g)
           (currentScatterChart g) (jquery g)).

Definition set_currentHistogramChart (h : option nat) : M (G:=vars) unit :=
  let* g := read in
  write (mkVars (currentFileId g) (availableColumns g) h
           (currentScatterChart g) (jquery g)).

Definition set_currentScatterChart (h : option nat) : M (G:=vars) unit :=
  let* g := read in
  write (mkVars (currentFileId g) (availableColumns g)
           (currentHistogramChart g) h (jquery g)).

(** *** formatFileSize

    [Math.log] and [Math.pow] are approximated by the engine: they are
    parameters of the model. *)

Section FormatFileSize.

Variable Math_log : number -> number.
Variable Math_pow : number -> number -> number.

Definition sizes : jsval := JArr [JStr "Bytes"; JStr "KB"; JStr "MB"; JStr "GB"].

Definition formatFileSize (bytes : number) : jsval :=
  if eqb bytes zero then JStr "0 Bytes"
  else
    let k := of_Z 1024 in
    let i := floor (div (Math_log bytes) (Math_log k)) in
    JNum (parseFloat (toFixed 2 (div bytes (Math_pow k i)) ++ " "
                      ++ ToString (get_opt sizes (toString i)))).

End FormatFileSize.

(** *** Helpers of the renderers *)

Definition showNotification (message type : string) : M (G:=vars) unit :=
  alert (Str.toUpperCase type ++ ": " ++ message).

(** [typeof v === 'number' ? v.toFixed(2) : 'N/A'] *)
Definition fixed2_or_na (v : jsval) : string :=
  match v with
  | JNum x => toFixed 2 x
  | _ => "N/A"
  end.

(** [v || 'N/A'] inside a template *)
Definition or_na (v : jsval) : string := ToString (or_else v (JStr "N/A")).

(** [v === 0] and [v === s] *)
Definition is_zero (v : jsval) : bool :=
  match v with
  | JNum x => eqb x zero
  | _ => false
  end.

Definition is_string (v : jsval) (s : string) : bool :=
  match v with
  | JStr s' => String.eqb s' s
  | _ => false
  end.

Definition card (html : string) : node := Element "div" "" "stat-card" [Markup html].

Definition option_node (col : jsval) : node :=
  Element "option" "" "" [Markup (text_of col)].

(** *** Statistics *)

Definition basic_card (column : string) (values : jsval) : res node :=
  let? mean := get values "mean" in
  let? min := get values "min" in
  let? max := get values "max" in
  let? std := get values "std" in
  let? median := get values "median" in
  Ok (card (tag "h4" "" column
            ++ div_class "stat-value" ("Mean: " ++ fixed2_or_na mean)
            ++ div_class "stat-description"
                 (tag "span" "" ("Min: " ++ fixed2_or_na min) ++ " | "
                  ++ tag "span" "" ("Max: " ++ fixed2_or_na max))
            ++ div_class "stat-description"
                 (tag "span" "" ("Std: " ++ fixed2_or_na std) ++ " | "
                  ++ tag "span" "" ("Median: " ++ fixed2_or_na median)))).

Definition categorical_card (column : string) (data : jsval) : res node :=
  let? top := get data "top_values" in
  let? es := entries (or_else top (JObj [])) in
  let topValues :=
    Str.join ", " (map (fun p => fst p ++ ": " ++ ToString (snd p)) (firstn 3 es)) in
  let? most := get data "most_frequent" in
  Ok (card (tag "h4" "" column
            ++ div_class "stat-value" ("Most frequent: " ++ or_na most)
            ++ div_class "stat-description"
                 ("Top values: " ++ or_na (JStr topValues)))).

Definition text_card (column : string) (data : jsval) : res node :=
  let? avg := get data "avg_length" in
  let? common := get data "most_common_value" in
  Ok (card (tag "h4" "" column
            ++ div_class "stat-value" ("Avg Length: " ++ fixed2_or_na avg)
            ++ div_class "stat-description" ("Most common: " ++ or_na common))).

Definition datetime_card (column : string) (data : jsval) : res node :=
  let? lo := get data "min_date" in
  let? hi := get data "max_date" in
  let? span := get data "time_span_days" in
  Ok (card (tag "h4" "" column
            ++ div_class "stat-value" ("Range: " ++ or_na lo ++ " → " ++ or_na hi)
            ++ div_class "stat-description"
                 ("Days span: " ++ (if is_number span then ToString span else "N/A")))).

(** The four statistics renderers share one shape: clear the container,
    then one card per column, or a placeholder. *)
Definition display_cards (container : string) (mk : string -> jsval -> res node)
    (empty : string) (stats : jsval) : M (G:=vars) unit :=
  set_content container [] ;;
  let nonempty :=
    truthy stats && match keys stats with Ok (_ :: _) => true | _ => false end in
  if nonempty then
    let* es := lift (entries stats) in
    for_each es (fun p =>
      let* c := lift (mk (fst p) (snd p)) in
      add_content container [c])
  else set_content container [no_data empty].

Definition displayBasicStats : jsval -> M (G:=vars) unit :=
  display_cards "basic-stats-content" basic_card "No numeric columns found for analysis".

Definition displayCategoricalStats : jsval -> M (G:=vars) unit :=
  display_cards "categorical-stats-content" categorical_card "No categorical columns found".

Definition displayTextStats : jsval -> M (G:=vars) unit :=
  display_cards "text-stats-content" text_card "No text columns found".

Definition displayDatetimeStats : jsval -> M (G:=vars) unit :=
  display_cards "datetime-stats-content" datetime_card "No datetime columns found".

(** *** Outliers *)

Definition five : number := of_Z 5.

(** [data.percentage > 5 ? 'warning' : 'info'] *)
Definition severity (percentage : jsval) : string :=
  if gt_number percentage five then "warning" else "info".

Definition outlier_html (sev column count percentage sample : string) : string :=
  tag "h4" (attr "class" sev) column
  ++ div_class "stat-value" (count ++ " outliers (" ++ percentage ++ "%)")
  ++ div_class "stat-description"
       (tag "strong" "" "Sample values:" ++ " " ++ sample).

Definition outlier_card (column : string) (data : jsval) : res node :=
  let? percentage := get data "percentage" in
  let sev := severity percentage in
  let? count := get data "count" in
  let? pct := call_toFixed percentage 2 in
  let? vals := get data "outlier_values" in
  let? first := call_slice0 vals 5 in
  let? sample := call_join first ", " in
  Ok (card (outlier_html sev column (ToString count) pct sample)).

Definition displayOutliers (outliers : jsval) : M (G:=vars) unit :=
  set_content "outliers-content" [] ;;
  let* ks := lift (keys outliers) in
  match ks with
  | [] =>
      set_content "outliers-content"
        [no_data "No outliers detected in numeric columns"]
  | _ =>
      let* es := lift (entries outliers) in
      for_each es (fun p =>
        let* c := lift (outlier_card (fst p) (snd p)) in
        add_content "outliers-content" [c])
  end.

(** *** Correlations *)

Definition correlation_card (corr : jsval) : res node :=
  let? c1 := get corr "column1" in
  let? c2 := get corr "column2" in
  let? r := get corr "correlation" in
  let? r3 := call_toFixed r 3 in
  let? strength := get corr "strength" in
  Ok (card (tag "h4" "" (ToString c1 ++ " ↔ " ++ ToString c2)
            ++ div_class "stat-value" (r3 ++ " (" ++ ToString strength ++ ")"))).

Definition displayCorrelations (correlations : jsval) : M (G:=vars) unit :=
  set_content "correlation-matrix" [] ;;
  set_content "strong-correlations" [] ;;
  let* err := lift (get correlations "error") in
  if truthy err then
    set_content "correlation-matrix" [no_data (ToString err)]
  else
    let* strong := lift (get correlations "strong_correlations") in
    let* many :=
      if truthy strong then
        let* len := lift (get strong "length") in ret (gt_number len zero)
      else ret false in
    if many then
      set_content "strong-correlations" [Markup (tag "h3" "" "Strong Correlations")] ;;
      let* l := lift (elements "forEach" strong) in
      for_each l (fun corr =>
        let* c := lift (correlation_card corr) in
        add_content "strong-correlations" [c])
    else
      set_content "strong-correlations" [no_data "No strong correlations found"].

(** *** Histogram *)

Definition renderHistogramChart (histogramData : jsval) (columnName : string)
  : M (G:=vars) unit :=
  let* g := read in
  match currentHistogramChart g with
  | Some h => destroy h
  | None => ret tt
  end ;;
  getContext "histogram-chart" ;;
  let* labels := lift (get histogramData "labels") in
  let* counts := lift (get histogramData "counts") in
  let* h := new_Chart "histogram-chart" "bar" labels counts in
  set_currentHistogramChart (Some h).

Definition displayHistogram (histogramData : jsval) : M (G:=vars) unit :=
  set_content "histogram-column-select" [] ;;
  let* ks := lift (keys histogramData) in
  match ks with
  | [] =>
      let* g := read in
      match currentHistogramChart g with
      | Some h => destroy h
      | None => ret tt
      end ;;
      set_parent_content "histogram-chart"
        [no_data "No numeric columns available for histogram"]
  | firstColumn :: _ =>
      for_each ks (fun col =>
        add_content "histogram-column-select" [option_node (JStr col)]) ;;
      let* first := lift (get histogramData firstColumn) in
      renderHistogramChart first firstColumn ;;
      emit (Listening "histogram-column-select" "change")
  end.

(** The [change] listener that [displayHistogram] installs, at the
    selected column. *)
Definition histogram_column_changed (histogramData : jsval) (selectedCol : string)
  : M (G:=vars) unit :=
  let* d := lift (get histogramData selectedCol) in
  renderHistogramChart d selectedCol.

(** *** Scatter plot *)

(** [data.some(item => item[col] !== undefined && typeof item[col] === 'number')] *)
Fixpoint some_numeric (col : string) (items : list jsval) : res bool :=
  match items with
  | [] => Ok false
  | item :: r =>
      let? v := get item col in
      if is_number v then Ok true else some_numeric col r
  end.

Fixpoint filter_numeric (data : jsval) (cols : list jsval) : res (list jsval) :=
  match cols with
  | [] => Ok []
  | col :: r =>
      let? items := elements "some" data in
      let? b := some_numeric (ToString col) items in
      let? rest := filter_numeric data r in
      Ok (if b then col :: rest else rest)
  end.

(** [item[xColumn] !== null && item[yColumn] !== null] *)
Definition is_null (v : jsval) : bool :=
  match v with JNull => true | _ => false end.

Fixpoint filter_points (xColumn yColumn : string) (items : list jsval)
  : res (list jsval) :=
  match items with
  | [] => Ok []
  | item :: r =>
      let? x := get item xColumn in
      let? keep := if is_null x then Ok false
                   else let? y := get item yColumn in Ok (negb (is_null y)) in
      let? rest := filter_points xColumn yColumn r in
      Ok (if keep then item :: rest else rest)
  end.

Fixpoint map_points (xColumn yColumn : string) (items : list jsval)
  : res (list jsval) :=
  match items with
  | [] => Ok []
  | item :: r =>
      let? x := get item xColumn in
      let? y := get item yColumn in
      let? rest := map_points xColumn yColumn r in
      Ok (JObj [("x", x); ("y", y)] :: rest)
  end.

Definition renderScatterChart (data : jsval) (xColumn yColumn : string)
  : M (G:=vars) unit :=
  let* g := read in
  match currentScatterChart g with
  | Some h => destroy h
  | None => ret tt
  end ;;
  let* items := lift (elements "filter" data) in
  let* filteredData := lift (filter_points xColumn yColumn items) in
  getContext "scatter-chart" ;;
  let* points := lift (map_points xColumn yColumn filteredData) in
  let* h := new_Chart "scatter-chart" "scatter" JUndefined (JArr points) in
  set_currentScatterChart (Some h).

(** The value a [select] reports after [select.value = v]: the option
    with that value, or the empty string when there is none. *)
Definition select_value (options : list jsval) (v : jsval) : string :=
  let s := ToString v in
  if existsb (fun o => String.eqb (ToString o) s) options then s else "".

Definition displayScatterPlot (scatterData : jsval) : M (G:=vars) unit :=
  set_content "x-axis-select" [] ;;
  set_content "y-axis-select" [] ;;
  let* err := lift (get scatterData "error") in
  if truthy err then
    let* g := read in
    match currentScatterChart g with
    | Some h => destroy h
    | None => ret tt
    end ;;
    set_parent_content "scatter-chart" [no_data (ToString err)]
  else
    let* g := read in
    let* cols := lift (elements "filter" (availableColumns g)) in
    let* data := lift (get scatterData "data") in
    let* numericColumns := lift (filter_numeric data cols) in
    if (List.length numericColumns <? 2)%nat then
      set_parent_content "scatter-chart"
        [no_data "Need at least two numeric columns for scatter plot"]
    else
      for_each numericColumns (fun col =>
        add_content "x-axis-select" [option_node col] ;;
        add_content "y-axis-select" [option_node col]) ;;
      let* xc := lift (get scatterData "x_column") in
      let* yc := lift (get scatterData "y_column") in
      let x := select_value numericColumns (or_else xc (nth 0 numericColumns JUndefined)) in
      let y := select_value numericColumns (or_else yc (nth 1 numericColumns JUndefined)) in
      renderScatterChart data x y ;;
      emit (Listening "x-axis-select" "change") ;;
      emit (Listening "y-axis-select" "change").

(** *** Data quality *)

Definition missing_html (missingValues percentage listing : string) : string :=
  tag "h4" "" "Missing Values"
  ++ div_class "stat-value" (missingValues ++ " missing (" ++ percentage ++ "%)")
  ++ div_class "stat-description"
       (tag "strong" "" "Columns with missing values:" ++ " " ++ listing).

(** [Object.values(m).reduce((a, b) => a + b, 0)] *)
Definition total (vals : list jsval) : jsval := fold_left plus vals (num 0).

Definition displayDataQuality (qualityData : jsval) : M (G:=vars) unit :=
  set_content "quality-metrics" [] ;;
  let* mv := lift (get qualityData "missing_values") in
  let* vals := lift (values mv) in
  let missingValues := total vals in
  let* ks := lift (keys mv) in
  let* shape := lift (get qualityData "shape") in
  let* rows := lift (get shape "0") in
  let totalCells := times (num (Z.of_nat (List.length ks))) rows in
  let missingPercentage := times (divide missingValues totalCells) (num 100) in
  let* pct := lift (call_toFixed missingPercentage 2) in
  let* es := lift (entries mv) in
  let listing :=
    Str.join ", "
      (map (fun p => fst p ++ " (" ++ ToString (snd p) ++ ")")
           (filter (fun p => gt_number (snd p) zero) es)) in
  add_content "quality-metrics"
    [card (missing_html (ToString missingValues) pct listing)] ;;
  let* dup := lift (get qualityData "duplicates") in
  add_content "quality-metrics"
    [card (tag "h4" "" "Duplicate Rows"
           ++ div_class "stat-value" (ToString dup ++ " duplicates"))] ;;
  let* empty := lift (get qualityData "empty_columns") in
  let* elen := lift (get empty "length") in
  let* const := lift (get qualityData "constant_columns") in
  let* some_issue :=
    if gt_number elen zero then ret true
    else let* clen := lift (get const "length") in ret (gt_number clen zero) in
  if some_issue then
    let* i1 :=
      if gt_number elen zero then
        let* s := lift (call_join empty ", ") in ret ["Empty columns: " ++ s]
      else ret [] in
    let* clen := lift (get const "length") in
    let* i2 :=
      if gt_number clen zero then
        let* s := lift (call_join const ", ") in ret ["Constant columns: " ++ s]
      else ret [] in
    add_content "quality-metrics"
      [card (tag "h4" (attr "class" "warning") "Data Quality Issues"
             ++ div_class "stat-description" (Str.join "<br>" (i1 ++ i2)%list))]
  else ret tt.

(** *** Insights *)

Definition insight_card (insight : jsval) : res node :=
  let? sev := get insight "severity" in
  let icon :=
    if is_string sev "warning" then tag "i" (attr "class" "fas fa-exclamation-triangle") ""
    else if is_string sev "danger" then tag "i" (attr "class" "fas fa-exclamation-circle") ""
    else tag "i" (attr "class" "fas fa-info-circle") "" in
  let? title := get insight "title" in
  let? description := get insight "description" in
  Ok (Element "div" "" ("insight-card " ++ ToString (or_else sev (JStr "info")))
        [Markup (tag "h3" "" (icon ++ " " ++ ToString title)
                 ++ tag "p" "" (ToString description))]).

Definition displayInsights (insights : jsval) : M (G:=vars) unit :=
  set_content "insights-container" [] ;;
  let* none :=
    if negb (truthy insights) then ret true
    else let* len := lift (get insights "length") in ret (is_zero len) in
  if none then
    set_content "insights-container" [no_data "No insights generated"]
  else
    let* l := lift (elements "forEach" insights) in
    for_each l (fun insight =>
      let* c := lift (insight_card insight) in
      add_content "insights-container" [c]).

(** *** Requests to [/analyze]

    Each loader returns at once when no file is loaded, otherwise it
    sends one request.  The second half of each loader, [..._settle],
    is the promise chain that runs when the request settles. *)

Definition analyze_payload (operation : string) (fileId : jsval)
    (columns : option (list string)) : jsval :=
  JObj ([("operation", JStr operation); ("file_id", fileId)]
        ++ match columns with
           | Some (c :: r) => [("columns", JArr (map JStr (c :: r)))]
           | _ => []
           end)%list.

(** The common first half: [true] when a request was sent. *)
Definition load (operation : string) (columns : option (list string))
  : M (G:=vars) bool :=
  let* g := read in
  if negb (truthy (currentFileId g)) then ret false
  else
    emit (FetchSent "/analyze"
            (Json (analyze_payload operation (currentFileId g) columns))) ;;
    ret true.

(** [.then(response => response.json()).then(on_data).catch(...)] *)
Definition settle (o : fetch_outcome) (on_data : jsval -> M (G:=vars) unit)
    (prefix : string) : M (G:=vars) unit :=
  try_catch
    match o with
    | Rejected e => throw e
    | Responded _ _ _ (BodyInvalid e) => throw e
    | Responded _ _ _ (BodyJson data) => on_data data
    end
    (fun error => showNotification (prefix ++ exn_message error) "error").

(** [if (data.success) display(data.result) else showNotification(...)] *)
Definition on_success (display : jsval -> M (G:=vars) unit) (failed : string)
    (data : jsval) : M (G:=vars) unit :=
  let* success := lift (get data "success") in
  if truthy success then
    let* result := lift (get data "result") in
    display result
  else
    let* err := lift (get data "error") in
    showNotification (ToString (or_else err (JStr failed))) "error".

Definition loadBasicStats (columns : option (list string)) : M (G:=vars) bool :=
  load "basic_stats" columns.

Definition loadBasicStats_data (data : jsval) : M (G:=vars) unit :=
  let* success := lift (get data "success") in
  let* result := if truthy success then lift (get data "result") else ret success in
  if truthy result then
    let* numeric := lift (get result "numeric_summary") in
    displayBasicStats numeric ;;
    let* categorical := lift (get result "categorical_summary") in
    displayCategoricalStats categorical ;;
    let* text := lift (get result "text_summary") in
    displayTextStats text ;;
    let* datetime := lift (get result "datetime_summary") in
    displayDatetimeStats datetime
  else
    let* err := lift (get data "error") in
    showNotification (ToString (or_else err (JStr "Failed to load statistics"))) "error".

Definition loadBasicStats_settle (o : fetch_outcome) : M (G:=vars) unit :=
  settle o loadBasicStats_data "Error loading basic stats: ".

Definition loadOutliers (columns : option (list string)) : M (G:=vars) bool :=
  load "outliers" columns.

Definition loadOutliers_settle (o : fetch_outcome) : M (G:=vars) unit :=
  settle o (on_success displayOutliers "Failed to load outliers")
    "Error loading outliers: ".

Definition loadCorrelations (columns : option (list string)) : M (G:=vars) bool :=
  load "correlations" columns.

Definition loadCorrelations_settle (o : fetch_outcome) : M (G:=vars) unit :=
  settle o (on_success displayCorrelations "Failed to load correlations")
    "Error loading correlations: ".

Definition loadHistogram (columns : option (list string)) : M (G:=vars) bool :=
  load "histogram" columns.

Definition loadHistogram_settle (o : fetch_outcome) : M (G:=vars) unit :=
  settle o (on_success displayHistogram "Failed to load histogram")
    "Error loading histogram: ".

Definition loadScatterPlot (columns : option (list string)) : M (G:=vars) bool :=
  load "scatter_plot" columns.

Definition loadScatterPlot_settle (o : fetch_outcome) : M (G:=vars) unit :=
  settle o (on_success displayScatterPlot "Failed to load scatter plot")
    "Error loading scatter plot: ".

Definition loadDataQuality (columns : option (list string)) : M (G:=vars) bool :=
  load "data_quality" columns.

Definition loadDataQuality_settle (o : fetch_outcome) : M (G:=vars) unit :=
  settle o (on_success displayDataQuality "Failed to load data quality report")
    "Error loading data quality report: ".

Definition spinner (text : string) : list node :=
  [Markup (tag "i" (attr "class" "fas fa-spinner fa-spin") "" ++ " " ++ text)].

Definition loadInsights (columns : option (list string)) : M (G:=vars) bool :=
  let* g := read in
  if negb (truthy (currentFileId g)) then ret false
  else
    set_content "refresh-insights" (spinner "Generating...") ;;
    set_disabled "refresh-insights" true ;;
    emit (FetchSent "/analyze"
            (Json (analyze_payload "insights" (currentFileId g) columns))) ;;
    ret true.

Definition loadInsights_data (data : jsval) : M (G:=vars) unit :=
  let* success := lift (get data "success") in
  if truthy success then
    let* result := lift (get data "result") in
    displayInsights result ;;
    showNotification "Insights generated successfully!" "success"
  else
    let* err := lift (get data "error") in
    showNotification (ToString (or_else err (JStr "Failed to generate insights"))) "error".

Definition loadInsights_settle (o : fetch_outcome) : M (G:=vars) unit :=
  finally
    (settle o loadInsights_data "Error generating insights: ")
    (set_content "refresh-insights"
       [Markup (tag "i" (attr "class" "fas fa-sync-alt") "" ++ " Generate New Insights")] ;;
     set_disabled "refresh-insights" false).

(** *** Upload *)

Definition updateColumnSelector : M (G:=vars) unit :=
  set_content "column-select" [] ;;
  let* g := read in
  let* cols := lift (elements "forEach" (availableColumns g)) in
  for_each cols (fun col =>
    add_content "column-select" [option_node col]) ;;
  if jquery g then emit (Select2 "column-select")
  else throw (mkExn "ReferenceError" "$ is not defined").

(** What the upload request comes to. *)
Inductive xhr_outcome : Type :=
| XhrError
| XhrLoaded (status : Z) (body : body_result).

Definition warning_label (text : string) : list node :=
  [Markup (tag "i" (attr "class" "fas fa-exclamation-triangle") "" ++ " " ++ text)].

(** The first half of [uploadFile]: the request is sent.  The progress
    listener, which only relabels the button, is left out. *)
Definition uploadFile (file_name : string) : M (G:=vars) unit :=
  set_style "upload-progress" "display" "block" ;;
  set_content "upload-btn" (spinner "Analysing...") ;;
  set_disabled "upload-btn" true ;;
  emit (XhrSent "/upload" (FormFile file_name)) ;;
  set_content "upload-btn" (spinner "Starting upload...").

(** [xhr.onload] *)
Definition uploadFile_onload (status : Z) (body : body_result) : M (G:=vars) unit :=
  (if status =? 200 then
     let* data := match body with
                  | BodyJson v => ret v
                  | BodyInvalid e => throw e
                  end in
     set_content "upload-btn" (spinner "Analyzing file...") ;;
     let* success := lift (get data "success") in
     if truthy success then
       let* filename := lift (get data "filename") in
       set_currentFileId filename ;;
       let* cols := lift (get data "available_columns") in
       set_availableColumns (or_else cols (JArr [])) ;;
       set_content "upload-btn"
         [Markup (tag "i" (attr "class" "fas fa-check") "" ++ " Analysis complete!")] ;;
       let* t := setTimeout 2000 in
       updateColumnSelector ;;
       emit (Clicked ".main-nav li:nth-child(2) a") ;;
       let* sent := loadBasicStats None in
       ret tt
     else
       set_content "upload-btn" (warning_label "Upload failed") ;;
       set_disabled "upload-btn" false
   else
     set_content "upload-btn" (warning_label "Upload error") ;;
     set_disabled "upload-btn" false) ;;
  set_style "upload-progress" "display" "none".

(** [xhr.onerror] *)
Definition uploadFile_onerror : M (G:=vars) unit :=
  set_content "upload-btn" (warning_label "Connection error") ;;
  set_disabled "upload-btn" false ;;
  set_style "upload-progress" "display" "none".

Definition uploadFile_settle (o : xhr_outcome) : M (G:=vars) unit :=
  match o with
  | XhrError => uploadFile_onerror
  | XhrLoaded status body => uploadFile_onload status body
  end.

(** *** The preview of a chosen file

    [content] is the text of the file as the reader hands it over, in
    code units. *)

Definition excel_note : list node :=
  [Markup (tag "tr" ""
             (tag "td" (attr "colspan" "10")
                "Excel preview not available. Upload to see data."))].

(** [cell.length > 50 ? cell.substring(0, 50) + '...' : cell] *)
Definition preview_text (cell : list N) : list N :=
  if (50 <? List.length cell)%nat
  then (firstn 50 cell ++ Str.units "...")%list
  else cell.

(** [td.textContent = ...] for each cell of a row *)
Definition preview_row (row : list (list N)) : node :=
  Element "tr" "" ""
    (map (fun cell => Element "td" "" "" [Markup (Str.utf8 (preview_text cell))])
       row).

(** [`Column ${index + 1}`] for each cell of the first row *)
Definition preview_header (row : list (list N)) : node :=
  Element "tr" "" ""
    (map (fun index =>
            Element "th" "" ""
              [Markup ("Column " ++ ToString (plus (num (Z.of_nat index)) (num 1)))])
         (seq 0 (List.length row))).

(** [rows.slice(1, 6)] *)
Definition slice_1_6 {A} (rows : list A) : list A := firstn 5 (skipn 1 rows).

(** [previewFile]: [true] when the file is handed to the reader. *)
Definition previewFile (name : string) : M (G:=vars) bool :=
  if Str.endsWith name ".csv" then ret true
  else set_content "preview-table" excel_note ;; ret false.

(** [reader.onload]: the rows are the first six lines, cut at the
    commas. *)
Definition previewFile_onload (name : string) (content : list N)
  : M (G:=vars) unit :=
  let csv := Str.endsWith name ".csv" in
  if negb csv && Str.endsWith name ".xlsx" then
    set_content "preview-table" excel_note
  else
    let rows :=
      if csv
      then map (Str.split 44) (firstn 6 (Str.split 10 content))
      else [] in
    set_content "preview-table" [] ;;
    let headerRow :=
      match rows with
      | first :: _ => preview_header first
      | [] => Element "tr" "" "" []
      end in
    add_content "preview-table" [Element "thead" "" "" [headerRow]] ;;
    add_content "preview-table"
      [Element "tbody" "" "" (map preview_row (slice_1_6 rows))].

End AppJs.

(** ** What script (11).js and the third variant share

    Both keep the loaded analysis in [currentData] and their charts in
    the object [charts], under the keys [chart1], [chart2], [chart3]. *)

Module Shared.

Import Num Js Page.
Local Open Scope js_scope.

Record vars : Type := mkVars {
  currentData : jsval;
  chart1 : option nat;
  chart2 : option nat;
  chart3 : option nat
}.

Definition initial : vars := mkVars JNull None None None.

Definition set_currentData (v : jsval) : M (G:=vars) unit :=
  let* g := read in write (mkVars v (chart1 g) (chart2 g) (chart3 g)).

Definition set_chart1 (h : nat) : M (G:=vars) unit :=
  let* g := read in write (mkVars (currentData g) (Some h) (chart2 g) (chart3 g)).

Definition set_chart2 (h : nat) : M (G:=vars) unit :=
  let* g := read in write (mkVars (currentData g) (chart1 g) (Some h) (chart3 g)).

Definition set_chart3 (h : nat) : M (G:=vars) unit :=
  let* g := read in write (mkVars (currentData g) (chart1 g) (chart2 g) (Some h)).

(** [if (charts.k) charts.k.destroy()] *)
Definition destroy_if (h : option nat) : M (G:=vars) unit :=
  match h with
  | Some h => destroy h
  | None => ret tt
  end.

(** [name.split(".").pop().toLowerCase()] *)
Fixpoint after_last_dot (l acc : list ascii) : list ascii :=
  match l with
  | [] => acc
  | c :: r => if Ascii.eqb c "." then after_last_dot r [] else after_last_dot r (acc ++ [c])%list
  end.

Definition extension (name : string) : string :=
  Str.toLowerCase (Str.of_chars (after_last_dot (Str.chars name) [])).

Definition includes (l : list string) (s : string) : bool :=
  existsb (String.eqb s) l.

(** [s.replace('_', ' ')]: the first underscore only. *)
Fixpoint replace_first (l : list ascii) : list ascii :=
  match l with
  | [] => []
  | c :: r => if Ascii.eqb c "_" then " "%char :: r else c :: replace_first r
  end.

(** [v === 0] *)
Definition is_zero (v : jsval) : bool :=
  match v with
  | JNum x => eqb x zero
  | _ => false
  end.

(** [hideLoading]: the modal of the page, when one was made, is hidden. *)
Definition hideLoading : M (G:=vars) unit :=
  let* l := get_log in
  if existsb (fun e => match e with ModalShown => true | _ => false end) l
  then emit ModalHidden else ret tt.

Definition abort_error : exn := mkExn "AbortError" "The user aborted a request.".

(** When an upload settles: before the 10 s timer, or not. *)
Inductive upload_outcome : Type :=
| Settles (o : fetch_outcome)
| TimesOut.

Definition insight_class (severity : jsval) : string :=
  let s := ToString severity in
  if String.eqb s "info" then "border-info text-info bg-info-light"
  else if String.eqb s "warning" then "border-warning text-warning bg-warning-light"
  else if String.eqb s "critical" then "border-danger text-danger bg-danger-light"
  else "border-info text-info bg-info-light".

Definition insight_item (insight : jsval) : res node :=
  let? sev := get insight "severity" in
  let? title := get insight "title" in
  let? description := get insight "description" in
  Ok (Element "div" "" ("insight-item " ++ insight_class sev)
        [Markup (div_class "insight-title" (ToString (or_else title (JStr "Untitled")))
                 ++ div_class "insight-description"
                      (ToString (or_else description (JStr "No description"))))]).

(** [displayInsights] is the same in both scripts. *)
Definition displayInsights (insights : jsval) : M (G:=vars) unit :=
  set_content "insightsContainer" [Markup (tag "h6" "" "Data Insights")] ;;
  let* none :=
    if negb (truthy insights) then ret true
    else let* len := lift (get insights "length") in ret (is_zero len) in
  if none then
    add_content "insightsContainer"
      [Markup (p_class "text-muted" "No specific insights detected.")]
  else
    let* l := lift (elements "forEach" insights) in
    for_each l (fun insight =>
      let* c := lift (insight_item insight) in
      add_content "insightsContainer" [c]).

Definition correlation_item (corr : jsval) : res node :=
  let? strength := get corr "strength" in
  let? s1 := call_toLowerCase strength in
  let? s2 := call_toLowerCase strength in
  let? s3 := call_toLowerCase strength in
  let colour (s : string) := if String.eqb s "strong" then "success" else "warning" in
  let? c1 := get corr "column1" in
  let? c2 := get corr "column2" in
  let? r := get corr "correlation" in
  let? r3 := call_toFixed r 3 in
  Ok (Element "div" ""
        ("insight-item border-" ++ colour s1 ++ " text-" ++ colour s2
         ++ " bg-" ++ colour s3 ++ "-light")
        [Markup (div_class "insight-title" (ToString c1 ++ " vs " ++ ToString c2)
                 ++ div_class "insight-description"
                      ("Correlation: " ++ r3 ++ " (" ++ ToString strength ++ ")"))]).

(** [displayCorrelations] is the same in both scripts. *)
Definition displayCorrelations (correlations : jsval) : M (G:=vars) unit :=
  set_content "insightsContainer" [Markup (tag "h6" "" "Correlation Analysis")] ;;
  let* none :=
    if negb (truthy correlations) then ret true
    else
      let* strong := lift (get correlations "strong_correlations") in
      if negb (truthy strong) then ret true
      else let* len := lift (get strong "length") in ret (is_zero len) in
  if none then
    add_content "insightsContainer"
      [Markup (p_class "text-muted" "No strong correlations found.")]
  else
    let* strong := lift (get correlations "strong_correlations") in
    let* l := lift (elements "forEach" strong) in
    for_each l (fun corr =>
      let* c := lift (correlation_item corr) in
      add_content "insightsContainer" [c]).

(** [Object.values(numericSummary).map(col => col.mean || 0)] *)
Fixpoint means (cols : list jsval) : res (list jsval) :=
  match cols with
  | [] => Ok []
  | col :: r =>
      let? m := get col "mean" in
      let? rest := means r in
      Ok (or_else m (num 0) :: rest)
  end.

(** [scatterData.data.map(row => ({ x: row[xc] || 0, y: row[yc] || 0 }))] *)
Fixpoint points (xc yc : string) (rows : list jsval) : res (list jsval) :=
  match rows with
  | [] => Ok []
  | row :: r =>
      let? x := get row xc in
      let? y := get row yc in
      let? rest := points xc yc r in
      Ok (JObj [("x", or_else x (num 0)); ("y", or_else y (num 0))] :: rest)
  end.

(** [!scatterData || scatterData.error || !scatterData.data
     || !scatterData.x_column || !scatterData.y_column] *)
Definition scatter_invalid (scatterData : jsval) : bool :=
  negb (truthy scatterData)
  || truthy (get_opt scatterData "error")
  || negb (truthy (get_opt scatterData "data"))
  || negb (truthy (get_opt scatterData "x_column"))
  || negb (truthy (get_opt scatterData "y_column")).

(** The chart that both versions of [createScatterPlot] construct. *)
Definition scatter_chart (scatterData : jsval) : M (G:=vars) unit :=
  let* yc := lift (get scatterData "y_column") in
  let* xc := lift (get scatterData "x_column") in
  let* data := lift (get scatterData "data") in
  let* rows := lift (elements "map" data) in
  let* pts := lift (points (ToString xc) (ToString yc) rows) in
  let* h := new_Chart "chart3" "scatter" JUndefined (JArr pts) in
  set_chart3 h.

(** The chart that both versions of [createSampleHistogram] construct. *)
Definition histogram_chart (histogramData : jsval) (col : string)
  : M (G:=vars) unit :=
  let* d := lift (get histogramData col) in
  let* labels := lift (get d "labels") in
  let* d' := lift (get histogramData col) in
  let* counts := lift (get d' "counts") in
  let* h := new_Chart "chart3" "bar" labels counts in
  set_chart3 h.

(** The chart that both versions of [createColumnDistributionChart]
    construct. *)
Definition distribution_chart (numericSummary : jsval) : M (G:=vars) unit :=
  let* ks := lift (keys numericSummary) in
  let* vs := lift (values numericSummary) in
  let* ms := lift (means vs) in
  let* h := new_Chart "chart1" "bar" (JArr (map JStr ks)) (JArr ms) in
  set_chart1 h.

Definition canvas (i : string) : node :=
  Element "div" "" "chart-container" [Element "canvas" i "" []].

(** [Object.keys(v || {}).length] *)
Definition count_keys (v : jsval) : res jsval :=
  let? ks := keys (or_else v (JObj [])) in
  Ok (num (Z.of_nat (List.length ks))).

Definition stats_item (label : string) (value : jsval) : node :=
  Element "div" "" "stats-item col-md-3"
    [Markup (tag "h6" "" label ++ p_class "stats-value" (ToString value))].

End Shared.

(** ** frontend/script (11).js *)

Module Script11.

Import Num Js Page Shared.
Local Open Scope js_scope.

Definition showLoading : M (G:=vars) unit :=
  let* b := exists_id "loadingModal" in
  if b then emit ModalShown else ret tt.

Definition displayNoResults (operation message : string) : M (G:=vars) unit :=
  set_content "insightsContainer"
    [Markup (tag "h6" ""
               (Str.toUpperCase (Str.of_chars (replace_first (Str.chars operation)))
                ++ " Results"))] ;;
  add_content "insightsContainer" [Markup (p_class "text-muted" message)].

(** [numericSummary[column]?.mean?.toFixed(2) || '-'] *)
Definition preview_value (numericSummary column : jsval) : res string :=
  let? entry := get numericSummary (ToString column) in
  match entry with
  | JUndefined | JNull => Ok "-"
  | _ =>
      let? mean := get entry "mean" in
      match mean with
      | JUndefined | JNull => Ok "-"
      | _ =>
          let? s := call_toFixed mean 2 in
          Ok (ToString (or_else (JStr s) (JStr "-")))
      end
  end.

Fixpoint preview_cells (numericSummary : jsval) (columns : list jsval)
  : res (list node) :=
  match columns with
  | [] => Ok []
  | column :: r =>
      let? v := preview_value numericSummary column in
      let? rest := preview_cells numericSummary r in
      Ok (Element "td" "" "" [Markup v] :: rest)
  end.

(** The rows [i = 0 .. 4] with [i < Math.min(rows, 5)]. *)
Definition preview_rows (rows : jsval) : list Z :=
  filter (fun i => ltb (of_Z i) (ToNumber rows)) [0; 1; 2; 3; 4].

Definition displayDataPreview (stats : jsval) : M (G:=vars) unit :=
  set_content_within "dataTable" "thead" [] ;;
  set_content_within "dataTable" "tbody" [] ;;
  let* none :=
    if negb (truthy stats) then ret true
    else
      let* columns := lift (get stats "columns") in
      if negb (truthy columns) then ret true
      else
        let* shape := lift (get stats "shape") in
        let* rows := lift (get shape "0") in
        ret (is_zero rows) in
  if none then
    alert "No data available for preview." ;;
    hideLoading
  else
    let* columns := lift (get stats "columns") in
    let* cols := lift (elements "forEach" columns) in
    add_content_within "dataTable" "thead"
      [Element "tr" "" ""
         (map (fun column => Element "th" "" "" [Markup (text_of column)]) cols)] ;;
    let* ns := lift (get stats "numeric_summary") in
    let numericSummary := or_else ns (JObj []) in
    let* shape := lift (get stats "shape") in
    let* rows := lift (get shape "0") in
    for_each (preview_rows rows) (fun _ =>
      let* columns := lift (get stats "columns") in
      let* cols := lift (elements "forEach" columns) in
      let* cells := lift (preview_cells numericSummary cols) in
      add_content_within "dataTable" "tbody" [Element "tr" "" "" cells]) ;;
    set_style "preview-section" "display" "block" ;;
    add_class "preview-section" "fade-in".

Definition displayStatistics (stats : jsval) : M (G:=vars) unit :=
  set_content "statsContainer" [Markup (tag "h6" "" "Statistics")] ;;
  let* none :=
    if negb (truthy stats) then ret true
    else let* shape := lift (get stats "shape") in ret (negb (truthy shape)) in
  if none then
    add_content "statsContainer"
      [Markup (p_class "text-muted" "No statistics available.")]
  else
    let* shape := lift (get stats "shape") in
    let* rows := lift (get shape "0") in
    let* columns := lift (get shape "1") in
    let* ns := lift (get stats "numeric_summary") in
    let* numeric := lift (count_keys ns) in
    for_each [("Total Rows", rows); ("Total Columns", columns);
              ("Numeric Columns", numeric)]
      (fun p => add_content "statsContainer" [stats_item (fst p) (snd p)]).

Definition outlier_item (col : string) (data : jsval) : res node :=
  let? count := get data "count" in
  let? percentage := get data "percentage" in
  let? pct := call_toFixed percentage 2 in
  let? vals := get data "outlier_values" in
  let? sample := call_join vals ", " in
  Ok (Element "div" "" "insight-item border-warning text-warning bg-warning-light"
        [Markup (div_class "insight-title" ("Outliers in " ++ col)
                 ++ div_class "insight-description"
                      ("Found " ++ ToString count ++ " outliers (" ++ pct ++ "%): "
                       ++ sample))]).

Definition displayOutliers (outliers : jsval) : M (G:=vars) unit :=
  set_content "insightsContainer" [Markup (tag "h6" "" "Outlier Detection Results")] ;;
  let none :=
    negb (truthy outliers)
    || match keys outliers with Ok [] => true | _ => false end in
  if none then
    add_content "insightsContainer"
      [Markup (p_class "text-success" "No significant outliers detected.")]
  else
    for_each (for_in_keys outliers) (fun col =>
      let* data := lift (get outliers col) in
      let* c := lift (outlier_item col data) in
      add_content "insightsContainer" [c]).

Definition populateFilterColumns (stats : jsval) : M (G:=vars) unit :=
  let* b := exists_id "columnSelect" in
  if negb b then ret tt
  else
    set_content "columnSelect"
      [Markup (tag "option" (attr "value" "") "Select Column")] ;;
    let* ns := lift (get stats "numeric_summary") in
    let* ks := lift (keys (or_else ns (JObj []))) in
    for_each ks (fun col =>
      add_content "columnSelect" [Element "option" "" "" [Markup col]]).

Definition createColumnDistributionChart (stats : jsval) : M (G:=vars) unit :=
  let* ctx := getContext_opt "chart1" in
  if negb ctx then ret tt
  else
    let* g := read in
    destroy_if (chart1 g) ;;
    let* ns := lift (get stats "numeric_summary") in
    let numericSummary := or_else ns (JObj []) in
    let* ks := lift (keys numericSummary) in
    match ks with
    | [] =>
        set_content "visualization-section"
          [Markup (p_class "text-muted" "No numeric data for charts.")]
    | _ => distribution_chart numericSummary
    end.

Definition createSampleHistogram (histogramData : jsval) : M (G:=vars) unit :=
  let* ctx := getContext_opt "chart3" in
  if negb ctx then ret tt
  else
    let* g := read in
    destroy_if (chart3 g) ;;
    let none :=
      negb (truthy histogramData)
      || match keys histogramData with Ok [] => true | _ => false end in
    if none then
      set_content "visualization-section"
        [Markup (p_class "text-muted" "No histogram data available.")]
    else
      let* ks := lift (keys histogramData) in
      let col := nth 0 ks "" in
      let* d := lift (get histogramData col) in
      if negb (truthy (JStr col)) || negb (truthy d) then ret tt
      else histogram_chart histogramData col.

Definition scatter_note (text : string) : list node :=
  [Markup (tag "h6" "" "Scatter Plot Results" ++ p_class "text-muted" text)].

Definition createScatterPlot (scatterData : jsval) : M (G:=vars) unit :=
  let* ctx := getContext_opt "chart3" in
  if negb ctx then
    set_content "insightsContainer"
      (scatter_note "Visualization error: Scatter plot canvas not found.")
  else
    let* g := read in
    destroy_if (chart3 g) ;;
    if scatter_invalid scatterData then
      set_content "insightsContainer" (scatter_note "No valid data for scatter plot.")
    else
      try_catch (scatter_chart scatterData)
        (fun error =>
           set_content "insightsContainer"
             (scatter_note ("Error creating scatter plot: " ++ exn_message error))).

Definition createInitialCharts (analysis : jsval) : M (G:=vars) unit :=
  set_content "visualization-section" [] ;;
  let* none :=
    if negb (truthy analysis) then ret true
    else let* bs := lift (get analysis "basic_statistics") in ret (negb (truthy bs)) in
  if none then
    set_content "visualization-section"
      [Markup (p_class "text-muted" "No chart data available.")]
  else
    set_content "visualization-section" [canvas "chart1"; canvas "chart3"] ;;
    let* bs := lift (get analysis "basic_statistics") in
    createColumnDistributionChart bs ;;
    let* hd := lift (get analysis "histogram_data") in
    createSampleHistogram hd ;;
    set_style "visualization-section" "display" "block".

(** *** Upload *)

(** The first half of [processFiles]: checks, then the request and its
    10 s timer.  The result is the timer when a request was sent. *)
Definition processFiles (files : list string) : M (G:=vars) (option nat) :=
  match files with
  | [] => alert "No file selected." ;; ret None
  | file :: _ =>
      if negb (includes ["csv"; "xlsx"] (extension file)) then
        alert "Unsupported file format. Please use CSV or Excel (.xlsx)." ;;
        ret None
      else
        showLoading ;;
        let* timeoutId := setTimeout 10000 in
        emit (FetchSent "/upload" (FormFile file)) ;;
        ret (Some timeoutId)
  end.

(** The callback of the timer. *)
Definition processFiles_timeout (timeoutId : nat) : M (G:=vars) unit :=
  timer_fires timeoutId ;;
  emit Aborted ;;
  alert "Upload request timed out." ;;
  hideLoading.

(** The promise chain of [processFiles]. *)
Definition processFiles_settle (timeoutId : nat) (o : fetch_outcome)
  : M (G:=vars) unit :=
  finally
    (try_catch
       match o with
       | Rejected e => throw e
       | Responded ok _ statusText body =>
           clearTimeout timeoutId ;;
           if negb ok then throw (new_Error ("Upload failed: " ++ statusText))
           else
             let* data := match body with
                          | BodyJson v => ret v
                          | BodyInvalid e => throw e
                          end in
             let* err := lift (get data "error") in
             if truthy err then throw (new_Error (ToString err))
             else
               let* analysis := lift (get data "analysis") in
               set_currentData analysis ;;
               let* bs := lift (get analysis "basic_statistics") in
               displayDataPreview bs ;;
               let* insights := lift (get analysis "insights") in
               displayInsights insights ;;
               let* bs' := lift (get analysis "basic_statistics") in
               populateFilterColumns bs' ;;
               createInitialCharts analysis ;;
               set_style "analysis-section" "display" "block" ;;
               set_style "visualization-section" "display" "block"
       end
       (fun error => alert ("Error processing file: " ++ exn_message error)))
    hideLoading.

(** A whole upload: the request, then the timer or the answer. *)
Definition processFiles_run (files : list string) (o : upload_outcome)
  : M (G:=vars) unit :=
  let* sent := processFiles files in
  match sent with
  | None => ret tt
  | Some timeoutId =>
      match o with
      | Settles o => processFiles_settle timeoutId o
      | TimesOut =>
          processFiles_timeout timeoutId ;;
          processFiles_settle timeoutId (Rejected abort_error)
      end
  end.

(** *** Analysis *)

Definition performAnalysis (operation : string) : M (G:=vars) bool :=
  let* g := read in
  if negb (truthy (currentData g)) then
    alert "Please upload data first" ;;
    hideLoading ;;
    ret false
  else
    showLoading ;;
    emit (FetchSent "/analyze" (Json (JObj [("operation", JStr operation)]))) ;;
    ret true.

Definition render (operation : string) (result : jsval) : M (G:=vars) unit :=
  if String.eqb operation "basic_stats" then displayStatistics result
  else if String.eqb operation "outliers" then displayOutliers result
  else if String.eqb operation "correlations" then displayCorrelations result
  else if String.eqb operation "histogram" then createSampleHistogram result
  else if String.eqb operation "scatter_plot" then createScatterPlot result
  else ret tt.

Definition performAnalysis_settle (operation : string) (o : fetch_outcome)
  : M (G:=vars) unit :=
  finally
    (try_catch
       match o with
       | Rejected e => throw e
       | Responded ok _ statusText body =>
           if negb ok then throw (new_Error ("Analysis failed: " ++ statusText))
           else
             let* data := match body with
                          | BodyJson v => ret v
                          | BodyInvalid e => throw e
                          end in
             let* err := lift (get data "error") in
             if truthy err then displayNoResults operation (ToString err)
             else
               let* result := lift (get data "result") in
               render operation result ;;
               scroll_to "analysis-section"
       end
       (fun error => displayNoResults operation (exn_message error)))
    hideLoading.

(** *** Filter

    [column], [minValue] and [maxValue] are what the form controls hold,
    [undefined] for a control that is not on the page. *)
Definition applyFilter (column minValue maxValue : jsval) : M (G:=vars) bool :=
  if negb (truthy column) || (negb (truthy minValue) && negb (truthy maxValue)) then
    alert "Please select a column and specify at least one filter value." ;;
    ret false
  else
    showLoading ;;
    emit (FetchSent "/analyze"
            (stringify [("operation", JStr "filter"); ("column", column);
                        ("minValue", minValue); ("maxValue", maxValue)])) ;;
    ret true.

Definition applyFilter_settle (o : fetch_outcome) : M (G:=vars) unit :=
  finally
    (try_catch
       match o with
       | Rejected e => throw e
       | Responded ok _ statusText body =>
           if negb ok then throw (new_Error ("Filter failed: " ++ statusText))
           else
             let* data := match body with
                          | BodyJson v => ret v
                          | BodyInvalid e => throw e
                          end in
             let* err := lift (get data "error") in
             if truthy err then throw (new_Error (ToString err))
             else
               let* result := lift (get data "result") in
               set_currentData result ;;
               let* bs := lift (get result "basic_statistics") in
               displayDataPreview bs ;;
               let* insights := lift (get result "insights") in
               displayInsights insights ;;
               createInitialCharts result ;;
               set_style "analysis-section" "display" "block" ;;
               set_style "visualization-section" "display" "block"
       end
       (fun error => alert ("Error applying filter: " ++ exn_message error)))
    hideLoading.

End Script11.

(** ** The third variant (unnamed part 000) *)

Module Part000.

Import Num Js Page Shared.
Local Open Scope js_scope.

Definition showLoading : M (G:=vars) unit := emit ModalShown.

(** The value one cell of the preview shows: the first summary that has
    the column decides. *)
Definition cell_of_entry (entry : jsval) : res jsval :=
  let? mean := get entry "mean" in
  if truthy mean then
    let? s := call_toFixed mean 2 in Ok (JStr s)
  else
    let? most := get entry "most_frequent" in
    if truthy most then Ok most
    else
      let? min := get entry "min" in
      if truthy min then Ok min
      else
        let? kc := get entry "keyword_count" in
        if truthy kc then
          let? k0 := get kc "0" in
          Ok (or_else (get_opt k0 "0") (JStr "-"))
        else Ok (JStr "-").

Fixpoint cell_value (summaries : list jsval) (column : string) : res jsval :=
  match summaries with
  | [] => Ok (JStr "-")
  | summary :: r =>
      let? entry := get summary column in
      if truthy entry then cell_of_entry entry else cell_value r column
  end.

Fixpoint preview_cells (summaries : list jsval) (columns : list jsval)
  : res (list node) :=
  match columns with
  | [] => Ok []
  | column :: r =>
      let? v := cell_value summaries (ToString column) in
      let? rest := preview_cells summaries r in
      Ok (Element "td" "" "" [Markup (text_of v)] :: rest)
  end.

Definition preview_rows (rows : jsval) : list Z :=
  filter (fun i => ltb (of_Z i) (ToNumber rows)) [0; 1; 2; 3; 4].

Definition displayDataPreview (stats : jsval) : M (G:=vars) unit :=
  set_content_within "dataTable" "thead" [] ;;
  set_content_within "dataTable" "tbody" [] ;;
  let* none :=
    if negb (truthy stats) then ret true
    else
      let* columns := lift (get stats "columns") in
      if negb (truthy columns) then ret true
      else
        let* shape := lift (get stats "shape") in
        let* rows := lift (get shape "0") in
        ret (is_zero rows) in
  if none then
    alert "No data available for preview." ;;
    hideLoading
  else
    let* columns := lift (get stats "columns") in
    let* cols := lift (elements "forEach" columns) in
    add_content_within "dataTable" "thead"
      [Element "tr" "" ""
         (map (fun column => Element "th" "" "" [Markup (text_of column)]) cols)] ;;
    let* numeric := lift (get stats "numeric_summary") in
    let* categorical := lift (get stats "categorical_summary") in
    let* text := lift (get stats "text_summary") in
    let* datetime := lift (get stats "datetime_summary") in
    let summaries :=
      [or_else numeric (JObj []); or_else categorical (JObj []);
       or_else text (JObj []); or_else datetime (JObj [])] in
    let columnsToShow := firstn 5 cols in
    let* shape := lift (get stats "shape") in
    let* rows := lift (get shape "0") in
    for_each (preview_rows rows) (fun _ =>
      let* cells := lift (preview_cells summaries columnsToShow) in
      add_content_within "dataTable" "tbody" [Element "tr" "" "" cells]) ;;
    set_style "preview-section" "display" "block" ;;
    add_class "preview-section" "fade-in".

Definition displayStatistics (stats : jsval) : M (G:=vars) unit :=
  set_content "statsContainer" [] ;;
  if negb (truthy stats) then
    set_content "statsContainer"
      [Markup (p_class "text-muted" "No statistics available.")]
  else
    let* shape := lift (get stats "shape") in
    let* rows := lift (get shape "0") in
    let* shape' := lift (get stats "shape") in
    let* columns := lift (get shape' "1") in
    let* ns := lift (get stats "numeric_summary") in
    let* numeric := lift (count_keys ns) in
    let* cs := lift (get stats "categorical_summary") in
    let* categorical := lift (count_keys cs) in
    let* ds := lift (get stats "datetime_summary") in
    let* datetime := lift (count_keys ds) in
    let* ts := lift (get stats "text_summary") in
    let* text := lift (count_keys ts) in
    for_each [("Total Rows", rows); ("Total Columns", columns);
              ("Numeric Columns", numeric); ("Categorical Columns", categorical);
              ("Datetime Columns", datetime); ("Text Columns", text)]
      (fun p => add_content "statsContainer" [stats_item (fst p) (snd p)]).

Definition outlier_item (col : string) (data : jsval) : res node :=
  let? count := get data "count" in
  let? percentage := get data "percentage" in
  let? pct := call_toFixed percentage 2 in
  Ok (Element "div" "" "insight-item border-warning text-warning bg-warning-light"
        [Markup (div_class "insight-title" ("Outliers in " ++ col)
                 ++ div_class "insight-description"
                      ("Found " ++ ToString count ++ " outliers (" ++ pct ++ "%)"))]).

Definition displayOutliers (outliers : jsval) : M (G:=vars) unit :=
  set_content "insightsContainer" [Markup (tag "h6" "" "Outlier Detection Results")] ;;
  let none :=
    negb (truthy outliers)
    || match keys outliers with Ok [] => true | _ => false end in
  if none then
    add_content "insightsContainer"
      [Markup (p_class "text-success" "No significant outliers detected.")]
  else
    for_each (for_in_keys outliers) (fun col =>
      let* data := lift (get outliers col) in
      let* c := lift (outlier_item col data) in
      add_content "insightsContainer" [c]).

Definition createColumnDistributionChart (stats : jsval) : M (G:=vars) unit :=
  getContext "chart1" ;;
  let* g := read in
  destroy_if (chart1 g) ;;
  let* ns := lift (get stats "numeric_summary") in
  distribution_chart (or_else ns (JObj [])).

Definition createDataTypeChart (stats : jsval) : M (G:=vars) unit :=
  getContext "chart2" ;;
  let* g := read in
  destroy_if (chart2 g) ;;
  let* ns := lift (get stats "numeric_summary") in
  let* numeric := lift (count_keys ns) in
  let* cs := lift (get stats "categorical_summary") in
  let* categorical := lift (count_keys cs) in
  let* ds := lift (get stats "datetime_summary") in
  let* datetime := lift (count_keys ds) in
  let* ts := lift (get stats "text_summary") in
  let* text := lift (count_keys ts) in
  let* h := new_Chart "chart2" "doughnut"
              (JArr [JStr "Numeric"; JStr "Categorical"; JStr "Datetime"; JStr "Text"])
              (JArr [numeric; categorical; datetime; text]) in
  set_chart2 h.

Definition createCategoricalChart (stats : jsval) : M (G:=vars) unit :=
  let* cs := lift (get stats "categorical_summary") in
  let categoricalSummary := or_else cs (JObj []) in
  let* ks := lift (keys categoricalSummary) in
  match ks with
  | [] =>
      set_content "visualization-section"
        [Markup (p_class "text-muted" "No categorical data available for visualization.")]
  | firstCol :: _ =>
      let* entry := lift (get categoricalSummary firstCol) in
      let* top := lift (get entry "top_5_values") in
      let valueCounts := or_else top (JObj []) in
      add_content "visualization-section" [Element "canvas" "chart3" "" []] ;;
      let* labels := lift (keys valueCounts) in
      let* data := lift (values valueCounts) in
      let* h := new_Chart "chart3" "bar" (JArr (map JStr labels)) (JArr data) in
      set_chart3 h
  end.

Definition createSampleHistogram (histogramData : jsval) : M (G:=vars) unit :=
  getContext "chart3" ;;
  let* g := read in
  destroy_if (chart3 g) ;;
  let none :=
    negb (truthy histogramData)
    || match keys histogramData with Ok [] => true | _ => false end in
  if none then alert "No histogram data available."
  else
    let* ks := lift (keys histogramData) in
    let col := nth 0 ks "" in
    let* d := lift (get histogramData col) in
    if negb (truthy (JStr col)) || negb (truthy d) then
      alert "No numeric data available for histogram."
    else histogram_chart histogramData col.

Definition createScatterPlot (scatterData : jsval) : M (G:=vars) unit :=
  let* ctx := getContext_opt "chart3" in
  if negb ctx then alert "Visualization error: Scatter plot canvas not found."
  else
    let* g := read in
    destroy_if (chart3 g) ;;
    if scatter_invalid scatterData then alert "Not enough valid data for scatter plot."
    else
      try_catch (scatter_chart scatterData)
        (fun error => alert ("Error creating scatter plot: " ++ exn_message error)).

Definition createInitialCharts (analysis : jsval) : M (G:=vars) unit :=
  let* none :=
    if negb (truthy analysis) then ret true
    else let* bs := lift (get analysis "basic_statistics") in ret (negb (truthy bs)) in
  if none then ret tt
  else
    let* stats := lift (get analysis "basic_statistics") in
    set_content "visualization-section" [] ;;
    let* ns := lift (get stats "numeric_summary") in
    let* ks := lift (keys (or_else ns (JObj []))) in
    match ks with
    | _ :: _ =>
        set_content "visualization-section"
          [canvas "chart1"; canvas "chart2"; canvas "chart3"] ;;
        createColumnDistributionChart stats ;;
        createDataTypeChart stats ;;
        let* hd := lift (get analysis "histogram_data") in
        createSampleHistogram hd
    | [] =>
        set_content "visualization-section"
          [Markup (p_class "text-muted"
                     "No numeric data available for visualizations. Showing categorical summary instead.")] ;;
        createCategoricalChart stats
    end.

Definition performInitialAnalysis (analysis : jsval) : M (G:=vars) unit :=
  if negb (truthy analysis) then
    alert "No analysis data received." ;;
    hideLoading
  else
    try_catch
      (let* bs := lift (get analysis "basic_statistics") in
       displayStatistics bs ;;
       let* insights := lift (get analysis "insights") in
       displayInsights insights ;;
       createInitialCharts analysis)
      (fun error => alert ("Error displaying analysis: " ++ exn_message error)) ;;
    set_style "analysis-section" "display" "block" ;;
    let* hd := lift (get analysis "histogram_data") in
    let shown :=
      truthy hd && match keys hd with Ok (_ :: _) => true | _ => false end in
    set_style "visualization-section" "display" (if shown then "block" else "none") ;;
    add_class "analysis-section" "fade-in" ;;
    add_class "visualization-section" "fade-in".

(** *** Upload *)

Definition processFiles (files : list string) : M (G:=vars) (option nat) :=
  match files with
  | [] => alert "No file selected." ;; ret None
  | file :: _ =>
      if negb (includes ["csv"; "json"; "xlsx"] (extension file)) then
        alert "Unsupported file format. Please use CSV, JSON, or Excel (.xlsx)." ;;
        ret None
      else
        showLoading ;;
        let* timeoutId := setTimeout 10000 in
        emit (FetchSent "http://localhost:5000/upload" (FormFile file)) ;;
        ret (Some timeoutId)
  end.

(** The callback of the timer. *)
Definition processFiles_timeout (timeoutId : nat) : M (G:=vars) unit :=
  timer_fires timeoutId ;;
  emit Aborted.

(** The promise chain of [processFiles]. *)
Definition processFiles_settle (timeoutId : nat) (o : fetch_outcome)
  : M (G:=vars) unit :=
  finally
    (try_catch
       match o with
       | Rejected e => throw e
       | Responded ok _ statusText body =>
           clearTimeout timeoutId ;;
           if negb ok then throw (new_Error ("Upload failed: " ++ statusText))
           else
             let* data := match body with
                          | BodyJson v => ret v
                          | BodyInvalid e => throw e
                          end in
             let* err := lift (get data "error") in
             if truthy err then throw (new_Error (ToString err))
             else
               let* analysis := lift (get data "analysis") in
               if negb (truthy analysis) then
                 throw (new_Error "No analysis data received from server")
               else
                 set_currentData analysis ;;
                 try_catch
                   (let* bs := lift (get analysis "basic_statistics") in
                    displayDataPreview bs ;;
                    performInitialAnalysis analysis)
                   (fun error =>
                      alert ("Error displaying analysis: " ++ exn_message error))
       end
       (fun error => alert ("Error processing file: " ++ exn_message error)))
    (clearTimeout timeoutId ;; hideLoading).

Definition processFiles_run (files : list string) (o : upload_outcome)
  : M (G:=vars) unit :=
  let* sent := processFiles files in
  match sent with
  | None => ret tt
  | Some timeoutId =>
      match o with
      | Settles o => processFiles_settle timeoutId o
      | TimesOut =>
          processFiles_timeout timeoutId ;;
          processFiles_settle timeoutId (Rejected abort_error)
      end
  end.

(** *** Analysis *)

Definition performAnalysis (operation : string) : M (G:=vars) bool :=
  let* g := read in
  if negb (truthy (currentData g)) && negb (String.eqb operation "basic_stats") then
    alert "Please upload data first" ;;
    hideLoading ;;
    ret false
  else
    showLoading ;;
    emit (FetchSent "http://localhost:5000/analyze"
            (Json (JObj [("operation", JStr operation)]))) ;;
    ret true.

Definition render (operation : string) (result : jsval) : M (G:=vars) unit :=
  if String.eqb operation "basic_stats" then displayStatistics result
  else if String.eqb operation "outliers" then displayOutliers result
  else if String.eqb operation "correlations" then displayCorrelations result
  else if String.eqb operation "histogram" then createSampleHistogram result
  else if String.eqb operation "scatter_plot" then createScatterPlot result
  else ret tt.

Definition performAnalysis_settle (operation : string) (o : fetch_outcome)
  : M (G:=vars) unit :=
  finally
    (try_catch
       match o with
       | Rejected e => throw e
       | Responded ok _ statusText body =>
           if negb ok then throw (new_Error ("Analysis failed: " ++ statusText))
           else
             let* data := match body with
                          | BodyJson v => ret v
                          | BodyInvalid e => throw e
                          end in
             let* err := lift (get data "error") in
             if truthy err then throw (new_Error (ToString err))
             else
               try_catch
                 (let* result := lift (get data "result") in
                  render operation result ;;
                  scroll_to "analysis-section")
                 (fun error =>
                    alert ("Error rendering " ++ operation ++ ": " ++ exn_message error))
       end
       (fun error =>
          alert ("Error performing " ++ operation ++ ": " ++ exn_message error)))
    hideLoading.

End Part000.

(** ** upload-worker.js (the second part of the unnamed file)

    The worker reads a file in chunks and posts them.  Sizes are
    integers below [2^53], on which the Number arithmetic of the worker
    is exact: they are embedded as [Z].  A read that fails ends the
    worker silently (the reader has no [onerror]); the embedding counts
    the reads that succeed. *)

Module Worker.

Inductive message : Type :=
| Chunk (chunk : list Byte.byte) (current total : Z)
| Complete.

Definition chunkSize : Z := 1024 * 1024.

(** [Math.ceil(file.size / chunkSize)] *)
Definition totalChunks (size : Z) : Z := (size + chunkSize - 1) / chunkSize.

(** [file.slice(start, end)], for [0 <= start] *)
Definition slice (file : list Byte.byte) (start stop : Z) : list Byte.byte :=
  firstn (Z.to_nat (stop - start)) (skipn (Z.to_nat start) file).

(** The chunk that [readNextChunk] hands to the reader. *)
Definition readNextChunk (file : list Byte.byte) (currentChunk : Z) : list Byte.byte :=
  let size := Z.of_nat (List.length file) in
  let start := currentChunk * chunkSize in
  let stop := Z.min (start + chunkSize) size in
  slice file start stop.

(** What the worker posts from the read of chunk [currentChunk] on, in
    order, when [reads] reads succeed one after the other: [reader.onload]
    posts the chunk, then reads on or posts [complete]. *)
Fixpoint onload (reads : nat) (file : list Byte.byte) (currentChunk : Z)
  : list message :=
  match reads with
  | O => []
  | S reads' =>
      let total := totalChunks (Z.of_nat (List.length file)) in
      Chunk (readNextChunk file currentChunk) currentChunk total
      :: (if currentChunk + 1 <? total
          then onload reads' file (currentChunk + 1)
          else [Complete])
  end.

(** [self.onmessage]: the first read is of chunk 0. *)
Definition onmessage (reads : nat) (file : list Byte.byte) : list message :=
  onload reads file 0.

End Worker.

(** ** An engine for the examples

    One implementation of [Math.log] and [Math.pow], used to run
    [formatFileSize] on concrete sizes: the logarithm in base 2 rounded
    down, and the exact powers of an integer base.  With them
    [Math.floor(Math.log(bytes) / Math.log(1024))] is the exact integer
    logarithm of a positive integer size. *)

Module Engine.

Import Num.

Definition integer_part (x : number) : Z :=
  match x with
  | S754_finite false m e => if 0 <=? e then Zpos m * 2 ^ e else Zpos m / 2 ^ (- e)
  | _ => 0
  end.

Definition Math_log (x : number) : number :=
  match x with
  | S754_finite false _ _ => if 1 <=? integer_part x then of_Z (Z.log2 (integer_part x)) else nan
  | S754_infinity false => x
  | _ => nan
  end.

Definition Math_pow (b i : number) : number :=
  match i with
  | S754_zero _ => of_Z 1
  | S754_finite false _ _ => of_Z (integer_part b ^ integer_part i)
  | _ => nan
  end.

End Engine.

(** ** The vocabulary of the statements *)

Module Spec.

Import Num Js Page.

(** A list that starts with a character that is not white space. *)
Definition solid (l : list ascii) : Prop :=
  match l with
  | c :: _ => Str.is_space c = false
  | [] => False
  end.

(** What follows a numeral in a longer text: a space, then [u]. *)
Definition space : ascii := " "%char.

Definition push (u : list ascii) (r : option (number * list ascii))
  : option (number * list ascii) :=
  option_map (fun p => (fst p, (snd p ++ space :: u)%list)) r.

(** *** Tests on the document tree *)

(** A test that reads the tag, the id and the class of an element only. *)
Definition by_label (p : node -> bool) : Prop :=
  (forall s, p (Markup s) = false)
  /\ (forall t j c ch ch', p (Element t j c ch) = p (Element t j c ch')).

(** What [update] does to what [find] finds. *)
Definition updated (p : node -> bool) (f : list node -> list node)
    (before : option node) (after : option node) (changed : bool) : Prop :=
  match before with
  | Some (Element t j c ch) => changed = true /\ after = Some (Element t j c (f ch))
  | Some (Markup _) => False
  | None => changed = false
  end.

Definition is_some {A} (o : option A) : bool :=
  match o with Some _ => true | None => false end.

(** *** Views of the page that a script leaves unchanged *)

(** The script [m] leaves the view [f] of the page as it was, however it
    ends. *)
Definition keeps {G X A} (f : world G -> X) (m : M A) : Prop :=
  forall w, f (snd (m w)) = f w.

(** *** Events *)

Definition is_request (e : event) : bool :=
  match e with
  | FetchSent _ _ | XhrSent _ _ => true
  | _ => false
  end.

(** The network calls of a log. *)
Definition requests (l : list event) : list event := filter is_request l.



(** An empty page with the variables [g]. *)
Definition page {G} (g : G) (d : list node) : world G := mkWorld g d [] 0%nat [].

(** Pages with the elements the scripts look up, to run them on
    (index.html is not among the sources). *)
Definition el (tag id : string) (children : list node) : node :=
  Element tag id "" children.

Definition app_dom : list node :=
  [el "div" "basic-stats-content" []; el "div" "categorical-stats-content" [];
   el "div" "text-stats-content" []; el "div" "datetime-stats-content" [];
   el "div" "outliers-content" [];
   el "div" "correlation-matrix" []; el "div" "strong-correlations" [];
   el "select" "histogram-column-select" [];
   el "div" "histogram-box" [el "canvas" "histogram-chart" []];
   el "select" "x-axis-select" []; el "select" "y-axis-select" [];
   el "div" "scatter-box" [el "canvas" "scatter-chart" []];
   el "div" "quality-metrics" []; el "div" "insights-container" [];
   el "button" "refresh-insights" []; el "button" "upload-btn" [];
   el "div" "upload-progress" []; el "select" "column-select" []].

Definition shared_dom : list node :=
  [el "div" "loadingModal" [];
   el "div" "preview-section"
     [el "table" "dataTable" [el "thead" "" []; el "tbody" "" []]];
   el "div" "analysis-section"
     [el "div" "statsContainer" []; el "div" "insightsContainer" []];
   el "div" "visualization-section" [];
   el "select" "columnSelect" []].

(** The children of the first element with id [i]. *)
Definition children (i : string) (d : list node) : option (list node) :=
  match find_in (has_id i) d with
  | Some (Element _ _ _ ch) => Some ch
  | _ => None
  end.

(** The messages of the alerts of a log, the latest first. *)
Fixpoint alerts (l : list event) : list string :=
  match l with
  | [] => []
  | Alert msg :: r => msg :: alerts r
  | _ :: r => alerts r
  end.

(** *** No dataset loaded *)

(** The loaders of app.js, one per analysis operation. *)
Definition loaders : list (option (list string) -> M (G:=AppJs.vars) bool) :=
  [AppJs.loadBasicStats; AppJs.loadOutliers; AppJs.loadCorrelations;
   AppJs.loadHistogram; AppJs.loadScatterPlot; AppJs.loadDataQuality;
   AppJs.loadInsights].

(** The call [r], made in the world [w], was refused for want of a
    dataset: no request was sent, and the user was told. *)
Definition refused (r : res bool * world Shared.vars) (w : world Shared.vars) : Prop :=
  fst r = Ok false
  /\ requests (log (snd r)) = requests (log w)
  /\ In (Alert "Please upload data first") (log (snd r))
  /\ globals (snd r) = globals w
  /\ dom (snd r) = dom w.

(** *** Requests that end in an error *)

(** The body carries an explicit error: its [error] field is truthy. *)
Definition error_field (data : jsval) : bool := truthy (get_opt data "error").

(** A request to [fetch] ends in an error: the network fails or the
    request is aborted, the status is not a 2xx one, the body is not
    JSON, or the body reports an error. *)
Definition failed (o : fetch_outcome) : bool :=
  match o with
  | Rejected _ => true
  | Responded ok _ _ body =>
      negb ok
      || match body with
         | BodyInvalid _ => true
         | BodyJson data => error_field data
         end
  end.


(** The upload of app.js ends in an error: no connection, a status
    other than 200, a body that is not JSON, or a body without a truthy
    [success] flag (the error envelope of the server has none). *)
Definition xhr_failed (o : AppJs.xhr_outcome) : bool :=
  match o with
  | AppJs.XhrError => true
  | AppJs.XhrLoaded status body =>
      negb (status =? 200)
      || match body with
         | BodyInvalid _ => true
         | BodyJson data => negb (truthy (get_opt data "success"))
         end
  end.

(** The Session State: the loaded dataset. *)
Definition session (w : world Shared.vars) : jsval := Shared.currentData (globals w).


(** The analysis actions of app.js, each with the chain that runs when
    its request settles with [o]. *)
Definition analyses (columns : option (list string)) (o : fetch_outcome)
  : list (M (G:=AppJs.vars) unit) :=
  [request_then (AppJs.loadBasicStats columns) (AppJs.loadBasicStats_settle o);
   request_then (AppJs.loadOutliers columns) (AppJs.loadOutliers_settle o);
   request_then (AppJs.loadCorrelations columns) (AppJs.loadCorrelations_settle o);
   request_then (AppJs.loadHistogram columns) (AppJs.loadHistogram_settle o);
   request_then (AppJs.loadScatterPlot columns) (AppJs.loadScatterPlot_settle o);
   request_then (AppJs.loadDataQuality columns) (AppJs.loadDataQuality_settle o);
   request_then (AppJs.loadInsights columns) (AppJs.loadInsights_settle o)].

(** *** Errors that the server reports *)



(** *** Timers *)

(** The pending timers other than [t]. *)
Definition others (t : nat) (l : list nat) : list nat :=
  filter (fun t' => negb (Nat.eqb t t')) l.

(** *** Exact comparisons *)



(** *** Outlier reports *)

(** What the report says of one column. *)
Record outlier : Type := mkOutlier {
  column : string;
  count : jsval;
  percentage : number;
  samples : list jsval
}.

(** The entry [e] of a report object says [o]. *)
Definition says (o : outlier) (e : string * jsval) : Prop :=
  fst e = column o
  /\ get (snd e) "count" = Ok (count o)
  /\ get (snd e) "percentage" = Ok (JNum (percentage o))
  /\ get (snd e) "outlier_values" = Ok (JArr (samples o)).

(** The page [w] with the document [d]. *)
Definition with_dom {G} (w : world G) (d : list node) : world G :=
  mkWorld (globals w) d (log w) (next_id w) (timers w).

(** The card of app.js for one column: the heading, the count with the
    percentage in two decimals, and the first five values at most. *)
Definition app_outlier_card (o : outlier) : node :=
  Element "div" "" "stat-card"
    [Markup (tag "h4"
               (attr "class"
                  (if ltb (of_Z 5) (percentage o) then "warning" else "info"))
               (column o)
             ++ div_class "stat-value"
                  (ToString (count o) ++ " outliers ("
                   ++ toFixed 2 (percentage o) ++ "%)")
             ++ div_class "stat-description"
                  (tag "strong" "" "Sample values:" ++ " "
                   ++ Js.join ", " (firstn 5 (samples o))))].

(** The item of script (11).js for one column. *)
Definition script11_outlier_item (o : outlier) : node :=
  Element "div" "" "insight-item border-warning text-warning bg-warning-light"
    [Markup (div_class "insight-title" ("Outliers in " ++ column o)
             ++ div_class "insight-description"
                  ("Found " ++ ToString (count o) ++ " outliers ("
                   ++ toFixed 2 (percentage o) ++ "%): "
                   ++ Js.join ", " (samples o)))].

(** A renderer of one column shows at most the first five values: what
    it makes of a report is what it makes of the report cut after the
    fifth value. *)
Definition first_five_only (render : string -> jsval -> res node) : Prop :=
  forall (col : string) (count percentage : jsval) (values : list jsval),
    render col (JObj [("count", count); ("percentage", percentage);
                      ("outlier_values", JArr values)])
    = render col (JObj [("count", count); ("percentage", percentage);
                        ("outlier_values", JArr (firstn 5 values))]).

(** *** Two decimals *)

(** [n] hundredths is [a / b] rounded to two decimals, a half upwards. *)
Definition nearest_hundredths (a b n : Z) : Prop :=
  2 * n * b - b <= 200 * a < 2 * n * b + b.

(** The numeral of [n] hundredths: the digits of [n], at least three,
    with a point before the last two. *)
Definition hundredths (n : Z) : string := Str.of_chars (fixed_digits 2 n).

(** The magnitude of [x] is below [10^21], where [toFixed] still writes
    decimal notation. *)
Definition below_1e21 (x : number) : bool :=
  match x with
  | S754_zero _ => true
  | S754_finite _ m e => let (a, b) := ratio m e in negb (10 ^ 21 * b <=? a)
  | _ => false
  end.

(** The text [t] is [x] rounded to two decimals: the sign, then the
    numeral of the nearest number of hundredths of the magnitude. *)
Definition two_decimals (x : number) (t : string) : Prop :=
  match x with
  | S754_zero _ => t = "0.00"
  | S754_finite s m e =>
      let (a, b) := ratio m e in
      exists n, nearest_hundredths a b n
                /\ t = ((if s then "-" else "") ++ hundredths n)%string
  | _ => False
  end.

(** *** Data quality *)

(** The missing-values map of a payload: a count for each column. *)
Definition missing_map (m : list (string * number)) : jsval :=
  JObj (map (fun p => (fst p, JNum (snd p))) m).

(** The sum of the counts, added from the left, from zero. *)
Definition total_missing (m : list (string * number)) : number :=
  fold_left add (map snd m) zero.

(** [totalMissing / (columnCount * rowCount) * 100] in the arithmetic of
    Numbers. *)
Definition missing_percentage (m : list (string * number)) (rows : number) : number :=
  mul (div (total_missing m) (mul (of_Z (Z.of_nat (List.length m))) rows))
      (of_Z 100).

(** The columns that miss a value, each with its count, as the card
    lists them. *)
Definition missing_listing (m : list (string * number)) : string :=
  Str.join ", "
    (map (fun p => fst p ++ " (" ++ toString (snd p) ++ ")")
       (filter (fun p => ltb zero (snd p)) m)).

(** The card of the missing values: the total, the percentage with two
    decimals, the columns that miss a value. *)
Definition missing_card (m : list (string * number)) (rows : number) : node :=
  Element "div" "" "stat-card"
    [Markup (tag "h4" "" "Missing Values"
             ++ div_class "stat-value"
                  (toString (total_missing m) ++ " missing ("
                   ++ toFixed 2 (missing_percentage m rows) ++ "%)")
             ++ div_class "stat-description"
                  (tag "strong" "" "Columns with missing values:" ++ " "
                   ++ missing_listing m))].

(** *** Scatter payloads *)


(** A page of script (11).js and of the third variant after the first
    charts were laid out. *)
Definition charts_dom : list node :=
  [el "div" "loadingModal" [];
   el "div" "analysis-section"
     [el "div" "statsContainer" []; el "div" "insightsContainer" []];
   el "div" "visualization-section"
     [Shared.canvas "chart1"; Shared.canvas "chart2"; Shared.canvas "chart3"]].





(** A page of app.js with the dataset [f1] of the columns [a] and [b]. *)
Definition app_loaded : world AppJs.vars :=
  page (AppJs.mkVars (JStr "f1") (JArr [JStr "a"; JStr "b"]) None None false) app_dom.

(** *** Chart slots *)

(** The charts constructed on [canvas] in a log. *)
Definition created_on (canvas : string) (l : list event) : list event :=
  filter (fun e => match e with
                   | ChartCreated _ c _ _ _ => String.eqb c canvas
                   | _ => false
                   end) l.

(** At no moment of the log [l] (the latest event first) were two charts
    alive on [canvas]. *)
Definition never_two (canvas : string) (l : list event) : Prop :=
  forall since before : list event,
    l = (since ++ before)%list -> (List.length (live canvas before) <= 1)%nat.

(** The variable [s] of a slot holds the chart that is alive on the canvas
    of the slot, when there is one. *)
Definition holds (canvas : string) (s : option nat) (l : list event) : Prop :=
  live canvas l = [] \/ exists h, live canvas l = [h] /\ s = Some h.

(** A slot in order: never two charts alive, and the variable holds the
    one alive. *)
Definition tidy (canvas : string) (s : option nat) (l : list event) : Prop :=
  holds canvas s l /\ never_two canvas l.

(** Exactly one chart is alive on [canvas], the one the variable holds. *)
Definition exactly_one (canvas : string) (s : option nat) (l : list event) : Prop :=
  exists h, live canvas l = [h] /\ s = Some h.

(** A slot: its canvas and the variable that holds its chart. *)
Record slot (G : Type) : Type := mkSlot {
  slot_canvas : string;
  slot_var : G -> option nat
}.
Arguments mkSlot {G}.
Arguments slot_canvas {G}.
Arguments slot_var {G}.

Definition tidy_at {G} (s : slot G) (w : world G) : Prop :=
  tidy (slot_canvas s) (slot_var s (globals w)) (log w).

Definition exactly_one_at {G} (s : slot G) (w : world G) : Prop :=
  exactly_one (slot_canvas s) (slot_var s (globals w)) (log w).

(** The call [m] on the page [w] constructs a chart on the slot. *)
Definition constructs {G} (s : slot G) (m : M (G:=G) unit) (w : world G) : Prop :=
  created_on (slot_canvas s) (log (snd (m w))) <> created_on (slot_canvas s) (log w).

(** The page after the calls [calls], one after the other; a call that
    throws ends alone. *)
Definition after {G} (calls : list (M (G:=G) unit)) (w : world G) : world G :=
  fold_left (fun w m => snd (m w)) calls w.

(** The slots of app.js. *)
Inductive app_slot : slot AppJs.vars -> Prop :=
| slot_histogram : app_slot (mkSlot "histogram-chart" AppJs.currentHistogramChart)
| slot_scatter : app_slot (mkSlot "scatter-chart" AppJs.currentScatterChart).

(** The slots of script (11).js and of the third variant. *)
Inductive shared_slot : slot Shared.vars -> Prop :=
| slot_chart1 : shared_slot (mkSlot "chart1" Shared.chart1)
| slot_chart2 : shared_slot (mkSlot "chart2" Shared.chart2)
| slot_chart3 : shared_slot (mkSlot "chart3" Shared.chart3).

(** The calls that render a chart, in each variant. *)
Inductive app_render : M (G:=AppJs.vars) unit -> Prop :=
| app_renderHistogramChart d c : app_render (AppJs.renderHistogramChart d c)
| app_displayHistogram d : app_render (AppJs.displayHistogram d)
| app_histogram_column_changed d c : app_render (AppJs.histogram_column_changed d c)
| app_renderScatterChart d x y : app_render (AppJs.renderScatterChart d x y)
| app_displayScatterPlot d : app_render (AppJs.displayScatterPlot d).

Inductive script11_render : M (G:=Shared.vars) unit -> Prop :=
| script11_createColumnDistributionChart d :
    script11_render (Script11.createColumnDistributionChart d)
| script11_createSampleHistogram d : script11_render (Script11.createSampleHistogram d)
| script11_createScatterPlot d : script11_render (Script11.createScatterPlot d).

(** The renderers of the third variant that destroy the chart of their
    slot first. *)
Inductive part000_render : M (G:=Shared.vars) unit -> Prop :=
| part000_createColumnDistributionChart d :
    part000_render (Part000.createColumnDistributionChart d)
| part000_createDataTypeChart d : part000_render (Part000.createDataTypeChart d)
| part000_createSampleHistogram d : part000_render (Part000.createSampleHistogram d)
| part000_createScatterPlot d : part000_render (Part000.createScatterPlot d).

(** No chart alive: the state between [destroy] and [new Chart]. *)
Definition quiet (c : string) (l : list event) : Prop :=
  live c l = [] /\ never_two c l.

(** The event [e] is no matter of the canvas [c]. *)
Definition aside (c : string) (e : event) : bool :=
  match e with
  | ChartCreated _ c' _ _ _ => negb (String.eqb c' c)
  | ChartDestroyed _ => false
  | _ => true
  end.

(** On the page [w] the script [m] returns some [a] and leaves a page
    with [Q a], or throws some [e] and leaves a page with [E e]. *)
Definition wpx {G A} (m : M (G:=G) A) (Q : A -> world G -> Prop)
    (E : exn -> world G -> Prop) (w : world G) : Prop :=
  match m w with
  | (Ok a, w') => Q a w'
  | (Throw e, w') => E e w'
  end.

(** What a call leaves of a slot in order: the slot in order, with
    exactly one chart when the call constructed one. *)
Definition rendered {G} (s : slot G) (w w' : world G) : Prop :=
  tidy_at s w'
  /\ (created_on (slot_canvas s) (log w') <> created_on (slot_canvas s) (log w) ->
      exactly_one_at s w').

(** After the calls [calls] from the page [w], all of them calls that
    render, the slot is in order, and any further call that constructs a
    chart on it leaves exactly one. *)
Definition in_order {G} (s : slot G) (render : M (G:=G) unit -> Prop)
    (calls : list (M (G:=G) unit)) (w : world G) : Prop :=
  tidy_at s (after calls w)
  /\ forall m, render m -> constructs s m (after calls w) ->
               exactly_one_at s (snd (m (after calls w))).

(** Payloads to run the renderers on. *)
Definition histogram_payload : jsval :=
  JObj [("age", JObj [("labels", JArr [JStr "0-10"; JStr "10-20"]);
                      ("counts", JArr [num 3; num 4])])].

Definition scatter_payload : jsval :=
  JObj [("data", JArr [JObj [("a", num 1); ("b", num 2)]]);
        ("x_column", JStr "a"); ("y_column", JStr "b")].

Definition categorical_payload : jsval :=
  JObj [("categorical_summary",
         JObj [("city", JObj [("top_5_values", JObj [("Paris", num 2)])])])].

(** *** The loading modal *)

(** The loading modal is shown: the latest event of the modal in the
    log is its showing. *)
Fixpoint modal_open (l : list event) : bool :=
  match l with
  | [] => false
  | ModalShown :: _ => true
  | ModalHidden :: _ => false
  | _ :: r => modal_open r
  end.

(** *** File names *)

(** A text without a dot. *)
Definition dotless (s : string) : Prop := ~ In "."%char (Str.chars s).

(** *** Controls *)

(** Whether the control [i] is disabled, by the latest event that says so. *)
Fixpoint disabled_now (i : string) (l : list event) : option bool :=
  match l with
  | [] => None
  | Disabled j b :: r => if String.eqb j i then Some b else disabled_now i r
  | _ :: r => disabled_now i r
  end.

(** The value of the style property [prop] of the element [i], by the
    latest event that sets it. *)
Fixpoint style_now (i prop : string) (l : list event) : option string :=
  match l with
  | [] => None
  | StyleSet j p v :: r =>
      if String.eqb j i && String.eqb p prop then Some v else style_now i prop r
  | _ :: r => style_now i prop r
  end.

(** A page of app.js once jQuery is loaded, before any upload. *)
Definition app_ready : world AppJs.vars :=
  page (AppJs.mkVars JNull (JArr []) None None true) app_dom.

(** The chains of the analysis requests of app.js that end in [catch],
    each with the words its [catch] puts before the message. *)
Definition app_chains : list (string * (fetch_outcome -> M (G:=AppJs.vars) unit)) :=
  [("Error loading basic stats: ", AppJs.loadBasicStats_settle);
   ("Error loading outliers: ", AppJs.loadOutliers_settle);
   ("Error loading correlations: ", AppJs.loadCorrelations_settle);
   ("Error loading histogram: ", AppJs.loadHistogram_settle);
   ("Error loading scatter plot: ", AppJs.loadScatterPlot_settle);
   ("Error loading data quality report: ", AppJs.loadDataQuality_settle)].

(** The page [w] after one more event. *)
Definition with_event {G} (w : world G) (e : event) : world G :=
  mkWorld (globals w) (dom w) (e :: log w) (next_id w) (timers w).

(** *** What the user can do *)

(** The script [m] keeps the property [P] of pages, however it ends. *)
Definition steps {G A} (P : world G -> Prop) (m : M (G:=G) A) : Prop :=
  forall w, P w -> P (snd (m w)).

(** The actions of the user of script (11).js, each with what its
    request comes to: an upload, a filter, an analysis. *)
Inductive script11_action : M (G:=Shared.vars) unit -> Prop :=
| script11_upload files u : script11_action (Script11.processFiles_run files u)
| script11_filter column minValue maxValue o :
    script11_action
      (request_then (Script11.applyFilter column minValue maxValue)
         (Script11.applyFilter_settle o))
| script11_analysis operation o :
    script11_action
      (request_then (Script11.performAnalysis operation)
         (Script11.performAnalysis_settle operation o)).

(** The actions of the user of the third variant. *)
Inductive part000_action : M (G:=Shared.vars) unit -> Prop :=
| part000_upload files u : part000_action (Part000.processFiles_run files u)
| part000_analysis operation o :
    part000_action
      (request_then (Part000.performAnalysis operation)
         (Part000.performAnalysis_settle operation o)).

(** The actions of the user of app.js: an upload, an analysis request,
    a change of the histogram column or of a scatter axis. *)
Inductive app_action : M (G:=AppJs.vars) unit -> Prop :=
| app_upload file x :
    app_action (bind (AppJs.uploadFile file) (fun _ => AppJs.uploadFile_settle x))
| app_analysis columns o m : In m (analyses columns o) -> app_action m
| app_histogram_change d c : app_action (AppJs.histogram_column_changed d c)
| app_axis_change d x y : app_action (AppJs.renderScatterChart d x y).

(** *** The chunks of the upload worker *)

(** The bytes of the chunks of a run of messages, in order. *)
Definition posted_bytes (l : list Worker.message) : list Byte.byte :=
  List.concat (map (fun m => match m with
                        | Worker.Chunk c _ _ => c
                        | Worker.Complete => []
                        end) l).

(** Chunk messages numbered [from], [from + 1], ..., each with the
    total and with at most [chunkSize] bytes. *)
Fixpoint numbered (l : list Worker.message) (from total : Z) : Prop :=
  match l with
  | [] => True
  | m :: r =>
      (exists c, m = Worker.Chunk c from total
                 /\ Z.of_nat (List.length c) <= Worker.chunkSize)
      /\ numbered r (from + 1) total
  end.

(** *** The preview of a file *)

(** A page of app.js with the table of the preview. *)
Definition preview_dom : list node := [el "table" "preview-table" []].

(** The fields of a line: what stands between its commas. *)
Definition fields (line : list N) : list (list N) := Str.split 44 line.

(** A field as the preview shows it: in full when it has 50 code units
    at most, else its first 50 and three dots. *)
Definition shown_field (field : list N) : string :=
  Str.utf8 (if (List.length field <=? 50)%nat then field
            else (firstn 50 field ++ [46; 46; 46]%N)%list).

(** The label over the field number [k], counted from 0: [Column] and
    the Number [k + 1]. *)
Definition column_label (k : nat) : string :=
  "Column " ++ toString (add (of_Z (Z.of_nat k)) (of_Z 1)).

(** The table of the preview of a text whose first line is [first] and
    whose further lines are [rest]: a head with a label for each field
    of the first line, and a row for each of the next five lines at
    most, with a cell for each of its fields. *)
Definition preview_of (first : list N) (rest : list (list N)) : list node :=
  [Element "thead" "" ""
     [Element "tr" "" ""
        (map (fun k => Element "th" "" "" [Markup (column_label k)])
           (seq 0 (List.length (fields first))))];
   Element "tbody" "" ""
     (map (fun line =>
             Element "tr" "" ""
               (map (fun field => Element "td" "" "" [Markup (shown_field field)])
                  (fields line)))
        (firstn 5 rest))].

(** The note in place of the preview of a file that is no [.csv]. *)
Definition no_preview : list node :=
  [Markup ("<tr><td colspan=" ++ Str.dq ++ "10" ++ Str.dq
           ++ ">Excel preview not available. Upload to see data.</td></tr>")].

(** *** The statistics tab of app.js *)

(** The four renderers of the statistics tab: the container, how a card
    is made, the placeholder, the renderer. *)
Record summary_tab : Type := mkTab {
  tab_container : string;
  tab_card : string -> jsval -> res node;
  tab_empty : string;
  tab_display : jsval -> M (G:=AppJs.vars) unit
}.

Definition summary_tabs : list summary_tab :=
  [mkTab "basic-stats-content" AppJs.basic_card
     "No numeric columns found for analysis" AppJs.displayBasicStats;
   mkTab "categorical-stats-content" AppJs.categorical_card
     "No categorical columns found" AppJs.displayCategoricalStats;
   mkTab "text-stats-content" AppJs.text_card
     "No text columns found" AppJs.displayTextStats;
   mkTab "datetime-stats-content" AppJs.datetime_card
     "No datetime columns found" AppJs.displayDatetimeStats].

(** A summary: for each column an object with the fields [fields]. *)
Definition summary_of (columns : list (string * list (string * jsval))) : jsval :=
  JObj (map (fun p => (fst p, JObj (snd p))) columns).

End Spec.

(** * Properties *)

(** ** Strings and numbers *)

Module StrFacts.

Import Str Spec.

Lemma chars_app (a b : string) : chars (a ++ b) = (chars a ++ chars b)%list.
Proof.
  unfold chars. induction a as [|c a IH]; simpl; [reflexivity|].
  now rewrite IH.
Qed.

Lemma chars_of_chars (l : list ascii) : chars (of_chars l) = l.
Proof. apply list_ascii_of_string_of_list_ascii. Qed.

Lemma span_stop (p : ascii -> bool) (l : list ascii) (c : ascii) (u : list ascii) :
  p c = false ->
  span p (l ++ c :: u) = (fst (span p l), (snd (span p l) ++ c :: u)%list).
Proof.
  intros Hc. induction l as [|x l IH]; simpl.
  - now rewrite Hc.
  - destruct (p x); [|reflexivity].
    rewrite IH. now destruct (span p l).
Qed.

Lemma strip_prefix_stop (q l : list ascii) (c : ascii) (u : list ascii) :
  forallb (fun x => negb (Ascii.eqb x c)) q = true ->
  strip_prefix q (l ++ c :: u)
  = option_map (fun r => (r ++ c :: u)%list) (strip_prefix q l).
Proof.
  revert l. induction q as [|a q IH]; intros l Hq; simpl.
  - reflexivity.
  - simpl in Hq. apply andb_prop in Hq. destruct Hq as [Ha Hq].
    destruct l as [|b l]; simpl.
    + apply negb_true_iff in Ha. now rewrite Ha.
    + destruct (Ascii.eqb a b); [now apply IH | reflexivity].
Qed.

Lemma solid_app (a b : list ascii) : solid a -> solid (a ++ b).
Proof. destruct a; simpl; [contradiction | trivial]. Qed.

Lemma trim_start_solid (l : list ascii) : solid l -> trim_start l = l.
Proof. destruct l as [|c l]; simpl; [contradiction|]. now intros ->. Qed.

Lemma digit_char_solid (d : Z) : 0 <= d < 10 -> is_space (digit_char d) = false.
Proof.
  intros H.
  assert (E : d = 0 \/ d = 1 \/ d = 2 \/ d = 3 \/ d = 4 \/ d = 5 \/ d = 6
              \/ d = 7 \/ d = 8 \/ d = 9) by lia.
  repeat (destruct E as [-> | E]; [reflexivity|]). now subst.
Qed.

Lemma digits_fuel_solid (fuel : nat) (n : Z) (acc : list ascii) :
  solid (digits_fuel (S fuel) n acc).
Proof.
  revert n acc. induction fuel as [|f IH]; intros n acc.
  - simpl. destruct (n <? 10); simpl;
      apply digit_char_solid, Z.mod_pos_bound; lia.
  - change (digits_fuel (S (S f)) n acc)
      with (let acc' := digit_char (n mod 10) :: acc in
            if n <? 10 then acc' else digits_fuel (S f) (n / 10) acc').
    simpl. destruct (n <? 10).
    + simpl. apply digit_char_solid, Z.mod_pos_bound; lia.
    + apply IH.
Qed.

Lemma digits_solid (n : Z) : solid (digits n).
Proof. apply digits_fuel_solid. Qed.

End StrFacts.

Module NumFacts.

Import Str Num Spec StrFacts.

Lemma scan_exponent_stop (l u : list ascii) :
  scan_exponent (l ++ space :: u)
  = (fst (scan_exponent l), (snd (scan_exponent l) ++ space :: u)%list).
Proof.
  destruct l as [|c r]; [reflexivity|].
  simpl. destruct (Ascii.eqb c "e" || Ascii.eqb c "E"); [|reflexivity].
  assert (D : forall r',
    (let (ds, rest) := span is_digit (r' ++ space :: u) in
     match ds with
     | [] => (0, c :: (r ++ space :: u)%list)
     | _ :: _ => ((if true then - of_digits ds else of_digits ds), rest)
     end)
    = (fst (let (ds, rest) := span is_digit r' in
            match ds with
            | [] => (0, c :: r)
            | _ :: _ => ((if true then - of_digits ds else of_digits ds), rest)
            end),
       (snd (let (ds, rest) := span is_digit r' in
             match ds with
             | [] => (0, c :: r)
             | _ :: _ => ((if true then - of_digits ds else of_digits ds), rest)
             end) ++ space :: u)%list)
    /\
    (let (ds, rest) := span is_digit (r' ++ space :: u) in
     match ds with
     | [] => (0, c :: (r ++ space :: u)%list)
     | _ :: _ => ((if false then - of_digits ds else of_digits ds), rest)
     end)
    = (fst (let (ds, rest) := span is_digit r' in
            match ds with
            | [] => (0, c :: r)
            | _ :: _ => ((if false then - of_digits ds else of_digits ds), rest)
            end),
       (snd (let (ds, rest) := span is_digit r' in
             match ds with
             | [] => (0, c :: r)
             | _ :: _ => ((if false then - of_digits ds else of_digits ds), rest)
             end) ++ space :: u)%list)).
  { intros r'. rewrite span_stop by reflexivity.
    destruct (span is_digit r') as [ds rest]. simpl.
    destruct ds; split; reflexivity. }
  destruct r as [|d r'']; simpl.
  - reflexivity.
  - destruct (Ascii.eqb d "-").
    + apply (D r'').
    + destruct (Ascii.eqb d "+").
      * apply (D r'').
      * apply (D (d :: r'')).
Qed.

Lemma scan_unsigned_stop (neg : bool) (l u : list ascii) :
  scan_unsigned neg (l ++ space :: u) = push u (scan_unsigned neg l).
Proof.
  unfold scan_unsigned.
  rewrite strip_prefix_stop by reflexivity.
  destruct (strip_prefix (chars "Infinity") l); [reflexivity|].
  simpl option_map. cbv iota.
  rewrite span_stop by reflexivity.
  destruct (span is_digit l) as [ip r1]. simpl fst. simpl snd.
  assert (T : forall fp r2,
    match ip, fp with
    | [], [] => None
    | _, _ =>
        let (ex, rest) := scan_exponent (r2 ++ space :: u) in
        Some (of_decimal neg (of_digits (ip ++ fp)%list)
                (ex - Z.of_nat (List.length fp)), rest)
    end
    = push u
        match ip, fp with
        | [], [] => None
        | _, _ =>
            let (ex, rest) := scan_exponent r2 in
            Some (of_decimal neg (of_digits (ip ++ fp)%list)
                    (ex - Z.of_nat (List.length fp)), rest)
        end).
  { intros fp r2. rewrite scan_exponent_stop.
    destruct (scan_exponent r2) as [ex rest].
    destruct ip, fp; reflexivity. }
  destruct r1 as [|c r]; simpl app; cbv beta iota.
  - apply (T [] []).
  - destruct (Ascii.eqb c ".").
    + rewrite span_stop by reflexivity.
      destruct (span is_digit r) as [fp r2]. simpl fst. simpl snd.
      destruct ip, fp;
        first [ reflexivity
              | match goal with
                | |- context [of_digits (_ ++ ?f)] => apply (T f r2)
                end ].
    + apply (T [] (c :: r)).
Qed.

Lemma scan_decimal_stop (l u : list ascii) :
  scan_decimal (l ++ space :: u) = push u (scan_decimal l).
Proof.
  destruct l as [|c r]; [reflexivity|].
  simpl. destruct (Ascii.eqb c "-"); [apply scan_unsigned_stop|].
  destruct (Ascii.eqb c "+"); [apply scan_unsigned_stop|].
  apply (scan_unsigned_stop false (c :: r)).
Qed.

(** What follows a space after a number does not change what
    [parseFloat] reads. *)
Lemma parseFloat_stop (t u : string) :
  solid (chars t) -> parseFloat (t ++ " " ++ u) = parseFloat t.
Proof.
  intros H. unfold parseFloat.
  rewrite chars_app. change (chars (" " ++ u)) with (space :: chars u).
  rewrite trim_start_solid by now apply solid_app.
  rewrite trim_start_solid by assumption.
  rewrite scan_decimal_stop.
  destruct (scan_decimal (chars t)) as [[x r]|]; reflexivity.
Qed.

Lemma firstn_solid (j : nat) (m rest : list ascii) :
  solid m -> solid (firstn j m ++ "."%char :: rest).
Proof.
  destruct j, m; simpl; try contradiction; trivial.
Qed.

Lemma fixed_digits_solid (f n : Z) : solid (fixed_digits f n).
Proof.
  unfold fixed_digits. destruct (f =? 0); [apply digits_solid|].
  cbv zeta. apply firstn_solid.
  destruct (_ <=? f).
  - unfold repeat_char.
    destruct (Z.to_nat _); simpl; [apply digits_solid | reflexivity].
  - apply digits_solid.
Qed.

Lemma format_decimal_solid (ds : list ascii) (n : Z) :
  solid ds -> solid (format_decimal ds n).
Proof.
  intros H. unfold format_decimal. cbv zeta.
  destruct ((-5 <=? n) && (n <=? 21)).
  - destruct (_ <=? n); [now apply solid_app|].
    destruct (0 <? n) eqn:E.
    + apply Z.ltb_lt in E. destruct (Z.to_nat n) eqn:N; [lia|].
      destruct ds; simpl in *; [contradiction | trivial].
    + reflexivity.
  - destruct ds as [|d [|d' r]]; simpl in *; [contradiction | trivial | trivial].
Qed.

Lemma toString_finite_solid (m : positive) (e : Z) :
  solid (chars (toString (S754_finite false m e))).
Proof.
  unfold toString. destruct (decimal_of _ m e) as [ds n] eqn:E.
  change (("" ++ of_chars (format_decimal ds n))%string) with (of_chars (format_decimal ds n)).
  rewrite chars_of_chars. apply format_decimal_solid.
  unfold decimal_of in E. destruct (ratio m e) as [a b].
  destruct (shortest _ _ _ _ _ _) as [s k].
  destruct (s =? 10 ^ k); inversion E; apply digits_solid.
Qed.

Lemma toFixed_solid (f : Z) (x : number) : solid (chars (toFixed f x)).
Proof.
  destruct x as [s|s| |s m e]; unfold toFixed.
  - rewrite chars_of_chars. apply fixed_digits_solid.
  - destruct s; reflexivity.
  - reflexivity.
  - destruct (ratio m e) as [a b]. destruct s.
    + reflexivity.
    + change (("" ++ ?z)%string) with z.
      destruct (_ <=? a).
      * apply toString_finite_solid.
      * rewrite chars_of_chars. apply fixed_digits_solid.
Qed.

End NumFacts.

(** ** formatFileSize *)

Module FormatFileSizeFacts.

Import Num Js NumFacts.

(** C10: [formatFileSize] returns the string "0 Bytes" for the size 0.
    For every size greater than 0 it returns a Number, not a string: what
    [parseFloat] reads from the two-decimal value followed by a space and
    the unit label is the two-decimal value alone, so the unit is lost
    whatever [Math.log] and [Math.pow] compute. *)
Theorem formatFileSize_strips_unit
    (Math_log : number -> number) (Math_pow : number -> number -> number)
    (bytes : number) :
  ltb zero bytes = true ->
  AppJs.formatFileSize Math_log Math_pow zero = JStr "0 Bytes"
  /\ AppJs.formatFileSize Math_log Math_pow bytes
     = JNum (parseFloat
               (toFixed 2
                  (div bytes
                     (Math_pow (of_Z 1024)
                        (floor (div (Math_log bytes) (Math_log (of_Z 1024)))))))).
Proof.
  intros H. split; [reflexivity|].
  unfold AppJs.formatFileSize.
  assert (E : eqb bytes zero = false).
  { destruct bytes as [s|s| |s m e]; try discriminate; try reflexivity.
    - destruct s; reflexivity.
    - destruct s; [discriminate | reflexivity]. }
  rewrite E. f_equal. apply parseFloat_stop, toFixed_solid.
Qed.

Lemma formatFileSize_strips_unit_witness :
  AppJs.formatFileSize Engine.Math_log Engine.Math_pow zero = JStr "0 Bytes"
  /\ AppJs.formatFileSize Engine.Math_log Engine.Math_pow (of_Z 1536)
     = JNum (parseFloat
               (toFixed 2
                  (div (of_Z 1536)
                     (Engine.Math_pow (of_Z 1024)
                        (floor (div (Engine.Math_log (of_Z 1536))
                                  (Engine.Math_log (of_Z 1024)))))))).
Proof.
  apply (formatFileSize_strips_unit Engine.Math_log Engine.Math_pow (of_Z 1536)).
  reflexivity.
Defined.

(** A file of 1536 bytes is shown as [1.5], without [KB]. *)
Example formatFileSize_1536 :
  ToString (AppJs.formatFileSize Engine.Math_log Engine.Math_pow (of_Z 1536)) = "1.5".
Proof. vm_compute. reflexivity. Qed.

Example formatFileSize_5_MB :
  ToString (AppJs.formatFileSize Engine.Math_log Engine.Math_pow (of_Z 5400000)) = "5.15".
Proof. vm_compute. reflexivity. Qed.

End FormatFileSizeFacts.

(** ** What a script leaves unchanged *)

Module Logic.

Import Js Page Spec.
Local Open Scope js_scope.

Section Keeps.

Context {G X : Type}.
Variable f : world G -> X.

Local Abbreviation keeps := (Spec.keeps f).

Lemma keeps_ret {A} (a : A) : keeps (ret a).
Proof. intros w. reflexivity. Qed.

Lemma keeps_throw {A} (e : exn) : keeps (throw (A:=A) e).
Proof. intros w. reflexivity. Qed.

Lemma keeps_lift {A} (r : res A) : keeps (lift r).
Proof. intros w. reflexivity. Qed.

Lemma keeps_bind {A B} (m : M A) (k : A -> M B) :
  keeps m -> (forall a, keeps (k a)) -> keeps (bind m k).
Proof.
  intros Hm Hk w. unfold bind. specialize (Hm w).
  destruct (m w) as [[a|e] w']; simpl in *.
  - now rewrite Hk.
  - assumption.
Qed.

Lemma keeps_bind_ret {A B} (a : A) (k : A -> M B) :
  keeps (k a) -> keeps (bind (ret a) k).
Proof. intros Hk w. apply Hk. Qed.

Lemma keeps_bind_throw {A B} (e : exn) (k : A -> M B) :
  keeps (bind (throw e) k).
Proof. intros w. reflexivity. Qed.

Lemma keeps_bind_lift {A B} (r : res A) (k : A -> M B) :
  (forall a, r = Ok a -> keeps (k a)) -> keeps (bind (lift r) k).
Proof.
  intros Hk w. unfold bind, lift. destruct r as [a|e]; simpl.
  - now apply Hk.
  - reflexivity.
Qed.

Lemma keeps_try_catch {A} (m : M A) (h : exn -> M A) :
  keeps m -> (forall e, keeps (h e)) -> keeps (try_catch m h).
Proof.
  intros Hm Hh w. unfold try_catch. specialize (Hm w).
  destruct (m w) as [[a|e] w']; simpl in *.
  - assumption.
  - now rewrite Hh.
Qed.

Lemma keeps_finally {A} (m : M A) (k : M unit) :
  keeps m -> keeps k -> keeps (finally m k).
Proof.
  intros Hm Hk w. unfold finally. specialize (Hm w).
  destruct (m w) as [r w']. specialize (Hk w').
  destruct (k w') as [[u|e] w'']; simpl in *; congruence.
Qed.

Lemma keeps_for_each {A} (l : list A) (k : A -> M unit) :
  (forall a, keeps (k a)) -> keeps (for_each l k).
Proof.
  intros Hk. induction l as [|x r IH]; simpl.
  - apply keeps_ret.
  - apply keeps_bind; [apply Hk | intros _; apply IH].
Qed.

Lemma keeps_read : keeps read.
Proof. intros w. reflexivity. Qed.

Lemma keeps_get_dom : keeps get_dom.
Proof. intros w. reflexivity. Qed.

Lemma keeps_get_log : keeps get_log.
Proof. intros w. reflexivity. Qed.

Lemma keeps_get_timers : keeps get_timers.
Proof. intros w. reflexivity. Qed.

Lemma keeps_write (g : G) :
  (forall w, f (mkWorld g (dom w) (log w) (next_id w) (timers w)) = f w) ->
  keeps (write g).
Proof. intros H w. apply H. Qed.

Lemma keeps_read_write (u : G -> G) :
  (forall w, f (mkWorld (u (globals w)) (dom w) (log w) (next_id w) (timers w)) = f w) ->
  keeps (bind read (fun g => write (u g))).
Proof. intros H w. apply H. Qed.

Lemma keeps_emit (e : event) :
  (forall w, f (mkWorld (globals w) (dom w) (e :: log w) (next_id w) (timers w)) = f w) ->
  keeps (emit e).
Proof. intros H w. apply H. Qed.

Lemma keeps_set_dom (d : list node) :
  (forall w, f (mkWorld (globals w) d (log w) (next_id w) (timers w)) = f w) ->
  keeps (set_dom d).
Proof. intros H w. apply H. Qed.

Lemma keeps_fresh :
  (forall w, f (mkWorld (globals w) (dom w) (log w) (S (next_id w)) (timers w)) = f w) ->
  keeps fresh.
Proof. intros H w. apply H. Qed.

Lemma keeps_set_timers (t : list nat) :
  (forall w, f (mkWorld (globals w) (dom w) (log w) (next_id w) t) = f w) ->
  keeps (set_timers t).
Proof. intros H w. apply H. Qed.

End Keeps.

Ltac head_of t :=
  match t with
  | ?g _ => head_of g
  | _ => t
  end.

(** Walks through a script down to the primitives; what is left is a
    side condition on a primitive that changes the view. *)
Ltac keeps_step :=
  match goal with
  | |- forall _, _ => intro
  | |- keeps _ (bind read (fun g => write _)) =>
      apply keeps_read_write; intro; try reflexivity
  | |- _ => progress cbv beta iota
  | |- keeps _ (bind (ret _) _) => apply keeps_bind_ret
  | |- keeps _ (bind (throw _) _) => apply keeps_bind_throw
  | |- keeps _ (bind (lift _) _) => apply keeps_bind_lift; intros ? ?
  | |- keeps _ (bind _ _) => apply keeps_bind
  | |- keeps _ (ret _) => apply keeps_ret
  | |- keeps _ (throw _) => apply keeps_throw
  | |- keeps _ (lift _) => apply keeps_lift
  | |- keeps _ (try_catch _ _) => apply keeps_try_catch
  | |- keeps _ (finally _ _) => apply keeps_finally
  | |- keeps _ (for_each _ _) => apply keeps_for_each
  | |- keeps _ read => apply keeps_read
  | |- keeps _ get_dom => apply keeps_get_dom
  | |- keeps _ get_log => apply keeps_get_log
  | |- keeps _ get_timers => apply keeps_get_timers
  | |- keeps _ (write _) => apply keeps_write; intro; try reflexivity
  | |- keeps _ (emit _) => apply keeps_emit; intro; try reflexivity
  | |- keeps _ (set_dom _) => apply keeps_set_dom; intro; try reflexivity
  | |- keeps _ fresh => apply keeps_fresh; intro; try reflexivity
  | |- keeps _ (set_timers _) => apply keeps_set_timers; intro; try reflexivity
  | |- keeps _ (if ?b then _ else _) => destruct b eqn:?
  | |- keeps _ (match ?x with _ => _ end) => destruct x eqn:?
  | |- keeps _ (let _ := _ in _) => cbv zeta
  | |- keeps _ ?m => let h := head_of m in progress unfold h
  end.

Ltac keeps_all := repeat keeps_step.

End Logic.

(** ** No dataset loaded *)

Module NoDatasetFacts.

Import Js Page Shared Spec.

Lemma hideLoading_log (w : world vars) :
  exists l, log (snd (hideLoading w)) = (l ++ log w)%list
            /\ requests l = []
            /\ globals (snd (hideLoading w)) = globals w
            /\ dom (snd (hideLoading w)) = dom w
            /\ fst (hideLoading w) = Ok tt.
Proof.
  unfold hideLoading, bind, get_log, emit, ret. simpl.
  destruct (existsb _ (log w)); simpl.
  - exists [ModalHidden]. repeat split.
  - exists []. repeat split.
Qed.

Lemma refused_script11 (op : string) (w : world vars) :
  truthy (currentData (globals w)) = false ->
  refused (Script11.performAnalysis op w) w.
Proof.
  intros H. unfold Script11.performAnalysis, bind, read. simpl. rewrite H. simpl.
  unfold alert, emit. simpl.
  match goal with |- context [hideLoading ?x] => destruct (hideLoading_log x) as (l & E1 & E2 & E3 & E4 & E5) end.
  destruct (hideLoading _) as [[u|e] w']; simpl in *; [|discriminate].
  unfold refused. simpl. rewrite E1, E3, E4. unfold requests in *.
  rewrite filter_app, E2. simpl. repeat split.
  apply in_or_app. right. now left.
Qed.

Lemma refused_part000 (op : string) (w : world vars) :
  truthy (currentData (globals w)) = false ->
  op <> "basic_stats" ->
  refused (Part000.performAnalysis op w) w.
Proof.
  intros H N. unfold Part000.performAnalysis, bind, read. simpl. rewrite H.
  apply String.eqb_neq in N. rewrite N. simpl.
  unfold alert, emit. simpl.
  match goal with |- context [hideLoading ?x] => destruct (hideLoading_log x) as (l & E1 & E2 & E3 & E4 & E5) end.
  destruct (hideLoading _) as [[u|e] w']; simpl in *; [|discriminate].
  unfold refused. simpl. rewrite E1, E3, E4. unfold requests in *.
  rewrite filter_app, E2. simpl. repeat split.
  apply in_or_app. right. now left.
Qed.

(** C1, as the code has it: with no dataset loaded, the loaders of
    app.js return at once, silently, and send nothing; [performAnalysis]
    of script (11).js alerts "Please upload data first" and sends nothing,
    whatever the operation; the third variant does the same for every
    operation but [basic_stats], which it lets through to the network. *)
Theorem no_dataset_no_request
    (a : world AppJs.vars) (s : world vars)
    (columns : option (list string)) (operation : string) :
  truthy (AppJs.currentFileId (globals a)) = false ->
  truthy (currentData (globals s)) = false ->
  Forall (fun load => load columns a = (Ok false, a)) loaders
  /\ refused (Script11.performAnalysis operation s) s
  /\ (operation <> "basic_stats" -> refused (Part000.performAnalysis operation s) s)
  /\ fst (Part000.performAnalysis "basic_stats" s) = Ok true
  /\ requests (log (snd (Part000.performAnalysis "basic_stats" s)))
     = FetchSent "http://localhost:5000/analyze"
         (Json (JObj [("operation", JStr "basic_stats")])) :: requests (log s).
Proof.
  intros Ha Hs. split; [|split; [|split; [|split]]].
  - unfold loaders.
    repeat constructor;
      unfold AppJs.loadBasicStats, AppJs.loadOutliers, AppJs.loadCorrelations,
        AppJs.loadHistogram, AppJs.loadScatterPlot, AppJs.loadDataQuality,
        AppJs.loadInsights, AppJs.load, bind, read, ret; simpl; now rewrite Ha.
  - now apply refused_script11.
  - intros N. now apply refused_part000.
  - unfold Part000.performAnalysis, bind, read. simpl. rewrite Hs. reflexivity.
  - unfold Part000.performAnalysis, bind, read. simpl. rewrite Hs. reflexivity.
Qed.

Lemma no_dataset_no_request_witness :
  Forall (fun load => load None (page AppJs.initial []) = (Ok false, page AppJs.initial []))
    loaders
  /\ refused (Script11.performAnalysis "outliers" (page initial [])) (page initial [])
  /\ ("outliers" <> "basic_stats" ->
      refused (Part000.performAnalysis "outliers" (page initial [])) (page initial []))
  /\ fst (Part000.performAnalysis "basic_stats" (page initial [])) = Ok true
  /\ requests (log (snd (Part000.performAnalysis "basic_stats" (page initial []))))
     = FetchSent "http://localhost:5000/analyze"
         (Json (JObj [("operation", JStr "basic_stats")]))
       :: requests (log (page initial [])).
Proof.
  apply (no_dataset_no_request (page AppJs.initial []) (page initial []) None "outliers");
    reflexivity.
Defined.

(** C1 as stated fails for [basic_stats] in the third variant: with no
    dataset loaded the request is sent and nothing is reported. *)
Lemma basic_stats_sent_without_dataset :
  truthy (currentData (globals (page initial []))) = false
  /\ ~ refused (Part000.performAnalysis "basic_stats" (page initial [])) (page initial []).
Proof.
  split; [reflexivity|].
  intros (H & _). discriminate H.
Qed.

End NoDatasetFacts.

(** ** Errors leave the Session State as it was *)

Module SessionFacts.

Import Js Page Shared Spec Logic.
















(** A filter that the server refuses leaves the loaded dataset in place. *)
Example filter_error_keeps_dataset :
  let w := mkWorld (mkVars (JObj [("rows", num 3)]) None None None)
             shared_dom [] 0%nat [] in
  let w' := snd (Script11.applyFilter_settle
                   (Responded true 200 "OK" (BodyJson (JObj [("error", JStr "bad column")])))
                   w) in
  currentData (globals w') = JObj [("rows", num 3)]
  /\ alerts (log w') = ["Error applying filter: bad column"].
Proof. vm_compute. split; reflexivity. Qed.

End SessionFacts.

(** ** Errors that the server reports *)

Module ServerErrorFacts.

Import Js Page Shared Spec.
Local Open Scope js_scope.





(** The third variant answers a bad status before it reads the body:
    the message of the server is not what the user sees. *)
Example bad_status_hides_message :
  let o := Responded false 400 "BAD REQUEST"
             (BodyJson (JObj [("error", JStr "No file part")])) in
  alerts (log (snd (Part000.processFiles_settle 0 o (page initial shared_dom))))
  = ["Error processing file: Upload failed: BAD REQUEST"].
Proof. vm_compute. reflexivity. Qed.

(** The upload of app.js shows a fixed label, not the message. *)
Example upload_error_label :
  let x := AppJs.XhrLoaded 200 (BodyJson (JObj [("error", JStr "File too large")])) in
  let w' := snd (AppJs.uploadFile_settle x (page AppJs.initial app_dom)) in
  alerts (log w') = []
  /\ children "upload-btn" (dom w') = Some (AppJs.warning_label "Upload failed").
Proof. vm_compute. split; reflexivity. Qed.

End ServerErrorFacts.

(** ** The timer of an upload *)

Module TimerFacts.

Import Js Page Shared Spec Logic.
Local Open Scope js_scope.

Lemma others_idem (t : nat) (l : list nat) : others t (others t l) = others t l.
Proof.
  unfold others. induction l as [|x l IH]; simpl; [reflexivity|].
  destruct (negb (Nat.eqb t x)) eqn:E; simpl; [rewrite E|]; now rewrite IH.
Qed.

Lemma others_fresh (t : nat) (l : list nat) : ~ In t l -> others t l = l.
Proof.
  unfold others. induction l as [|x l IH]; simpl; [reflexivity|].
  intros N. destruct (Nat.eqb_spec t x) as [->|D]; simpl.
  - exfalso. apply N. now left.
  - f_equal. apply IH. intros I. apply N. now right.
Qed.

Lemma clearTimeout_others (G : Type) (t : nat) :
  keeps (G:=G) (fun w => others t (timers w)) (clearTimeout t).
Proof. intros w. simpl. apply others_idem. Qed.

Lemma timer_fires_others (G : Type) (t : nat) :
  keeps (G:=G) (fun w => others t (timers w)) (timer_fires t).
Proof. intros w. simpl. apply others_idem. Qed.

Ltac timers_all :=
  repeat first [ apply clearTimeout_others | apply timer_fires_others | keeps_step ].

(** In the third variant the chain of an upload leaves no timer of its
    own, however the request settles: [finally] clears it. *)
Lemma processFiles_settle_clears (t : nat) (o : fetch_outcome) (w : world vars) :
  timers (snd (Part000.processFiles_settle t o w)) = others t (timers w).
Proof.
  assert (K : keeps (fun w => others t (timers w)) (Part000.processFiles_settle t o))
    by (destruct o as [e|ok st txt [data|e]]; timers_all).
  rewrite <- (K w).
  unfold Part000.processFiles_settle, finally.
  destruct (try_catch _ _ w) as [r w1].
  assert (H : keeps timers hideLoading) by keeps_all.
  unfold bind, clearTimeout, get_timers, set_timers, emit. simpl.
  match goal with |- context [hideLoading ?x] => pose proof (H x) as Hx end.
  destruct (hideLoading _) as [[u|e] w2]; simpl in *; rewrite Hx;
    symmetry; apply others_idem.
Qed.

(** In the third variant an upload leaves the timers as they were,
    whether the request settles or the timer fires first. *)
Lemma processFiles_run_clears (files : list string) (o : upload_outcome)
    (w : world vars) :
  ~ In (next_id w) (timers w) ->
  timers (snd (Part000.processFiles_run files o w)) = timers w.
Proof.
  intros F. unfold Part000.processFiles_run, Part000.processFiles, bind.
  destruct files as [|file files']; [reflexivity|].
  destruct (negb _); [reflexivity|].
  cbn -[Part000.processFiles_settle others].
  destruct o as [o|].
  - rewrite processFiles_settle_clears. cbn.
    rewrite Nat.eqb_refl. simpl. now apply others_fresh.
  - cbn -[Part000.processFiles_settle others].
    rewrite processFiles_settle_clears. cbn.
    rewrite Nat.eqb_refl. simpl.
    change (others (next_id w) (others (next_id w) (timers w)) = timers w).
    rewrite others_idem. now apply others_fresh.
Qed.

Lemma processFiles_run_clears_witness :
  timers (snd (Part000.processFiles_run ["data.csv"] TimesOut (page initial shared_dom)))
  = timers (page initial shared_dom).
Proof.
  apply (processFiles_run_clears ["data.csv"] TimesOut (page initial shared_dom)).
  simpl. intros [].
Defined.

(** C3: in script (11).js the timer of an upload is cleared only once the
    response has arrived.  When the network fails before the 10 seconds
    are over, the upload flow ends (the error is alerted, the modal is
    hidden) with the timer still pending; when it fires, the user is told
    of a timeout that did not happen. *)
Theorem network_failure_leaves_timer :
  let failure := Settles (Rejected (type_error "Failed to fetch")) in
  let w := snd (Script11.processFiles_run ["data.csv"] failure (page initial shared_dom)) in
  timers w = [0%nat]
  /\ alerts (log w) = ["Error processing file: Failed to fetch"]
  /\ alerts (log (snd (Script11.processFiles_timeout 0 w)))
     = ["Upload request timed out."; "Error processing file: Failed to fetch"]
  /\ timers (snd (Part000.processFiles_run ["data.csv"] failure (page initial shared_dom)))
     = [].
Proof. vm_compute. repeat split. Qed.

End TimerFacts.

(** ** The document tree *)

Module DomFacts.

Import Js Page Spec.
Local Open Scope js_scope.

Section Induction.

Variable P : node -> Prop.
Variable Q : list node -> Prop.
Hypothesis markup : forall s, P (Markup s).
Hypothesis element : forall t j c ch, Q ch -> P (Element t j c ch).
Hypothesis empty : Q [].
Hypothesis more : forall x r, P x -> Q r -> Q (x :: r).

Fixpoint node_induction (n : node) : P n :=
  match n with
  | Markup s => markup s
  | Element t j c ch =>
      element t j c ch
        ((fix go (l : list node) : Q l :=
            match l with
            | [] => empty
            | x :: r => more x r (node_induction x) (go r)
            end) ch)
  end.

Fixpoint nodes_induction (l : list node) : Q l :=
  match l with
  | [] => empty
  | x :: r => more x r (node_induction x) (nodes_induction r)
  end.

End Induction.

Lemma find_element (p : node -> bool) (t j c : string) (ch : list node) :
  find p (Element t j c ch)
  = if p (Element t j c ch) then Some (Element t j c ch) else find_in p ch.
Proof.
  simpl. destruct (p _); [reflexivity|].
  induction ch as [|x r IH]; simpl; [reflexivity|].
  destruct (find p x); [reflexivity | apply IH].
Qed.

Lemma update_element (p : node -> bool) (f : list node -> list node)
    (t j c : string) (ch : list node) :
  update p f (Element t j c ch)
  = if p (Element t j c ch) then Some (Element t j c (f ch))
    else option_map (Element t j c) (update_in p f ch).
Proof.
  simpl. destruct (p _); [reflexivity|]. f_equal.
  induction ch as [|x r IH]; simpl; [reflexivity|].
  destruct (update p f x); [reflexivity | now rewrite IH].
Qed.

Lemma has_id_by_label (i : string) : by_label (has_id i).
Proof. split; reflexivity. Qed.

Lemma update_find (p : node -> bool) (f : list node -> list node) :
  by_label p ->
  (forall n,
     updated p f (find p n)
       (match update p f n with Some n' => find p n' | None => None end)
       (is_some (update p f n)))
  /\ (forall l,
        updated p f (find_in p l)
          (match update_in p f l with Some l' => find_in p l' | None => None end)
          (is_some (update_in p f l))).
Proof.
  intros [Hm He].
  set (P := fun n =>
    updated p f (find p n)
      (match update p f n with Some n' => find p n' | None => None end)
      (is_some (update p f n))).
  set (Q := fun l =>
    updated p f (find_in p l)
      (match update_in p f l with Some l' => find_in p l' | None => None end)
      (is_some (update_in p f l))).
  assert (M : forall s, P (Markup s)).
  { intros s. unfold P. simpl. rewrite Hm. reflexivity. }
  assert (E : forall t j c ch, Q ch -> P (Element t j c ch)).
  { intros t j c ch IH. unfold P, Q in *.
    rewrite find_element, update_element.
    destruct (p (Element t j c ch)) eqn:T.
    - cbv beta iota delta [updated is_some]. split; [reflexivity|].
      rewrite find_element, (He t j c (f ch) ch), T. reflexivity.
    - destruct (update_in p f ch) as [ch'|];
        cbv beta iota delta [option_map is_some] in *.
      + rewrite find_element, (He t j c ch' ch), T. exact IH.
      + exact IH. }
  assert (N : Q []) by reflexivity.
  assert (C : forall x r, P x -> Q r -> Q (x :: r)).
  { intros x r Hx Hr. unfold P, Q in *.
    cbn [find_in update_in].
    destruct (find p x) as [[s|t j c ch]|] eqn:Fx;
      cbv beta iota delta [updated] in Hx.
    - contradiction.
    - destruct Hx as [U A]. destruct (update p f x) as [x'|]; [|discriminate].
      cbv beta iota delta [updated is_some]. cbn [find_in]. rewrite A.
      split; reflexivity.
    - destruct (update p f x) as [x'|]; [discriminate|].
      destruct (update_in p f r) as [r'|];
        cbv beta iota delta [option_map is_some] in *.
      + cbn [find_in]. rewrite Fx. exact Hr.
      + exact Hr. }
  split; [exact (node_induction P Q M E N C) | exact (nodes_induction P Q M E N C)].
Qed.

Lemma children_update (i : string) (f : list node -> list node)
    (d old : list node) :
  children i d = Some old ->
  exists d', update_in (has_id i) f d = Some d' /\ children i d' = Some (f old).
Proof.
  unfold children. intros H.
  destruct (update_find (has_id i) f (has_id_by_label i)) as [_ L].
  specialize (L d). unfold updated in L.
  destruct (find_in (has_id i) d) as [[s|t j c ch]|]; [contradiction| |discriminate].
  inversion H; subst ch. destruct L as [U A].
  destruct (update_in (has_id i) f d) as [d'|]; [|discriminate].
  exists d'. split; [reflexivity|]. now rewrite A.
Qed.

Section Run.

Context {G : Type}.

Lemma set_content_run (i : string) (c old : list node) (w : world G) :
  children i (dom w) = Some old ->
  exists d', set_content i c w = (Ok tt, with_dom w d') /\ children i d' = Some c.
Proof.
  intros H. destruct (children_update i (fun _ => c) _ _ H) as (d' & U & C).
  exists d'. split; [|assumption].
  unfold set_content, bind, get_dom. simpl. now rewrite U.
Qed.

Lemma add_content_run (i : string) (c old : list node) (w : world G) :
  children i (dom w) = Some old ->
  exists d', add_content i c w = (Ok tt, with_dom w d')
             /\ children i d' = Some (old ++ c)%list.
Proof.
  intros H. destruct (children_update i (fun o => (o ++ c)%list) _ _ H) as (d' & U & C).
  exists d'. split; [|assumption].
  unfold add_content, bind, get_dom. simpl. now rewrite U.
Qed.

(** A loop that appends one card per entry. *)
Lemma append_cards {A} (i : string) (mk : A -> res node) (l : list A)
    (cards : list node) :
  Forall2 (fun a c => mk a = Ok c) l cards ->
  forall (old : list node) (w : world G),
  children i (dom w) = Some old ->
  exists d',
    for_each l (fun a => let* c := lift (mk a) in add_content i [c]) w
    = (Ok tt, with_dom w d')
    /\ children i d' = Some (old ++ cards)%list.
Proof.
  induction 1 as [|a c l cards Ha Hl IH]; intros old w H.
  - exists (dom w). simpl. rewrite app_nil_r. split; [|assumption].
    unfold ret, with_dom. now destruct w.
  - simpl. unfold bind at 1. unfold bind at 1. unfold lift at 1. rewrite Ha.
    destruct (add_content_run i [c] old w H) as (d1 & E1 & C1). rewrite E1.
    destruct (IH (old ++ [c])%list (with_dom w d1) C1) as (d2 & E2 & C2).
    rewrite E2. exists d2. split; [reflexivity|].
    now rewrite <- app_assoc in C2.
Qed.

End Run.

End DomFacts.

(** ** Comparisons of Numbers *)

Module CompareFacts.

Import Num Spec.





End CompareFacts.

(** ** The outlier renderers *)

Module OutlierFacts.

Import Num Js Page Spec Logic DomFacts.
Local Open Scope js_scope.

Lemma app_card_of (o : outlier) (e : string * jsval) :
  says o e -> AppJs.outlier_card (fst e) (snd e) = Ok (app_outlier_card o).
Proof.
  intros (Hc & Hn & Hp & Hv). unfold AppJs.outlier_card, bindr.
  rewrite Hp, Hn. cbn [call_toFixed]. rewrite Hv. cbn [call_slice0 call_join].
  now rewrite Hc.
Qed.

(** What [displayOutliers] of app.js leaves in its container. *)
Lemma displayOutliers_cards (report : list outlier) (es : list (string * jsval))
    (old : list node) (w : world AppJs.vars) :
  report <> [] ->
  Forall2 says report es ->
  children "outliers-content" (dom w) = Some old ->
  exists d',
    AppJs.displayOutliers (JObj es) w = (Ok tt, with_dom w d')
    /\ children "outliers-content" d' = Some (map app_outlier_card report).
Proof.
  intros N F H.
  destruct (set_content_run "outliers-content" [] old w H) as (d1 & E1 & C1).
  assert (F' : Forall2 (fun e c => AppJs.outlier_card (fst e) (snd e) = Ok c)
                 es (map app_outlier_card report)).
  { clear - F. induction F as [|o e report es S F IH]; simpl; constructor.
    - now apply app_card_of.
    - exact IH. }
  destruct (append_cards "outliers-content"
              (fun e => AppJs.outlier_card (fst e) (snd e)) es _ F' [] (with_dom w d1) C1)
    as (d2 & E2 & C2).
  exists d2. split; [|exact C2].
  unfold AppJs.displayOutliers. unfold bind at 1. rewrite E1.
  destruct es as [|e es']; [inversion F; subst; contradiction|].
  cbn [keys entries lift bind map]. cbv beta iota.
  unfold bind at 1. cbn [lift]. exact E2.
Qed.

Lemma ratio_positive (m : positive) (e : Z) :
  0 < fst (ratio m e) /\ 0 < snd (ratio m e).
Proof.
  unfold ratio. destruct (0 <=? e) eqn:P; cbn [fst snd].
  - apply Z.leb_le in P. split; [|lia].
    apply Z.mul_pos_pos; [lia | now apply Z.pow_pos_nonneg].
  - apply Z.leb_gt in P. split; [lia|]. apply Z.pow_pos_nonneg; lia.
Qed.

Lemma round_half_up_nearest (a b : Z) :
  0 < b -> nearest_hundredths a b (round_half_up (a * 100) b).
Proof.
  intros B. unfold nearest_hundredths, round_half_up.
  pose proof (Z.div_mod (2 * (a * 100) + b) (2 * b) ltac:(lia)) as D.
  pose proof (Z.mod_pos_bound (2 * (a * 100) + b) (2 * b) ltac:(lia)) as M.
  generalize dependent ((2 * (a * 100) + b) / (2 * b)).
  generalize dependent ((2 * (a * 100) + b) mod (2 * b)).
  intros r q D M. nia.
Qed.

(** [toFixed(2)] of a Number below [10^21] in magnitude rounds to two
    decimals. *)
Lemma toFixed_two_decimals (x : number) :
  below_1e21 x = true -> two_decimals x (toFixed 2 x).
Proof.
  destruct x as [s| | |s m e]; try discriminate; [reflexivity|].
  unfold below_1e21, two_decimals, toFixed.
  destruct (ratio_positive m e) as [A B].
  destruct (ratio m e) as [a b]. cbn [fst snd] in *.
  intros L. apply negb_true_iff in L. rewrite L.
  exists (round_half_up (a * 100) b). split.
  - now apply round_half_up_nearest.
  - reflexivity.
Qed.

Lemma app_first_five_only : first_five_only AppJs.outlier_card.
Proof.
  intros col count percentage values.
  unfold AppJs.outlier_card, bindr. cbn [get lookup String.eqb Ascii.eqb Bool.eqb].
  destruct (call_toFixed percentage 2); [|reflexivity].
  cbn [call_slice0 call_join]. now rewrite firstn_firstn.
Qed.

Lemma lookup_entry (es : list (string * jsval)) (k : string) (v : jsval) :
  NoDup (map fst es) -> In (k, v) es -> lookup k es = v.
Proof.
  induction es as [|[k' v'] es IH]; intros D I; [contradiction|].
  simpl in *. inversion D as [|? ? N D']; subst.
  destruct I as [E|I].
  - inversion E; subst. now rewrite String.eqb_refl.
  - destruct (String.eqb_spec k' k) as [->|_].
    + exfalso. apply N. apply in_map_iff. now exists (k, v).
    + now apply IH.
Qed.

Lemma script11_item_of (o : outlier) (e : string * jsval) :
  says o e -> Script11.outlier_item (fst e) (snd e) = Ok (script11_outlier_item o).
Proof.
  intros (Hc & Hn & Hp & Hv). unfold Script11.outlier_item, bindr.
  rewrite Hn, Hp. cbn [call_toFixed]. rewrite Hv. cbn [call_join].
  now rewrite Hc.
Qed.

Lemma for_each_map {G A B} (h : A -> B) (l : list A) (g : B -> M (G:=G) unit) :
  forall w, for_each (map h l) g w = for_each l (fun a => g (h a)) w.
Proof.
  induction l as [|x r IH]; intros w; [reflexivity|].
  simpl. unfold bind. destruct (g (h x) w) as [[u|e] w']; [|reflexivity].
  apply IH.
Qed.

Lemma for_each_ext {G A} (l : list A) (f g : A -> M (G:=G) unit) :
  (forall a, In a l -> forall w, f a w = g a w) ->
  forall w, for_each l f w = for_each l g w.
Proof.
  induction l as [|x r IH]; intros E w; [reflexivity|].
  simpl. unfold bind. rewrite (E x (or_introl eq_refl)).
  destruct (g x w) as [[u|e] w']; [|reflexivity].
  apply IH. intros a I. apply E. now right.
Qed.

(** What [displayOutliers] of script (11).js leaves in its container. *)
Lemma displayOutliers_items (report : list outlier) (es : list (string * jsval))
    (old : list node) (w : world Shared.vars) :
  report <> [] ->
  Forall2 says report es ->
  NoDup (map fst es) ->
  children "insightsContainer" (dom w) = Some old ->
  exists d',
    Script11.displayOutliers (JObj es) w = (Ok tt, with_dom w d')
    /\ children "insightsContainer" d'
       = Some (Markup (tag "h6" "" "Outlier Detection Results")
               :: map script11_outlier_item report).
Proof.
  intros N F D H.
  destruct (set_content_run "insightsContainer"
              [Markup (tag "h6" "" "Outlier Detection Results")] old w H)
    as (d1 & E1 & C1).
  assert (F' : Forall2 (fun e c => Script11.outlier_item (fst e) (snd e) = Ok c)
                 es (map script11_outlier_item report)).
  { clear - F. induction F as [|o e report es S F IH]; simpl; constructor.
    - now apply script11_item_of.
    - exact IH. }
  destruct (append_cards "insightsContainer"
              (fun e => Script11.outlier_item (fst e) (snd e)) es _ F' _
              (with_dom w d1) C1)
    as (d2 & E2 & C2).
  exists d2. split; [|exact C2].
  unfold Script11.displayOutliers. unfold bind at 1. rewrite E1.
  destruct es as [|e es']; [inversion F; subst; contradiction|].
  cbn [truthy keys entries negb orb map for_in_keys]. cbv beta iota.
  change (fst e :: map fst es') with (map fst (e :: es')).
  etransitivity; [|exact E2]. clear E2 C2.
  generalize (with_dom w d1). generalize (e :: es') D. clear.
  intros es D.
  intros w0. rewrite for_each_map. apply for_each_ext.
  intros [k v] I w1. cbn [fst snd]. unfold bind at 1. cbn [lift get].
  now rewrite (lookup_entry es k v D I).
Qed.

(** C6 (as amended): for a report with at least one column, each entry
    with a count, a Number percentage of a magnitude below [10^21] and an
    array of values, app.js shows for each column a card with the count,
    the percentage rounded to two decimals and the first five values at
    most; script (11).js shows for each column (the keys being distinct)
    an item with the count, the same percentage and every value.  For the
    count 3 and the percentage 12.345 they write [3 outliers (12.35%)]. *)
Theorem outliers_rendered (report : list outlier) (es : list (string * jsval))
    (old old' : list node) (w : world AppJs.vars) (w' : world Shared.vars) :
  report <> [] ->
  Forall2 says report es ->
  NoDup (map fst es) ->
  Forall (fun o => below_1e21 (percentage o) = true) report ->
  children "outliers-content" (dom w) = Some old ->
  children "insightsContainer" (dom w') = Some old' ->
  (exists d,
     AppJs.displayOutliers (JObj es) w = (Ok tt, with_dom w d)
     /\ children "outliers-content" d = Some (map app_outlier_card report))
  /\ first_five_only AppJs.outlier_card
  /\ (exists d,
        Script11.displayOutliers (JObj es) w' = (Ok tt, with_dom w' d)
        /\ children "insightsContainer" d
           = Some (Markup (tag "h6" "" "Outlier Detection Results")
                   :: map script11_outlier_item report))
  /\ Forall (fun o => two_decimals (percentage o) (toFixed 2 (percentage o))) report
  /\ (let o := mkOutlier "age" (num 3) (of_decimal false 12345 (-3))
                 [num 97; num 99; num 120] in
      app_outlier_card o
      = Element "div" "" "stat-card"
          [Markup (tag "h4" (attr "class" "warning") "age"
                   ++ div_class "stat-value" "3 outliers (12.35%)"
                   ++ div_class "stat-description"
                        (tag "strong" "" "Sample values:" ++ " 97, 99, 120"))]
      /\ script11_outlier_item o
         = Element "div" "" "insight-item border-warning text-warning bg-warning-light"
             [Markup (div_class "insight-title" "Outliers in age"
                      ++ div_class "insight-description"
                           "Found 3 outliers (12.35%): 97, 99, 120")]).
Proof.
  intros N F D B H H'. split; [|split; [|split; [|split]]].
  - exact (displayOutliers_cards report es old w N F H).
  - exact app_first_five_only.
  - exact (displayOutliers_items report es old' w' N F D H').
  - clear - B. induction B as [|o report Bo B IH]; constructor; [|exact IH].
    now apply toFixed_two_decimals.
  - cbv zeta. split; vm_compute; reflexivity.
Qed.

Lemma outliers_rendered_witness :
  let o := mkOutlier "age" (num 3) (of_decimal false 12345 (-3))
             [num 97; num 99; num 120] in
  let es := [("age", JObj [("count", num 3);
                           ("percentage", JNum (of_decimal false 12345 (-3)));
                           ("outlier_values", JArr [num 97; num 99; num 120])])] in
  (exists d,
     AppJs.displayOutliers (JObj es) (page AppJs.initial app_dom)
     = (Ok tt, with_dom (page AppJs.initial app_dom) d)
     /\ children "outliers-content" d = Some (map app_outlier_card [o]))
  /\ first_five_only AppJs.outlier_card
  /\ (exists d,
        Script11.displayOutliers (JObj es) (page Shared.initial shared_dom)
        = (Ok tt, with_dom (page Shared.initial shared_dom) d)
        /\ children "insightsContainer" d
           = Some (Markup (tag "h6" "" "Outlier Detection Results")
                   :: map script11_outlier_item [o]))
  /\ Forall (fun o => two_decimals (percentage o) (toFixed 2 (percentage o))) [o]
  /\ (let o := mkOutlier "age" (num 3) (of_decimal false 12345 (-3))
                 [num 97; num 99; num 120] in
      app_outlier_card o
      = Element "div" "" "stat-card"
          [Markup (tag "h4" (attr "class" "warning") "age"
                   ++ div_class "stat-value" "3 outliers (12.35%)"
                   ++ div_class "stat-description"
                        (tag "strong" "" "Sample values:" ++ " 97, 99, 120"))]
      /\ script11_outlier_item o
         = Element "div" "" "insight-item border-warning text-warning bg-warning-light"
             [Markup (div_class "insight-title" "Outliers in age"
                      ++ div_class "insight-description"
                           "Found 3 outliers (12.35%): 97, 99, 120")]).
Proof.
  cbv zeta.
  apply (outliers_rendered
           [mkOutlier "age" (num 3) (of_decimal false 12345 (-3))
              [num 97; num 99; num 120]]
           [("age", JObj [("count", num 3);
                          ("percentage", JNum (of_decimal false 12345 (-3)));
                          ("outlier_values", JArr [num 97; num 99; num 120])])]
           [] [] (page AppJs.initial app_dom) (page Shared.initial shared_dom)).
  - discriminate.
  - repeat constructor.
  - repeat constructor. intros [].
  - repeat constructor.
  - reflexivity.
  - reflexivity.
Defined.

(** The report [{count: 3, percentage: 12.345}] of the column [age]: both
    variants write [3 outliers (12.35%)]. *)
Example outliers_12_345 :
  let data := JObj [("count", num 3);
                    ("percentage", JNum (of_decimal false 12345 (-3)));
                    ("outlier_values", JArr [num 97; num 99; num 120])] in
  AppJs.outlier_card "age" data
  = Ok (AppJs.card
          (tag "h4" (attr "class" "warning") "age"
           ++ div_class "stat-value" "3 outliers (12.35%)"
           ++ div_class "stat-description"
                (tag "strong" "" "Sample values:" ++ " 97, 99, 120")))
  /\ Script11.outlier_item "age" data
     = Ok (Element "div" "" "insight-item border-warning text-warning bg-warning-light"
             [Markup (div_class "insight-title" "Outliers in age"
                      ++ div_class "insight-description"
                           "Found 3 outliers (12.35%): 97, 99, 120")])
  /\ Part000.outlier_item "age" data
     = Ok (Element "div" "" "insight-item border-warning text-warning bg-warning-light"
             [Markup (div_class "insight-title" "Outliers in age"
                      ++ div_class "insight-description"
                           "Found 3 outliers (12.35%)")]).
Proof. cbv zeta. repeat split; vm_compute; reflexivity. Qed.

(** Script (11).js writes every value of a column, not the first five. *)
Lemma script11_shows_every_value :
  Script11.outlier_item "age"
    (JObj [("count", num 6); ("percentage", JNum (of_Z 60));
           ("outlier_values", JArr [num 1; num 2; num 3; num 4; num 5; num 6])])
  = Ok (Element "div" "" "insight-item border-warning text-warning bg-warning-light"
          [Markup (div_class "insight-title" "Outliers in age"
                   ++ div_class "insight-description"
                        "Found 6 outliers (60.00%): 1, 2, 3, 4, 5, 6")])
  /\ ~ first_five_only Script11.outlier_item.
Proof.
  split; [vm_compute; reflexivity|].
  intros F.
  specialize (F "age" (num 6) (JNum (of_Z 60)) [num 1; num 2; num 3; num 4; num 5; num 6]).
  vm_compute in F. discriminate F.
Qed.



(** 12.345 percent is above 5: a warning; 5 percent is not. *)
Example severity_examples :
  AppJs.severity (JNum (of_decimal false 12345 (-3))) = "warning"
  /\ AppJs.severity (JNum (of_Z 5)) = "info"
  /\ AppJs.severity (JNum (of_decimal false 50000000001 (-10))) = "warning".
Proof. vm_compute. repeat split. Qed.

End OutlierFacts.

(** ** The data-quality renderer *)

Module QualityFacts.
Import Str Num Js Page Spec.
Import DomFacts.

Lemma total_numbers (cs : list number) (acc : number) :
  fold_left plus (map JNum cs) (JNum acc) = JNum (fold_left add cs acc).
Proof.
  revert acc. induction cs as [|c cs IH]; intros acc; [reflexivity|].
  simpl. unfold plus at 2. cbn [orb ToNumber]. apply IH.
Qed.

Lemma total_of_map (m : list (string * number)) :
  AppJs.total (map snd (map (fun p => (fst p, JNum (snd p))) m))
  = JNum (total_missing m).
Proof.
  unfold AppJs.total, total_missing, num. rewrite map_map. cbn [snd].
  rewrite <- (map_map snd JNum). apply total_numbers.
Qed.

Lemma listing_of_map (m : list (string * number)) :
  Str.join ", "
    (map (fun p : string * jsval => fst p ++ " (" ++ ToString (snd p) ++ ")")
       (filter (fun p : string * jsval => gt_number (snd p) zero)
          (map (fun p : string * number => (fst p, JNum (snd p))) m)))
  = missing_listing m.
Proof.
  unfold missing_listing. f_equal.
  induction m as [|[k x] m IH]; [reflexivity|].
  cbn [map filter fst snd]. unfold gt_number at 1. cbn [ToNumber].
  destruct (ltb zero x); cbn [map fst snd ToString]; now rewrite IH.
Qed.

(** C8: the percentage that [displayDataQuality] shows is the sum of the
    counts of the missing-values map, divided by the number of its columns
    times the row count, times 100, written with two decimals: the first
    card reads [<total> missing (<percentage>%)]. *)
Theorem missing_percentage_shown (q shape dup : jsval)
    (m : list (string * number)) (rows : number) (empty const : list jsval)
    (old : list node) (w : world AppJs.vars) :
  get q "missing_values" = Ok (missing_map m) ->
  get q "shape" = Ok shape ->
  get shape "0" = Ok (JNum rows) ->
  get q "duplicates" = Ok dup ->
  get q "empty_columns" = Ok (JArr empty) ->
  get q "constant_columns" = Ok (JArr const) ->
  children "quality-metrics" (dom w) = Some old ->
  exists d others,
    AppJs.displayDataQuality q w = (Ok tt, with_dom w d)
    /\ children "quality-metrics" d = Some (missing_card m rows :: others).
Proof.
  intros Hm Hs Hr Hd He Hc H.
  destruct (set_content_run "quality-metrics" [] old w H) as (d1 & E1 & C1).
  unfold AppJs.displayDataQuality.
  unfold bind at 1. rewrite E1.
  unfold bind at 1. rewrite Hm. cbn [lift].
  unfold bind at 1. unfold missing_map at 1. cbn [values entries lift].
  rewrite total_of_map.
  unfold bind at 1. unfold missing_map at 1. cbn [keys entries lift].
  unfold bind at 1. rewrite Hs. cbn [lift].
  unfold bind at 1. rewrite Hr. cbn [lift].
  rewrite !length_map.
  unfold times, divide, num. cbn [ToNumber].
  fold (total_missing m). fold (missing_percentage m rows).
  unfold bind at 1. cbn [call_toFixed lift].
  unfold bind at 1. unfold missing_map at 1. cbn [entries lift].
  cbn [ToString].
  rewrite listing_of_map.
  change (AppJs.card
            (AppJs.missing_html (toString (total_missing m))
               (toFixed 2 (missing_percentage m rows)) (missing_listing m)))
    with (missing_card m rows).
  set (c1 := missing_card m rows).
  destruct (add_content_run "quality-metrics" [c1] [] (with_dom w d1) C1)
    as (d2 & E2 & C2).
  unfold bind at 1. rewrite E2.
  unfold bind at 1. rewrite Hd. cbn [lift].
  match goal with
  | |- context [bind (add_content _ [?c]) _] => set (c2 := c)
  end.
  destruct (add_content_run "quality-metrics" [c2] _
              (with_dom (with_dom w d1) d2) C2)
    as (d3 & E3 & C3).
  unfold bind at 1. rewrite E3.
  unfold bind at 1. rewrite He. cbn [lift].
  change (get (JArr empty) "length") with (Ok (num (Z.of_nat (List.length empty)))).
  unfold bind at 1. cbn [lift].
  unfold bind at 1. rewrite Hc. cbn [lift].
  change (get (JArr const) "length") with (Ok (num (Z.of_nat (List.length const)))).
  cbn [call_join].
  assert (A : forall c,
            exists d,
              add_content "quality-metrics" [c]
                (with_dom (with_dom (with_dom w d1) d2) d3)
              = (Ok tt, with_dom w d)
              /\ children "quality-metrics" d = Some (c1 :: [c2; c])).
  { intros c.
    destruct (add_content_run "quality-metrics" [c] _
                (with_dom (with_dom (with_dom w d1) d2) d3) C3)
      as (d4 & E4 & C4).
    exists d4. split; [exact E4 | exact C4]. }
  cbv beta iota delta [bind ret lift].
  destruct (gt_number (num (Z.of_nat (List.length empty))) zero);
    destruct (gt_number (num (Z.of_nat (List.length const))) zero);
    cbv beta iota;
    try (match goal with
         | |- context [add_content _ [?c] _] =>
             destruct (A c) as (d4 & E4 & C4); rewrite E4;
             exists d4, [c2; c]; split; [reflexivity | exact C4]
         end).
  exists d3, [c2]. split; [reflexivity | exact C3].
Qed.

Lemma missing_percentage_shown_witness :
  let m := [("age", of_Z 2); ("city", of_Z 1)] in
  let q := JObj [("missing_values", JObj [("age", num 2); ("city", num 1)]);
                 ("shape", JArr [num 10; num 2]);
                 ("duplicates", num 0);
                 ("empty_columns", JArr []);
                 ("constant_columns", JArr [])] in
  exists d others,
    AppJs.displayDataQuality q (page AppJs.initial app_dom)
    = (Ok tt, with_dom (page AppJs.initial app_dom) d)
    /\ children "quality-metrics" d = Some (missing_card m (of_Z 10) :: others).
Proof.
  cbv zeta.
  apply (missing_percentage_shown
           (JObj [("missing_values", JObj [("age", num 2); ("city", num 1)]);
                  ("shape", JArr [num 10; num 2]);
                  ("duplicates", num 0);
                  ("empty_columns", JArr []);
                  ("constant_columns", JArr [])])
           (JArr [num 10; num 2]) (num 0)
           [("age", of_Z 2); ("city", of_Z 1)] (of_Z 10) [] [] []
           (page AppJs.initial app_dom)); reflexivity.
Defined.

(** Three missing cells among two columns of ten rows: 15 percent. *)
Example missing_15_percent :
  let q := JObj [("missing_values", JObj [("age", num 2); ("city", num 1)]);
                 ("shape", JArr [num 10; num 2]);
                 ("duplicates", num 0);
                 ("empty_columns", JArr []);
                 ("constant_columns", JArr [])] in
  option_map (firstn 1)
    (children "quality-metrics"
       (dom (snd (AppJs.displayDataQuality q (page AppJs.initial app_dom)))))
  = Some [Element "div" "" "stat-card"
            [Markup (tag "h4" "" "Missing Values"
                     ++ div_class "stat-value" "3 missing (15.00%)"
                     ++ div_class "stat-description"
                          (tag "strong" "" "Columns with missing values:"
                           ++ " age (2), city (1)"))]]
  /\ missing_card [("age", of_Z 2); ("city", of_Z 1)] (of_Z 10)
     = Element "div" "" "stat-card"
         [Markup (tag "h4" "" "Missing Values"
                  ++ div_class "stat-value" "3 missing (15.00%)"
                  ++ div_class "stat-description"
                       (tag "strong" "" "Columns with missing values:"
                        ++ " age (2), city (1)"))].
Proof. split; vm_compute; reflexivity. Qed.

End QualityFacts.

(** ** The scatter renderers *)

Module ScatterFacts.
Import Str Num Js Page Spec Logic.










(** The placeholder of app.js takes the place of the canvas. *)
Example empty_points_app :
  children "scatter-box"
    (dom (snd (AppJs.displayScatterPlot
                 (JObj [("data", JArr []); ("x_column", JStr "a");
                        ("y_column", JStr "b")])
                 app_loaded)))
  = Some [no_data "Need at least two numeric columns for scatter plot"].
Proof. vm_compute. reflexivity. Qed.

End ScatterFacts.

(** ** One chart for each slot *)

Module ChartFacts.
Import Str Num Js Page Spec Logic.

(** *** Logs *)

Lemma never_two_cons (c : string) (e : event) (l : list event) :
  (List.length (live c (e :: l)) <= 1)%nat -> never_two c l -> never_two c (e :: l).
Proof.
  intros L N since before E. destruct since as [|x since].
  - simpl in E. subst before. exact L.
  - simpl in E. inversion E; subst. now apply (N since before).
Qed.

Lemma never_two_now (c : string) (l : list event) :
  never_two c l -> (List.length (live c l) <= 1)%nat.
Proof. intros N. now apply (N [] l). Qed.

Lemma filter_length_le {A} (p : A -> bool) (l : list A) :
  (List.length (filter p l) <= List.length l)%nat.
Proof.
  induction l as [|x l IH]; simpl; [lia|]. destruct (p x); simpl; lia.
Qed.

Lemma live_aside (c : string) (e : event) (l : list event) :
  aside c e = true -> live c (e :: l) = live c l.
Proof.
  destruct e; simpl; try reflexivity; try discriminate.
  destruct (String.eqb canvas c); [discriminate|reflexivity].
Qed.

Lemma tidy_aside (c : string) (s : option nat) (e : event) (l : list event) :
  aside c e = true -> tidy c s l -> tidy c s (e :: l).
Proof.
  intros A [H N]. split.
  - unfold holds. now rewrite (live_aside c e l A).
  - apply never_two_cons; [|exact N].
    rewrite (live_aside c e l A). now apply never_two_now.
Qed.

Lemma quiet_aside (c : string) (e : event) (l : list event) :
  aside c e = true -> quiet c l -> quiet c (e :: l).
Proof.
  intros A [H N]. split.
  - now rewrite (live_aside c e l A).
  - apply never_two_cons; [|exact N].
    rewrite (live_aside c e l A). now apply never_two_now.
Qed.

Lemma exactly_one_aside (c : string) (s : option nat) (e : event) (l : list event) :
  aside c e = true -> exactly_one c s l -> exactly_one c s (e :: l).
Proof.
  intros A (h & L & S). exists h. now rewrite (live_aside c e l A).
Qed.

Lemma tidy_destroy (c : string) (s : option nat) (h : nat) (l : list event) :
  tidy c s l -> tidy c s (ChartDestroyed h :: l).
Proof.
  intros [H N]. split.
  - unfold holds. simpl. destruct H as [E|(h0 & E & S)]; rewrite E; simpl.
    + now left.
    + destruct (Nat.eqb h h0); simpl; [now left|right; now exists h0].
  - apply never_two_cons; [|exact N]. simpl.
    pose proof (filter_length_le (fun h' => negb (Nat.eqb h h')) (live c l)).
    pose proof (never_two_now c l N). lia.
Qed.

Lemma quiet_destroy_any (c : string) (h : nat) (l : list event) :
  quiet c l -> quiet c (ChartDestroyed h :: l).
Proof.
  intros [E N]. split.
  - simpl. now rewrite E.
  - apply never_two_cons; [|exact N]. simpl. rewrite E. simpl. lia.
Qed.

Lemma quiet_destroy (c : string) (h : nat) (l : list event) :
  tidy c (Some h) l -> quiet c (ChartDestroyed h :: l).
Proof.
  intros [H N]. split.
  - simpl. destruct H as [E|(h0 & E & S)]; rewrite E; simpl; [reflexivity|].
    inversion S; subst. now rewrite Nat.eqb_refl.
  - apply never_two_cons; [|exact N]. simpl.
    pose proof (filter_length_le (fun h' => negb (Nat.eqb h h')) (live c l)).
    pose proof (never_two_now c l N). lia.
Qed.

Lemma quiet_none (c : string) (l : list event) : tidy c None l -> quiet c l.
Proof.
  intros [[E|(h & E & S)] N]; [now split|discriminate].
Qed.

Lemma tidy_quiet (c : string) (s : option nat) (l : list event) :
  quiet c l -> tidy c s l.
Proof. intros [E N]. split; [now left|exact N]. Qed.

Lemma live_create (c : string) (n : nat) (k : string) (lb d : jsval) (l : list event) :
  live c (ChartCreated n c k lb d :: l) = n :: live c l.
Proof. simpl. now rewrite String.eqb_refl. Qed.

Lemma exactly_one_create (c : string) (n : nat) (k : string) (lb d : jsval)
    (l : list event) :
  quiet c l -> exactly_one c (Some n) (ChartCreated n c k lb d :: l).
Proof.
  intros [E N]. exists n. rewrite live_create, E. now split.
Qed.

Lemma tidy_create (c : string) (n : nat) (k : string) (lb d : jsval) (l : list event) :
  quiet c l -> tidy c (Some n) (ChartCreated n c k lb d :: l).
Proof.
  intros [E N]. split.
  - right. exists n. rewrite live_create, E. now split.
  - apply never_two_cons; [|exact N]. rewrite live_create, E. simpl. lia.
Qed.

Lemma tidy_exactly_one (c : string) (s : option nat) (l : list event) :
  exactly_one c s l -> never_two c l -> tidy c s l.
Proof. intros (h & E & S) N. split; [right; now exists h|exact N]. Qed.

(** *** Running a script *)

Section Wp.

Context {G : Type}.

Lemma wpx_run {A} (m : M (G:=G) A) (P : world G -> Prop) (w : world G) :
  wpx m (fun _ w' => P w') (fun _ w' => P w') w -> P (snd (m w)).
Proof. unfold wpx. now destruct (m w) as [[a|e] w']. Qed.

Lemma wpx_bind {A B} (m : M (G:=G) A) (k : A -> M B) Q E w :
  wpx m (fun a w' => wpx (k a) Q E w') E w -> wpx (bind m k) Q E w.
Proof. unfold wpx, bind. now destruct (m w) as [[a|e] w']. Qed.

Lemma wpx_try_catch {A} (m : M (G:=G) A) (h : exn -> M A) Q E w :
  wpx m Q (fun e w' => wpx (h e) Q E w') w -> wpx (try_catch m h) Q E w.
Proof. unfold wpx, try_catch. now destruct (m w) as [[a|e] w']. Qed.

Lemma wpx_ret {A} (a : A) Q E (w : world G) : Q a w -> wpx (ret a) Q E w.
Proof. exact (fun H => H). Qed.

Lemma wpx_throw {A} (e : exn) (Q : A -> world G -> Prop) E (w : world G) :
  E e w -> wpx (throw e) Q E w.
Proof. exact (fun H => H). Qed.

Lemma wpx_lift {A} (r : res A) Q E (w : world G) :
  match r with Ok a => Q a w | Throw e => E e w end -> wpx (lift r) Q E w.
Proof. unfold wpx, lift. now destruct r. Qed.

Lemma wpx_read Q E (w : world G) : Q (globals w) w -> wpx read Q E w.
Proof. exact (fun H => H). Qed.

Lemma wpx_write (g : G) Q E (w : world G) :
  Q tt (mkWorld g (dom w) (log w) (next_id w) (timers w)) -> wpx (write g) Q E w.
Proof. exact (fun H => H). Qed.

Lemma wpx_emit (e : event) Q E (w : world G) :
  Q tt (mkWorld (globals w) (dom w) (e :: log w) (next_id w) (timers w)) ->
  wpx (emit e) Q E w.
Proof. exact (fun H => H). Qed.

Lemma wpx_fresh Q E (w : world G) :
  Q (next_id w) (mkWorld (globals w) (dom w) (log w) (S (next_id w)) (timers w)) ->
  wpx fresh Q E w.
Proof. exact (fun H => H). Qed.

(** A script that keeps the variables and the log: only what comes after
    it matters. *)
Lemma wpx_frame {A} (m : M (G:=G) A) Q E (w : world G) :
  keeps (fun w => (globals w, log w)) m ->
  (forall a w', globals w' = globals w -> log w' = log w -> Q a w') ->
  (forall e w', globals w' = globals w -> log w' = log w -> E e w') ->
  wpx m Q E w.
Proof.
  intros K HQ HE. unfold wpx. specialize (K w).
  destruct (m w) as [[a|e] w']; simpl in K; inversion K; auto.
Qed.

End Wp.

Ltac wpx_step :=
  match goal with
  | |- wpx (bind _ _) _ _ _ => apply wpx_bind
  | |- wpx (ret _) _ _ _ => apply wpx_ret
  | |- wpx (throw _) _ _ _ => apply wpx_throw
  | |- wpx (lift ?r) _ _ _ => apply wpx_lift; destruct r
  | |- wpx read _ _ _ => apply wpx_read
  | |- wpx (write _) _ _ _ => apply wpx_write
  | |- wpx (emit _) _ _ _ => apply wpx_emit
  | |- wpx fresh _ _ _ => apply wpx_fresh
  | |- wpx (try_catch _ _) _ _ _ => apply wpx_try_catch
  | |- wpx (if ?b then _ else _) _ _ _ => destruct b eqn:?
  | |- wpx (match ?x with _ => _ end) _ _ _ => destruct x eqn:?
  | |- wpx (let _ := _ in _) _ _ _ => cbv zeta
  | |- wpx ?m _ _ _ =>
      first [ apply wpx_frame; [solve [keeps_all] | intros ? ? ? ? | intros ? ? ? ?]
            | let h := head_of m in progress unfold h ]
  | |- _ => progress cbv beta iota
  end.

Ltac wpx_all := repeat wpx_step.

(** *** The leaves: what a run left in the log and in the variables *)

Ltac worlds :=
  repeat match goal with w : world _ |- _ => destruct w end;
  cbn [globals log dom next_id timers] in *; subst.

Ltac known T :=
  repeat match goal with
         | H : ?x = _ |- _ =>
             match type of T with context [x] => rewrite H in T end
         | H : ?x = _ |- context [?x] => rewrite H
         end.

Ltac quiet_leaf T :=
  repeat first [ apply quiet_aside; [reflexivity|]
               | apply quiet_destroy; exact T
               | apply quiet_none; exact T ].

Ltac tidy_leaf T :=
  repeat first [ exact T
               | apply tidy_aside; [reflexivity|]
               | apply tidy_create; quiet_leaf T
               | apply tidy_destroy ].

Ltac one_leaf T :=
  repeat first [ apply exactly_one_aside; [reflexivity|]
               | apply exactly_one_create; quiet_leaf T ].

Ltac slot_leaf T :=
  unfold rendered, tidy_at, exactly_one_at in *;
  cbn [slot_canvas slot_var] in *;
  worlds; try congruence; known T;
  cbn [AppJs.currentHistogramChart AppJs.currentScatterChart
       Shared.chart1 Shared.chart2 Shared.chart3];
  split;
  [ tidy_leaf T
  | let X := fresh "X" in
    intros X; first [ exfalso; apply X; reflexivity | clear X; one_leaf T ] ].

Ltac slot_proof :=
  let T := fresh "T" in
  intros T; apply (wpx_run _ (rendered _ _)); wpx_all; slot_leaf T.

(** *** Each renderer, each slot *)

Lemma app_rendered (m : M (G:=AppJs.vars) unit) (s : slot AppJs.vars)
    (w : world AppJs.vars) :
  app_render m -> app_slot s -> tidy_at s w -> rendered s w (snd (m w)).
Proof. intros [] []; slot_proof. Qed.

Lemma script11_rendered (m : M (G:=Shared.vars) unit) (s : slot Shared.vars)
    (w : world Shared.vars) :
  script11_render m -> shared_slot s -> tidy_at s w -> rendered s w (snd (m w)).
Proof. intros [] []; slot_proof. Qed.

Lemma part000_rendered (m : M (G:=Shared.vars) unit) (s : slot Shared.vars)
    (w : world Shared.vars) :
  part000_render m -> shared_slot s -> tidy_at s w -> rendered s w (snd (m w)).
Proof. intros [] []; slot_proof. Qed.

(** *** Sequences of calls *)

Lemma after_in_order {G} (s : slot G) (render : M (G:=G) unit -> Prop) :
  (forall m w, render m -> tidy_at s w -> rendered s w (snd (m w))) ->
  forall calls w, Forall render calls -> tidy_at s w -> in_order s render calls w.
Proof.
  intros R calls w F T.
  assert (A : tidy_at s (after calls w)).
  { revert w T. induction F as [|m calls Rm F IH]; intros w T; [exact T|].
    simpl. apply IH. exact (proj1 (R m w Rm T)). }
  split; [exact A|].
  intros m Rm C. exact (proj2 (R m _ Rm A) C).
Qed.

Lemma tidy_start {G} (s : slot G) (g : G) (d : list node) :
  slot_var s g = None -> tidy_at s (page g d).
Proof.
  intros N. unfold tidy_at, tidy, page. cbn [globals log]. split.
  - now left.
  - intros since before E. destruct since; [|discriminate].
    simpl in E. subst before. simpl. lia.
Qed.

(** C2 (as amended): in each variant, after any sequence of calls of the
    renderers that destroy first, on any slot, started on a page where the
    slot is in order, at no moment were two charts alive on the slot, the
    variable of the slot holds the chart that is alive if one is (so a
    call that constructs none leaves one chart at most), and a call that
    constructs a chart leaves exactly one. *)
Theorem one_chart_per_slot (sa : slot AppJs.vars) (ss : slot Shared.vars)
    (ca : list (M (G:=AppJs.vars) unit)) (c11 c000 : list (M (G:=Shared.vars) unit))
    (wa : world AppJs.vars) (w11 w000 : world Shared.vars) :
  app_slot sa -> shared_slot ss ->
  Forall app_render ca -> Forall script11_render c11 -> Forall part000_render c000 ->
  tidy_at sa wa -> tidy_at ss w11 -> tidy_at ss w000 ->
  in_order sa app_render ca wa
  /\ in_order ss script11_render c11 w11
  /\ in_order ss part000_render c000 w000.
Proof.
  intros Sa Ss Fa F11 F000 Ta T11 T000. split; [|split].
  - apply after_in_order; auto. intros m w R T. now apply app_rendered.
  - apply after_in_order; auto. intros m w R T. now apply script11_rendered.
  - apply after_in_order; auto. intros m w R T. now apply part000_rendered.
Qed.

Lemma one_chart_per_slot_witness :
  in_order (mkSlot "histogram-chart" AppJs.currentHistogramChart) app_render
    [AppJs.displayHistogram histogram_payload;
     AppJs.histogram_column_changed histogram_payload "age"]
    app_loaded
  /\ in_order (mkSlot "chart3" Shared.chart3) script11_render
       [Script11.createSampleHistogram histogram_payload;
        Script11.createScatterPlot scatter_payload]
       (page Shared.initial charts_dom)
  /\ in_order (mkSlot "chart3" Shared.chart3) part000_render
       [Part000.createSampleHistogram histogram_payload;
        Part000.createScatterPlot scatter_payload]
       (page Shared.initial charts_dom).
Proof.
  apply (one_chart_per_slot
           (mkSlot "histogram-chart" AppJs.currentHistogramChart)
           (mkSlot "chart3" Shared.chart3)
           [AppJs.displayHistogram histogram_payload;
            AppJs.histogram_column_changed histogram_payload "age"]
           [Script11.createSampleHistogram histogram_payload;
            Script11.createScatterPlot scatter_payload]
           [Part000.createSampleHistogram histogram_payload;
            Part000.createScatterPlot scatter_payload]
           app_loaded (page Shared.initial charts_dom)
           (page Shared.initial charts_dom)).
  - constructor.
  - constructor.
  - repeat constructor.
  - repeat constructor.
  - repeat constructor.
  - apply tidy_start. reflexivity.
  - apply tidy_start. reflexivity.
  - apply tidy_start. reflexivity.
Defined.

(** The second chart of a slot takes the place of the first. *)
Example second_chart_replaces_first :
  let w := after [Part000.createSampleHistogram histogram_payload;
                  Part000.createScatterPlot scatter_payload]
             (page Shared.initial charts_dom) in
  live "chart3" (log w) = [1%nat] /\ Shared.chart3 (globals w) = Some 1%nat.
Proof. vm_compute. split; reflexivity. Qed.

(** Two sequences of renders after which no chart is alive on the slot,
    though one was constructed: the second render destroys the chart of
    the first and rejects its payload. *)
Lemma no_chart_after_rejected_payload :
  (let w := after [Script11.createScatterPlot scatter_payload;
                   Script11.createScatterPlot (JObj [])]
              (page Shared.initial charts_dom) in
   created_on "chart3" (log w) <> [] /\ live "chart3" (log w) = [])
  /\ (let w := after [AppJs.displayHistogram histogram_payload;
                      AppJs.displayHistogram (JObj [])]
                 app_loaded in
      created_on "histogram-chart" (log w) <> []
      /\ live "histogram-chart" (log w) = []).
Proof. vm_compute. repeat split; discriminate. Qed.

(** [createCategoricalChart] of the third variant constructs without
    destroying: two calls leave two charts alive on [chart3]. *)
Example categorical_charts_overlap :
  let w := after [Part000.createCategoricalChart categorical_payload;
                  Part000.createCategoricalChart categorical_payload]
             (page Shared.initial charts_dom) in
  live "chart3" (log w) = [1%nat; 0%nat] /\ Shared.chart3 (globals w) = Some 1%nat.
Proof. vm_compute. split; reflexivity. Qed.

End ChartFacts.

(** ** Uploads, analyses and filters of script (11).js and of the third
    variant *)

Module FlowFacts.
Import Str Num Js Page Shared Spec Logic ChartFacts.
Local Open Scope js_scope.

Section Finally.

Context {G : Type}.

Lemma wpx_finally {A} (m : M (G:=G) A) (k : M (G:=G) unit) Q E w :
  wpx m (fun a w' => wpx k (fun _ w'' => Q a w'') E w')
        (fun e w' => wpx k (fun _ w'' => E e w'') E w') w ->
  wpx (finally m k) Q E w.
Proof.
  unfold wpx, finally. destruct (m w) as [[a|e] w'];
    destruct (k w') as [[u|e'] w'']; auto.
Qed.

(** The page that [finally] leaves is a page that its second script
    leaves. *)
Lemma finally_leaves {A} (m : M (G:=G) A) (k : M (G:=G) unit) (w : world G) :
  snd (finally m k w) = snd (k (snd (m w))).
Proof.
  unfold finally. destruct (m w) as [r w']. simpl.
  now destruct (k w') as [[u|e] w''].
Qed.

Lemma bind_leaves {A B} (m : M (G:=G) A) (k : A -> M (G:=G) B)
    (P : world G -> Prop) (w : world G) :
  P (snd (m w)) -> (forall a w', P (snd (k a w'))) -> P (snd (bind m k w)).
Proof.
  intros Hm Hk. unfold bind. destruct (m w) as [[a|e] w']; [apply Hk|exact Hm].
Qed.

End Finally.

Lemma never_shown_closed (l : list event) :
  existsb (fun e => match e with ModalShown => true | _ => false end) l = false ->
  modal_open l = false.
Proof.
  induction l as [|e l IH]; [reflexivity|].
  simpl. destruct e; simpl; try exact IH; try discriminate. reflexivity.
Qed.

Lemma hideLoading_closes (w : world vars) :
  modal_open (log (snd (hideLoading w))) = false.
Proof.
  unfold hideLoading, bind, get_log.
  destruct (existsb _ (log w)) eqn:S; [reflexivity|].
  now apply never_shown_closed.
Qed.

(** However an upload, an analysis or a filter ends (the answer of the
    server, a network failure, a body that is no JSON, a renderer that
    throws), the loading modal is not left open. *)
Theorem modal_closed_after_every_flow (t : nat) (operation : string)
    (o : fetch_outcome) (w : world vars) :
  modal_open (log (snd (Script11.processFiles_settle t o w))) = false
  /\ modal_open (log (snd (Script11.performAnalysis_settle operation o w))) = false
  /\ modal_open (log (snd (Script11.applyFilter_settle o w))) = false
  /\ modal_open (log (snd (Part000.processFiles_settle t o w))) = false
  /\ modal_open (log (snd (Part000.performAnalysis_settle operation o w))) = false
  /\ modal_open (log (snd (Script11.processFiles_timeout t w))) = false.
Proof.
  unfold Script11.processFiles_settle, Script11.performAnalysis_settle,
    Script11.applyFilter_settle, Part000.processFiles_settle,
    Part000.performAnalysis_settle.
  rewrite !finally_leaves. repeat split; apply hideLoading_closes.
Qed.

Lemma after_last_dot_acc (b acc : list ascii) :
  ~ In "."%char b -> after_last_dot b acc = (acc ++ b)%list.
Proof.
  revert acc. induction b as [|c b IH]; intros acc N; simpl.
  - now rewrite app_nil_r.
  - destruct (Ascii.eqb_spec c ".") as [->|_].
    + exfalso. apply N. now left.
    + rewrite IH by (intros I; apply N; now right).
      now rewrite <- app_assoc.
Qed.

Lemma after_last_dot_app (a b acc : list ascii) :
  ~ In "."%char b -> after_last_dot (a ++ "."%char :: b) acc = b.
Proof.
  intros N. revert acc. induction a as [|c a IH]; intros acc; simpl.
  - now rewrite after_last_dot_acc.
  - destruct (Ascii.eqb c "."); apply IH.
Qed.

Lemma of_chars_chars (s : string) : of_chars (chars s) = s.
Proof. apply string_of_list_ascii_of_string. Qed.

(** [name.split(".").pop().toLowerCase()] of [base.ext]: the letters
    of [ext] in lower case. *)
Lemma extension_of (base ext : string) :
  dotless ext -> extension (base ++ "." ++ ext) = toLowerCase ext.
Proof.
  intros N. unfold extension. rewrite !StrFacts.chars_app.
  change (chars ".") with ["."%char]. simpl app.
  rewrite (after_last_dot_app (chars base) (chars ext) [] N).
  now rewrite of_chars_chars.
Qed.

(** A name without a dot is its own extension. *)
Lemma extension_dotless (name : string) :
  dotless name -> extension name = toLowerCase name.
Proof.
  intros N. unfold extension. rewrite (after_last_dot_acc _ [] N). simpl.
  now rewrite of_chars_chars.
Qed.

(** Of the files handed to [processFiles] only the first is looked at.
    With the name [base.ext], [ext] without a dot, the upload request is
    sent exactly when [ext], whatever its case, is one of the supported
    extensions; otherwise the user is told and nothing is sent. *)
Theorem upload_request_by_extension (base ext : string) (rest : list string)
    (w : world vars) :
  dotless ext ->
  let name := (base ++ "." ++ ext)%string in
  let r11 := Script11.processFiles (name :: rest) w in
  let r000 := Part000.processFiles (name :: rest) w in
  (if includes ["csv"; "xlsx"] (toLowerCase ext)
   then fst r11 = Ok (Some (next_id w))
        /\ requests (log (snd r11))
           = FetchSent "/upload" (FormFile name) :: requests (log w)
        /\ alerts (log (snd r11)) = alerts (log w)
   else fst r11 = Ok None
        /\ requests (log (snd r11)) = requests (log w)
        /\ alerts (log (snd r11))
           = "Unsupported file format. Please use CSV or Excel (.xlsx)."
             :: alerts (log w))
  /\ (if includes ["csv"; "json"; "xlsx"] (toLowerCase ext)
      then fst r000 = Ok (Some (next_id w))
           /\ requests (log (snd r000))
              = FetchSent "http://localhost:5000/upload" (FormFile name)
                :: requests (log w)
           /\ alerts (log (snd r000)) = alerts (log w)
      else fst r000 = Ok None
           /\ requests (log (snd r000)) = requests (log w)
           /\ alerts (log (snd r000))
              = "Unsupported file format. Please use CSV, JSON, or Excel (.xlsx)."
                :: alerts (log w)).
Proof.
  intros N name r11 r000. subst r11 r000.
  unfold Script11.processFiles, Part000.processFiles.
  unfold name. rewrite (extension_of base ext N). fold name.
  split.
  - destruct (includes ["csv"; "xlsx"] (toLowerCase ext)); cbn [negb].
    + unfold Script11.showLoading, exists_id, bind, get_dom, ret.
      destruct (find_in (has_id "loadingModal") (dom w)); repeat split.
    + repeat split.
  - destruct (includes ["csv"; "json"; "xlsx"] (toLowerCase ext)); cbn [negb];
      repeat split.
Qed.

Lemma upload_request_by_extension_witness :
  let w := page initial shared_dom in
  let r11 := Script11.processFiles ["report.final.CSV"; "other.txt"] w in
  let r000 := Part000.processFiles ["report.final.CSV"; "other.txt"] w in
  (if includes ["csv"; "xlsx"] (toLowerCase "CSV")
   then fst r11 = Ok (Some (next_id w))
        /\ requests (log (snd r11))
           = FetchSent "/upload" (FormFile "report.final.CSV") :: requests (log w)
        /\ alerts (log (snd r11)) = alerts (log w)
   else fst r11 = Ok None
        /\ requests (log (snd r11)) = requests (log w)
        /\ alerts (log (snd r11))
           = "Unsupported file format. Please use CSV or Excel (.xlsx)."
             :: alerts (log w))
  /\ (if includes ["csv"; "json"; "xlsx"] (toLowerCase "CSV")
      then fst r000 = Ok (Some (next_id w))
           /\ requests (log (snd r000))
              = FetchSent "http://localhost:5000/upload" (FormFile "report.final.CSV")
                :: requests (log w)
           /\ alerts (log (snd r000)) = alerts (log w)
      else fst r000 = Ok None
           /\ requests (log (snd r000)) = requests (log w)
           /\ alerts (log (snd r000))
              = "Unsupported file format. Please use CSV, JSON, or Excel (.xlsx)."
                :: alerts (log w)).
Proof.
  apply (upload_request_by_extension "report.final" "CSV" ["other.txt"]
           (page initial shared_dom)).
  unfold dotless. simpl. intros [H|[H|[H|[]]]]; discriminate H.
Defined.

End FlowFacts.

(** ** The upload of app.js *)

Module UploadFacts.
Import Str Num Js Page Spec Logic ChartFacts FlowFacts.
Local Open Scope js_scope.

Ltac run_step :=
  match goal with
  | |- wpx (finally _ _) _ _ _ => apply wpx_finally
  | |- wpx (lift ?r) _ _ _ => apply wpx_lift; destruct r eqn:?
  | |- _ => wpx_step
  end.

Ltac run_all := repeat run_step.

Ltac pages :=
  repeat match goal with w : world _ |- _ => destruct w end;
  cbn [globals log dom next_id timers] in *; subst.

(** An upload that fails (no connection, a status other than 200, a body
    without a truthy [success]) and whose handler returns: the button is
    enabled again, the progress bar is hidden, the variables are as they
    were and nothing was requested.  A handler that throws leaves the
    progress bar as it was. *)
Theorem upload_failure_resets_controls (o : AppJs.xhr_outcome)
    (w : world AppJs.vars) :
  xhr_failed o = true ->
  match AppJs.uploadFile_settle o w with
  | (Ok _, w') =>
      disabled_now "upload-btn" (log w') = Some false
      /\ style_now "upload-progress" "display" (log w') = Some "none"
      /\ globals w' = globals w
      /\ requests (log w') = requests (log w)
  | (Throw _, w') =>
      style_now "upload-progress" "display" (log w')
      = style_now "upload-progress" "display" (log w)
      /\ globals w' = globals w
      /\ requests (log w') = requests (log w)
  end
  /\ forall e, AppJs.uploadFile_settle (AppJs.XhrLoaded 200 (BodyInvalid e)) w
               = (Throw e, w).
Proof.
  intros F. split; [|reflexivity].
  change (wpx (AppJs.uploadFile_settle o)
            (fun _ w' =>
               disabled_now "upload-btn" (log w') = Some false
               /\ style_now "upload-progress" "display" (log w') = Some "none"
               /\ globals w' = globals w
               /\ requests (log w') = requests (log w))
            (fun _ w' =>
               style_now "upload-progress" "display" (log w')
               = style_now "upload-progress" "display" (log w)
               /\ globals w' = globals w
               /\ requests (log w') = requests (log w)) w).
  destruct o as [|status body]; unfold AppJs.uploadFile_settle.
  - unfold AppJs.uploadFile_onerror. run_all; pages; repeat split.
  - unfold AppJs.uploadFile_onload. cbn [xhr_failed] in F.
    destruct body as [data|e]; run_all; pages; try (repeat split; fail).
    all: unfold get_opt in F;
      repeat match goal with
             | H : (_ =? _)%Z = _ |- _ => rewrite H in F
             | H : get _ _ = _ |- _ => rewrite H in F
             | H : truthy _ = _ |- _ => rewrite H in F
             end; try discriminate F.
Qed.

Example upload_success_on_a_ready_page :
  let data := JObj [("success", JBool true); ("filename", JStr "f1.csv");
                    ("available_columns", JArr [JStr "a"; JStr "b"])] in
  let r := AppJs.uploadFile_onload 200 (BodyJson data) app_ready in
  fst r = Ok tt
  /\ children "column-select" (dom (snd r))
     = Some [AppJs.option_node (JStr "a"); AppJs.option_node (JStr "b")].
Proof. vm_compute. split; reflexivity. Qed.

Lemma upload_failure_resets_controls_witness :
  let o := AppJs.XhrLoaded 500 (BodyJson (JObj [("error", JStr "Server error")])) in
  match AppJs.uploadFile_settle o app_loaded with
  | (Ok _, w') =>
      disabled_now "upload-btn" (log w') = Some false
      /\ style_now "upload-progress" "display" (log w') = Some "none"
      /\ globals w' = globals app_loaded
      /\ requests (log w') = requests (log app_loaded)
  | (Throw _, w') =>
      style_now "upload-progress" "display" (log w')
      = style_now "upload-progress" "display" (log app_loaded)
      /\ globals w' = globals app_loaded
      /\ requests (log w') = requests (log app_loaded)
  end
  /\ forall e, AppJs.uploadFile_settle (AppJs.XhrLoaded 200 (BodyInvalid e)) app_loaded
               = (Throw e, app_loaded).
Proof.
  apply (upload_failure_resets_controls
           (AppJs.XhrLoaded 500 (BodyJson (JObj [("error", JStr "Server error")])))
           app_loaded).
  reflexivity.
Defined.

(** An upload that the server accepts.  When the handler returns, jQuery
    was loaded, the variables hold the file name and the columns of the
    answer (no columns: the empty list), the progress bar is hidden, and
    the basic statistics of that very file were requested, unless the
    answer names no file.  When the handler throws (jQuery is not loaded
    yet, an element is missing), the progress bar is left as it was; and
    without jQuery nothing was requested. *)
Theorem upload_success_loads_statistics (data : jsval) (w : world AppJs.vars) :
  truthy (get_opt data "success") = true ->
  let filename := get_opt data "filename" in
  match AppJs.uploadFile_onload 200 (BodyJson data) w with
  | (Ok _, w') =>
      AppJs.jquery (globals w) = true
      /\ AppJs.currentFileId (globals w') = filename
      /\ AppJs.availableColumns (globals w')
         = or_else (get_opt data "available_columns") (JArr [])
      /\ requests (log w')
         = ((if truthy filename
             then [FetchSent "/analyze"
                     (Json (AppJs.analyze_payload "basic_stats" filename None))]
             else []) ++ requests (log w))%list
      /\ style_now "upload-progress" "display" (log w') = Some "none"
  | (Throw _, w') =>
      style_now "upload-progress" "display" (log w')
      = style_now "upload-progress" "display" (log w)
      /\ (AppJs.jquery (globals w) = false ->
          requests (log w') = requests (log w))
  end.
Proof.
  intros S filename.
  change (wpx (AppJs.uploadFile_onload 200 (BodyJson data))
            (fun _ w' =>
               AppJs.jquery (globals w) = true
               /\ AppJs.currentFileId (globals w') = filename
               /\ AppJs.availableColumns (globals w')
                  = or_else (get_opt data "available_columns") (JArr [])
               /\ requests (log w')
                  = ((if truthy filename
                      then [FetchSent "/analyze"
                              (Json (AppJs.analyze_payload "basic_stats" filename None))]
                      else []) ++ requests (log w))%list
               /\ style_now "upload-progress" "display" (log w') = Some "none")
            (fun _ w' =>
               style_now "upload-progress" "display" (log w')
               = style_now "upload-progress" "display" (log w)
               /\ (AppJs.jquery (globals w) = false ->
                   requests (log w') = requests (log w))) w).
  unfold AppJs.uploadFile_onload. cbn [Z.eqb Pos.eqb]. subst filename.
  unfold get_opt in *.
  run_all; pages; try (repeat split; fail).
  all: repeat match goal with
              | H : get _ _ = _ |- _ => rewrite H in *; clear H
              end;
    cbn [AppJs.jquery AppJs.currentFileId AppJs.availableColumns] in *;
    try congruence.
  - apply negb_true_iff in Heqb1. rewrite Heqb1. repeat split. exact Heqb0.
  - apply negb_false_iff in Heqb1. rewrite Heqb1. repeat split. exact Heqb0.
  - split; [reflexivity|]. congruence.
Qed.

Lemma upload_success_loads_statistics_witness :
  let data := JObj [("success", JBool true); ("filename", JStr "f1.csv");
                    ("available_columns", JArr [JStr "a"; JStr "b"])] in
  let filename := get_opt data "filename" in
  match AppJs.uploadFile_onload 200 (BodyJson data) app_ready with
  | (Ok _, w') =>
      AppJs.jquery (globals app_ready) = true
      /\ AppJs.currentFileId (globals w') = filename
      /\ AppJs.availableColumns (globals w')
         = or_else (get_opt data "available_columns") (JArr [])
      /\ requests (log w')
         = ((if truthy filename
             then [FetchSent "/analyze"
                     (Json (AppJs.analyze_payload "basic_stats" filename None))]
             else []) ++ requests (log app_ready))%list
      /\ style_now "upload-progress" "display" (log w') = Some "none"
  | (Throw _, w') =>
      style_now "upload-progress" "display" (log w')
      = style_now "upload-progress" "display" (log app_ready)
      /\ (AppJs.jquery (globals app_ready) = false ->
          requests (log w') = requests (log app_ready))
  end.
Proof.
  apply (upload_success_loads_statistics
           (JObj [("success", JBool true); ("filename", JStr "f1.csv");
                  ("available_columns", JArr [JStr "a"; JStr "b"])])
           app_ready).
  reflexivity.
Defined.

End UploadFacts.

(** ** The analysis requests of app.js *)

Module LoaderFacts.
Import Str Num Js Page Spec Logic.
Local Open Scope js_scope.

Lemma settle_returns (o : fetch_outcome) (on_data : jsval -> M (G:=AppJs.vars) unit)
    (prefix : string) (w : world AppJs.vars) :
  fst (AppJs.settle o on_data prefix w) = Ok tt.
Proof.
  unfold AppJs.settle, try_catch.
  destruct o as [e|ok st txt [data|e]]; try reflexivity.
  now destruct (on_data data w) as [[[]|e] w'].
Qed.

Lemma hideLoading_returns (w : world Shared.vars) : fst (Shared.hideLoading w) = Ok tt.
Proof.
  unfold Shared.hideLoading, bind, get_log. now destruct (existsb _ (log w)).
Qed.

Lemma alerting_chain_returns (m : M (G:=Shared.vars) unit) (f : exn -> string)
    (k : M (G:=Shared.vars) unit) (w : world Shared.vars) :
  (forall w', fst (k w') = Ok tt) ->
  fst (finally (try_catch m (fun e => alert (f e))) k w) = Ok tt.
Proof.
  intros K. unfold finally, try_catch.
  destruct (m w) as [[[]|e] w']; cbn [alert emit].
  - specialize (K w'). now destruct (k w') as [[[]|e] w''].
  - match goal with |- context [k ?x] => specialize (K x); destruct (k x) as [[[]|e'] w''] end;
      [reflexivity|discriminate K].
Qed.

(** No chain of a request ends in a rejection, in app.js (the six
    analysis chains that end in [catch]), in the third variant (upload,
    analysis) and for the upload and the filter of script (11).js:
    whatever the request comes to, and whatever the renderers do, the
    chain returns.  In app.js, when the network fails or the body is no
    JSON, the user gets one alert, [ERROR:], the words of the chain and
    the message, and nothing else changes; the status of the response
    plays no part there: the same body gives the same result under any
    status. *)
Theorem chains_never_reject (o : fetch_outcome) (t : nat) (operation : string)
    (wa : world AppJs.vars) (w : world Shared.vars) :
  Forall
    (fun p =>
       fst (snd p o wa) = Ok tt
       /\ (forall e,
             o = Rejected e
             \/ (exists ok st txt, o = Responded ok st txt (BodyInvalid e)) ->
             snd (snd p o wa)
             = with_event wa (Alert ("ERROR: " ++ fst p ++ exn_message e)))
       /\ (forall ok st txt ok' st' txt' body,
             snd p (Responded ok st txt body) wa
             = snd p (Responded ok' st' txt' body) wa))
    app_chains
  /\ fst (Part000.processFiles_settle t o w) = Ok tt
  /\ fst (Part000.performAnalysis_settle operation o w) = Ok tt
  /\ fst (Script11.processFiles_settle t o w) = Ok tt
  /\ fst (Script11.applyFilter_settle o w) = Ok tt.
Proof.
  split; [|repeat split].
  - repeat constructor; cbn [fst snd];
      try apply settle_returns;
      try (intros e [->|(ok & st & txt & ->)]; reflexivity).
  - apply alerting_chain_returns. intros w'.
    change (fst (Shared.hideLoading
                   (snd (clearTimeout (G:=Shared.vars) t w'))) = Ok tt).
    apply hideLoading_returns.
  - apply alerting_chain_returns, hideLoading_returns.
  - apply alerting_chain_returns, hideLoading_returns.
  - apply alerting_chain_returns, hideLoading_returns.
Qed.

(** The analysis chain of script (11).js can end in a rejection: its
    [catch] writes to the results panel, and throws on a page without
    one. *)
Example script11_analysis_can_reject :
  fst (Script11.performAnalysis_settle "outliers"
         (Rejected (type_error "Failed to fetch"))
         (page Shared.initial []))
  = Throw (type_error "Cannot access properties of null (insightsContainer)").
Proof. vm_compute. reflexivity. Qed.

End LoaderFacts.

(** ** The charts through whole sessions *)

Module SessionChartFacts.
Import Str Num Js Page Spec Logic ChartFacts.
Local Open Scope js_scope.

Section Steps.

Context {G : Type}.
Variable P : world G -> Prop.
Hypothesis by_view :
  forall w w', globals w' = globals w -> log w' = log w -> P w -> P w'.

Local Abbreviation steps := (Spec.steps P).

Lemma steps_ret {A} (a : A) : steps (ret a).
Proof. intros w H. exact H. Qed.

Lemma steps_throw {A} (e : exn) : steps (throw (A:=A) e).
Proof. intros w H. exact H. Qed.

Lemma steps_lift {A} (r : res A) : steps (lift r).
Proof. intros w H. exact H. Qed.

Lemma steps_bind {A B} (m : M (G:=G) A) (k : A -> M (G:=G) B) :
  steps m -> (forall a, steps (k a)) -> steps (bind m k).
Proof.
  intros Hm Hk w H. specialize (Hm w H). unfold bind.
  destruct (m w) as [[a|e] w']; [now apply Hk|exact Hm].
Qed.

Lemma steps_try_catch {A} (m : M (G:=G) A) (h : exn -> M (G:=G) A) :
  steps m -> (forall e, steps (h e)) -> steps (try_catch m h).
Proof.
  intros Hm Hh w H. specialize (Hm w H). unfold try_catch.
  destruct (m w) as [[a|e] w']; [exact Hm|now apply Hh].
Qed.

Lemma steps_finally {A} (m : M (G:=G) A) (k : M (G:=G) unit) :
  steps m -> steps k -> steps (finally m k).
Proof.
  intros Hm Hk w H. specialize (Hm w H). unfold finally.
  destruct (m w) as [r w']. specialize (Hk w' Hm).
  now destruct (k w') as [[u|e] w''].
Qed.

Lemma steps_for_each {A} (l : list A) (k : A -> M (G:=G) unit) :
  (forall a, steps (k a)) -> steps (for_each l k).
Proof.
  intros Hk. induction l as [|x r IH]; simpl.
  - apply steps_ret.
  - apply steps_bind; [apply Hk | intros _; apply IH].
Qed.

Lemma steps_keeps {A} (m : M (G:=G) A) :
  keeps (fun w => (globals w, log w)) m -> steps m.
Proof.
  intros K w H. specialize (K w). simpl in K. inversion K as [[Kg Kl]].
  now apply (by_view w).
Qed.

End Steps.

Lemma tidy_by_view {G} (s : slot G) (w w' : world G) :
  globals w' = globals w -> log w' = log w -> tidy_at s w -> tidy_at s w'.
Proof. unfold tidy_at. now intros -> ->. Qed.

Lemma tidy_emit {G} (s : slot G) (e : event) :
  aside (slot_canvas s) e = true -> steps (tidy_at s) (emit e).
Proof. intros A w T. unfold tidy_at in *. simpl. now apply tidy_aside. Qed.

Lemma tidy_set_currentData (s : slot Shared.vars) (v : jsval) :
  shared_slot s -> steps (tidy_at s) (Shared.set_currentData v).
Proof. intros [] w T; exact T. Qed.

Lemma tidy_set_currentFileId (s : slot AppJs.vars) (v : jsval) :
  app_slot s -> steps (tidy_at s) (AppJs.set_currentFileId v).
Proof. intros [] w T; exact T. Qed.

Lemma tidy_set_availableColumns (s : slot AppJs.vars) (v : jsval) :
  app_slot s -> steps (tidy_at s) (AppJs.set_availableColumns v).
Proof. intros [] w T; exact T. Qed.

Lemma tidy_script11_render (s : slot Shared.vars) (m : M (G:=Shared.vars) unit) :
  script11_render m -> shared_slot s -> steps (tidy_at s) m.
Proof. intros R S w T. exact (proj1 (script11_rendered m s w R S T)). Qed.

Lemma tidy_part000_render (s : slot Shared.vars) (m : M (G:=Shared.vars) unit) :
  part000_render m -> shared_slot s -> steps (tidy_at s) m.
Proof. intros R S w T. exact (proj1 (part000_rendered m s w R S T)). Qed.

Lemma tidy_app_render (s : slot AppJs.vars) (m : M (G:=AppJs.vars) unit) :
  app_render m -> app_slot s -> steps (tidy_at s) m.
Proof. intros R S w T. exact (proj1 (app_rendered m s w R S T)). Qed.

Ltac steps_step S :=
  match goal with
  | |- forall _, _ => intro
  | |- steps _ (bind _ _) => apply steps_bind
  | |- steps _ (ret _) => apply steps_ret
  | |- steps _ (throw _) => apply steps_throw
  | |- steps _ (lift _) => apply steps_lift
  | |- steps _ (try_catch _ _) => apply steps_try_catch
  | |- steps _ (finally _ _) => apply steps_finally
  | |- steps _ (for_each _ _) => apply steps_for_each
  | |- steps _ (emit _) => apply tidy_emit; reflexivity
  | |- steps _ (Shared.set_currentData _) => apply tidy_set_currentData; exact S
  | |- steps _ (AppJs.set_currentFileId _) => apply tidy_set_currentFileId; exact S
  | |- steps _ (AppJs.set_availableColumns _) =>
      apply tidy_set_availableColumns; exact S
  | |- steps _ (Shared.set_chart3 _) => intros ? ?; assumption
  | |- steps _ (if ?b then _ else _) => destruct b
  | |- steps _ (match ?x with _ => _ end) => destruct x
  | |- steps _ (let _ := _ in _) => cbv zeta
  | |- steps _ ?m =>
      first [ apply tidy_script11_render; [solve [constructor] | exact S]
            | apply tidy_part000_render; [solve [constructor] | exact S]
            | apply tidy_app_render; [solve [constructor] | exact S]
            | apply (steps_keeps _ (tidy_by_view _)); solve [keeps_all]
            | let h := head_of m in progress unfold h ]
  | |- _ => progress cbv beta iota
  end.

Ltac steps_all S := repeat steps_step S.

Lemma script11_action_steps (s : slot Shared.vars) (m : M (G:=Shared.vars) unit) :
  script11_action m -> shared_slot s -> steps (tidy_at s) m.
Proof. intros [] S; steps_all S. Qed.

Lemma part000_action_steps (s : slot Shared.vars) (m : M (G:=Shared.vars) unit) :
  part000_action m -> shared_slot s -> slot_canvas s <> "chart3" ->
  steps (tidy_at s) m.
Proof.
  intros A S N. destruct S; [| |exfalso; now apply N].
  - destruct A; steps_all slot_chart1.
  - destruct A; steps_all slot_chart2.
Qed.

Lemma app_action_steps (s : slot AppJs.vars) (m : M (G:=AppJs.vars) unit) :
  app_action m -> app_slot s -> steps (tidy_at s) m.
Proof.
  intros [file x|columns o m' I|d c|d x y] S.
  - steps_all S.
  - unfold analyses in I. simpl in I.
    repeat (destruct I as [<-|I]; [steps_all S|]). contradiction.
  - steps_all S.
  - steps_all S.
Qed.

(** [createCategoricalChart] of the third variant never destroys a
    chart: either it leaves the log as it was, or it adds one chart on
    [chart3] to the charts that are alive there, and the variable of the
    slot holds the new one only. *)
Theorem categorical_chart_never_destroys (stats : jsval) (w : world Shared.vars) :
  let w' := snd (Part000.createCategoricalChart stats w) in
  log w' = log w
  \/ exists n labels data,
       log w' = ChartCreated n "chart3" "bar" labels data :: log w
       /\ live "chart3" (log w') = n :: live "chart3" (log w)
       /\ Shared.chart3 (globals w') = Some n.
Proof.
  cbv zeta.
  apply (wpx_run _
           (fun w' =>
              log w' = log w
              \/ exists n labels data,
                   log w' = ChartCreated n "chart3" "bar" labels data :: log w
                   /\ live "chart3" (log w') = n :: live "chart3" (log w)
                   /\ Shared.chart3 (globals w') = Some n)).
  wpx_all; worlds; try (left; reflexivity).
  right. do 3 eexists. repeat split.
Qed.

Lemma after_steps {G} (P : world G -> Prop) (act : M (G:=G) unit -> Prop) :
  (forall m, act m -> steps P m) ->
  forall calls w, Forall act calls -> P w -> P (after calls w).
Proof.
  intros H calls w F. revert w.
  induction F as [|m calls Am F IH]; intros w Pw; [exact Pw|].
  simpl. apply IH. now apply (H m Am).
Qed.

(** Whatever the user does, in any order and whatever the server answers
    (uploads, filters and analyses; in app.js also the changes of the
    histogram column and of the scatter axes), the charts stay in order:
    on every slot of app.js and of script (11).js, and on [chart1] and
    [chart2] of the third variant, never two charts are alive, and the
    variable of the slot holds the one that is. *)
Theorem session_keeps_charts_in_order
    (sa : slot AppJs.vars) (s11 s000 : slot Shared.vars)
    (aa : list (M (G:=AppJs.vars) unit)) (a11 a000 : list (M (G:=Shared.vars) unit))
    (wa : world AppJs.vars) (w11 w000 : world Shared.vars) :
  app_slot sa -> shared_slot s11 -> shared_slot s000 ->
  slot_canvas s000 <> "chart3" ->
  Forall app_action aa -> Forall script11_action a11 -> Forall part000_action a000 ->
  tidy_at sa wa -> tidy_at s11 w11 -> tidy_at s000 w000 ->
  tidy_at sa (after aa wa)
  /\ tidy_at s11 (after a11 w11)
  /\ tidy_at s000 (after a000 w000).
Proof.
  intros Sa S11 S000 N Fa F11 F000 Ta T11 T000. split; [|split].
  - apply (after_steps (tidy_at sa) app_action); auto.
    intros m A. now apply app_action_steps.
  - apply (after_steps (tidy_at s11) script11_action); auto.
    intros m A. now apply script11_action_steps.
  - apply (after_steps (tidy_at s000) part000_action); auto.
    intros m A. now apply part000_action_steps.
Qed.

Lemma session_keeps_charts_in_order_witness :
  tidy_at (mkSlot "histogram-chart" AppJs.currentHistogramChart)
    (after [request_then (AppJs.loadHistogram None)
              (AppJs.loadHistogram_settle
                 (Responded true 200 "OK"
                    (BodyJson (JObj [("success", JBool true);
                                     ("result", histogram_payload)]))));
            AppJs.histogram_column_changed histogram_payload "age"]
       app_loaded)
  /\ tidy_at (mkSlot "chart3" Shared.chart3)
       (after [Script11.processFiles_run ["data.csv"]
                 (Shared.Settles
                    (Responded true 200 "OK"
                       (BodyJson (JObj [("analysis",
                                         JObj [("histogram_data", histogram_payload)])]))));
               request_then (Script11.performAnalysis "scatter_plot")
                 (Script11.performAnalysis_settle "scatter_plot"
                    (Responded true 200 "OK"
                       (BodyJson (JObj [("result", scatter_payload)]))))]
          (page Shared.initial charts_dom))
  /\ tidy_at (mkSlot "chart1" Shared.chart1)
       (after [Part000.processFiles_run ["data.csv"] Shared.TimesOut]
          (page Shared.initial charts_dom)).
Proof.
  apply (session_keeps_charts_in_order
           (mkSlot "histogram-chart" AppJs.currentHistogramChart)
           (mkSlot "chart3" Shared.chart3) (mkSlot "chart1" Shared.chart1)).
  - constructor.
  - constructor.
  - constructor.
  - discriminate.
  - repeat constructor.
    apply (app_analysis None
             (Responded true 200 "OK"
                (BodyJson (JObj [("success", JBool true);
                                 ("result", histogram_payload)])))).
    simpl. tauto.
  - repeat constructor.
  - repeat constructor.
  - apply tidy_start. reflexivity.
  - apply tidy_start. reflexivity.
  - apply tidy_start. reflexivity.
Defined.

End SessionChartFacts.

(** ** The upload worker *)

Module WorkerFacts.
Import Worker Spec.

Lemma chunkSize_pos : 0 < chunkSize.
Proof. reflexivity. Qed.

Lemma total_bounds (size : Z) :
  0 <= size ->
  (totalChunks size - 1) * chunkSize < size <= totalChunks size * chunkSize.
Proof.
  intros S. unfold totalChunks. pose proof chunkSize_pos as C.
  pose proof (Z.div_mod (size + chunkSize - 1) chunkSize ltac:(lia)) as D.
  pose proof (Z.mod_pos_bound (size + chunkSize - 1) chunkSize C) as M.
  generalize dependent ((size + chunkSize - 1) / chunkSize).
  generalize dependent ((size + chunkSize - 1) mod chunkSize).
  generalize dependent chunkSize. intros c C r M q D. nia.
Qed.

Lemma chunk_length (file : list Byte.byte) (k : Z) :
  0 <= k ->
  Z.of_nat (List.length (readNextChunk file k)) <= chunkSize.
Proof.
  intros K. unfold readNextChunk, slice. pose proof chunkSize_pos as C.
  rewrite length_firstn. lia.
Qed.

(** A chunk in the middle of the file, and the last one. *)
Lemma chunk_then_rest (file : list Byte.byte) (k : Z) :
  0 <= k ->
  k * chunkSize <= Z.of_nat (List.length file) ->
  (readNextChunk file k ++ skipn (Z.to_nat ((k + 1) * chunkSize)) file)%list
  = skipn (Z.to_nat (k * chunkSize)) file.
Proof.
  intros K L. unfold readNextChunk, slice. pose proof chunkSize_pos as C.
  set (size := Z.of_nat (List.length file)) in *.
  set (start := k * chunkSize) in *.
  assert (S : 0 <= start) by (unfold start; nia).
  replace ((k + 1) * chunkSize) with (start + chunkSize) by (unfold start; lia).
  destruct (Z.le_gt_cases (start + chunkSize) size) as [In|Out].
  - rewrite Z.min_l by lia.
    replace (start + chunkSize - start) with chunkSize by lia.
    replace (Z.to_nat (start + chunkSize))
      with (Z.to_nat chunkSize + Z.to_nat start)%nat by lia.
    rewrite <- skipn_skipn. apply firstn_skipn.
  - rewrite Z.min_r by lia.
    rewrite (skipn_all2 (n := Z.to_nat (start + chunkSize))) by (unfold size in *; lia).
    rewrite app_nil_r. apply firstn_all2. rewrite length_skipn.
    unfold size in *. lia.
Qed.

Lemma run_from (file : list Byte.byte) (reads : nat) (k : Z) :
  let size := Z.of_nat (List.length file) in
  let total := totalChunks size in
  0 <= k ->
  k * chunkSize <= size ->
  Z.max 1 (total - k) <= Z.of_nat reads ->
  exists chunks,
    onload reads file k = (chunks ++ [Complete])%list
    /\ posted_bytes chunks = skipn (Z.to_nat (k * chunkSize)) file
    /\ numbered chunks k total
    /\ Z.of_nat (List.length chunks) = Z.max 1 (total - k).
Proof.
  intros size total. revert k.
  pose proof chunkSize_pos as C.
  pose proof (total_bounds size ltac:(unfold size; lia)) as B. fold total in B.
  induction reads as [|reads IH]; intros k K L R; [lia|].
  cbn [onload]. fold size. fold total.
  destruct (k + 1 <? total) eqn:More.
  - apply Z.ltb_lt in More.
    destruct (IH (k + 1)) as (chunks & E & P & N & Len); [lia|nia|lia|].
    exists (Chunk (readNextChunk file k) k total :: chunks).
    split; [|split; [|split]].
    + now rewrite E.
    + unfold posted_bytes in *. cbn [map List.concat]. rewrite P.
      now apply chunk_then_rest.
    + cbn [numbered]. split; [|exact N].
      exists (readNextChunk file k). split; [reflexivity|now apply chunk_length].
    + cbn [List.length]. lia.
  - apply Z.ltb_ge in More.
    exists [Chunk (readNextChunk file k) k total].
    split; [reflexivity|split; [|split]].
    + unfold posted_bytes. cbn [map List.concat]. rewrite app_nil_r.
      rewrite <- (chunk_then_rest file k K L).
      rewrite (skipn_all2 (n := Z.to_nat ((k + 1) * chunkSize)))
        by (fold size; nia).
      now rewrite app_nil_r.
    + cbn [numbered]. split; [|exact I].
      exists (readNextChunk file k). split; [reflexivity|now apply chunk_length].
    + cbn [List.length]. lia.
Qed.

(** The worker posts the file: once enough reads have succeeded (one for
    each chunk, one for an empty file), what was posted is a run of chunk
    messages and then [complete]; the chunks are numbered from 0, each
    holds at most [chunkSize] bytes and carries the total, and their bytes,
    put together in order, are the file.  An empty file is posted as one
    empty chunk, number 0 of 0. *)
Theorem worker_posts_the_file (file : list Byte.byte) (reads : nat) :
  let total := totalChunks (Z.of_nat (List.length file)) in
  Z.max 1 total <= Z.of_nat reads ->
  exists chunks,
    onmessage reads file = (chunks ++ [Complete])%list
    /\ posted_bytes chunks = file
    /\ numbered chunks 0 total
    /\ Z.of_nat (List.length chunks) = Z.max 1 total.
Proof.
  intros total R.
  destruct (run_from file reads 0) as (chunks & E & P & N & Len);
    [lia|lia|fold total; lia|].
  exists chunks. split; [exact E|]. split; [exact P|]. split; [exact N|].
  fold total in Len. lia.
Qed.

Lemma worker_posts_the_file_witness :
  let file := [Byte.x01; Byte.x02; Byte.x03] in
  let total := totalChunks (Z.of_nat (List.length file)) in
  exists chunks,
    onmessage 1 file = (chunks ++ [Complete])%list
    /\ posted_bytes chunks = file
    /\ numbered chunks 0 total
    /\ Z.of_nat (List.length chunks) = Z.max 1 total.
Proof.
  apply (worker_posts_the_file [Byte.x01; Byte.x02; Byte.x03] 1).
  vm_compute. discriminate.
Defined.

Lemma stalls_from (file : list Byte.byte) (reads : nat) (k : Z) :
  Z.of_nat reads < totalChunks (Z.of_nat (List.length file)) - k ->
  ~ In Complete (onload reads file k).
Proof.
  revert k. induction reads as [|reads IH]; intros k R I; [contradiction|].
  cbn [onload] in I. destruct I as [I|I]; [discriminate|].
  destruct (k + 1 <? _) eqn:More.
  - apply (IH (k + 1)); [lia|exact I].
  - apply Z.ltb_ge in More. lia.
Qed.

(** With fewer reads than chunks the worker stops short: a read that
    fails is followed by nothing, and [complete] is never posted. *)
Theorem worker_stalls_without_complete (file : list Byte.byte) (reads : nat) :
  Z.of_nat reads < totalChunks (Z.of_nat (List.length file)) ->
  ~ In Complete (onmessage reads file).
Proof. intros R. apply stalls_from. lia. Qed.

End WorkerFacts.

(** ** The preview of a chosen file (app.js) *)

Module PreviewFacts.
Import Str Num Js Page Spec DomFacts.
Import AppJs.
Local Open Scope nat_scope.

Lemma split_at_not_empty (sep : N) (l acc : list N) :
  split_at sep l acc <> [].
Proof.
  revert acc. induction l as [|c r IH]; intros acc; simpl; [discriminate|].
  destruct (N.eqb c sep); [discriminate|apply IH].
Qed.

Lemma split_first (sep : N) (text : list N) :
  exists first rest, split sep text = first :: rest.
Proof.
  unfold split. pose proof (split_at_not_empty sep text []) as E.
  destruct (split_at sep text []) as [|x r]; [contradiction|].
  now exists x, r.
Qed.

Lemma slice_of_map {A B} (f : A -> B) (l : list A) :
  slice_1_6 (map f (firstn 6 l)) = map f (firstn 5 (skipn 1 l)).
Proof.
  unfold slice_1_6. destruct l as [|x l]; [reflexivity|].
  change (firstn 6 (x :: l)) with (x :: firstn 5 l).
  change (skipn 1 (x :: l)) with l.
  change (skipn 1 (map f (x :: firstn 5 l))) with (map f (firstn 5 l)).
  rewrite <- firstn_map. now rewrite firstn_firstn.
Qed.

Lemma preview_text_shown (cell : list N) :
  utf8 (preview_text cell) = shown_field cell.
Proof.
  unfold preview_text, shown_field.
  destruct (Nat.ltb_spec 50 (List.length cell)) as [L|L].
  - destruct (Nat.leb_spec (List.length cell) 50) as [L'|L']; [lia|reflexivity].
  - destruct (Nat.leb_spec (List.length cell) 50) as [L'|L']; [reflexivity|lia].
Qed.

(** ASCII text is kept as it is. *)
Lemma utf8_ascii (s : string) :
  Forall (fun c => (nat_of_ascii c < 128)%nat) (chars s) -> utf8 (units s) = s.
Proof.
  unfold utf8, units. intros F.
  rewrite <- (string_of_list_ascii_of_string s) at 2.
  unfold of_chars. f_equal. unfold chars in *.
  induction F as [|c l Hc F IH]; [reflexivity|].
  assert (Lc : (N_of_ascii c < 128)%N).
  { unfold nat_of_ascii in Hc. lia. }
  assert (Ec : encode (N_of_ascii c) = [c]).
  { unfold encode. apply N.ltb_lt in Lc. rewrite Lc.
    now rewrite ascii_N_embedding. }
  assert (Hh : is_high (N_of_ascii c) = false).
  { unfold is_high. apply andb_false_intro1. apply N.leb_gt. lia. }
  cbn [map utf8_chars].
  destruct l as [|c' l'].
  - cbn [map]. exact Ec.
  - cbn [map] in *. rewrite Hh. cbn [andb]. rewrite Ec. cbn [app].
    f_equal. exact IH.
Qed.

(** The labels are the decimal numerals from 1 on. *)
Lemma column_label_decimal (k : nat) :
  k < 1000 -> column_label k = "Column " ++ of_chars (digits (Z.of_nat k + 1)).
Proof.
  intros L.
  assert (A : forallb (fun k => String.eqb (column_label k)
                                  ("Column " ++ of_chars (digits (Z.of_nat k + 1))))
                (seq 0 1000) = true) by (vm_compute; reflexivity).
  rewrite forallb_forall in A.
  apply String.eqb_eq, A, in_seq. lia.
Qed.

(** The letter [A], [e] with an acute accent, the euro sign, and a face
    from beyond the basic plane (a surrogate pair): one, two, three and
    four bytes. *)
Example utf8_of_each_length :
  map nat_of_ascii (utf8_chars [65; 233; 8364; 55357; 56832]%N)
  = [65; 195; 169; 226; 130; 172; 240; 159; 152; 128].
Proof. vm_compute. reflexivity. Qed.

(** The preview of a chosen file, on a page with the table of the
    preview.  A name that does not end in [.csv], in these very letters,
    gets the note on Excel files at once, and nothing is read.  A [.csv]
    file is read, and its text is cut into lines; the table then holds a
    head with the labels [Column 1], [Column 2], ... over the fields of
    the first line, and a body with a row for each of the next lines,
    five at most, with a cell for each field of the line, whatever the
    head has; a field of more than 50 code units is cut to its first 50,
    followed by three dots. *)
Theorem file_preview (name : string) (content : list N) (old : list node)
    (w : world AppJs.vars) :
  children "preview-table" (dom w) = Some old ->
  (if endsWith name ".csv" then
     previewFile name w = (Ok true, w)
     /\ exists d' first rest,
          split 10 content = first :: rest
          /\ previewFile_onload name content w = (Ok tt, with_dom w d')
          /\ children "preview-table" d' = Some (preview_of first rest)
   else
     exists d',
       previewFile name w = (Ok false, with_dom w d')
       /\ children "preview-table" d' = Some no_preview)
  /\ (forall k, k < 1000 ->
        column_label k = "Column " ++ of_chars (digits (Z.of_nat k + 1))).
Proof.
  intros H. split; [|exact column_label_decimal].
  destruct (endsWith name ".csv") eqn:Csv.
  - split; [unfold previewFile; now rewrite Csv|].
    destruct (split_first 10 content) as (first & rest & E).
    unfold previewFile_onload. rewrite Csv. cbn [negb andb].
    rewrite slice_of_map, E.
    change (skipn 1 (first :: rest)) with rest.
    change (firstn 6 (first :: rest)) with (first :: firstn 5 rest).
    cbn [map].
    destruct (set_content_run "preview-table" [] old w H) as (d1 & E1 & C1).
    destruct (add_content_run "preview-table"
                [Element "thead" "" "" [preview_header (split 44 first)]]
                [] (with_dom w d1) C1) as (d2 & E2 & C2).
    destruct (add_content_run "preview-table"
                [Element "tbody" "" ""
                   (map (fun line => preview_row (split 44 line)) (firstn 5 rest))]
                _ (with_dom (with_dom w d1) d2) C2) as (d3 & E3 & C3).
    exists d3, first, rest. split; [reflexivity|]. split.
    + unfold bind at 1. rewrite E1. unfold bind at 1. rewrite E2.
      rewrite map_map. exact E3.
    + assert (B : map (fun line => preview_row (split 44 line)) (firstn 5 rest)
                  = map (fun line =>
                           Element "tr" "" ""
                             (map (fun field =>
                                     Element "td" "" "" [Markup (shown_field field)])
                                (fields line)))
                      (firstn 5 rest)).
      { apply map_ext. intros line. unfold preview_row, fields. f_equal.
        apply map_ext. intros cell. now rewrite preview_text_shown. }
      rewrite C3, B. reflexivity.
  - unfold previewFile. rewrite Csv.
    destruct (set_content_run "preview-table" excel_note old w H) as (d1 & E1 & C1).
    exists d1. split; [|exact C1]. unfold bind. now rewrite E1.
Qed.

Lemma file_preview_witness :
  let w := page AppJs.initial preview_dom in
  let name := "data.csv" in
  let content := units ("name,city" ++ nl ++ "Ada,London" ++ nl) in
  (if endsWith name ".csv" then
     previewFile name w = (Ok true, w)
     /\ exists d' first rest,
          split 10 content = first :: rest
          /\ previewFile_onload name content w = (Ok tt, with_dom w d')
          /\ children "preview-table" d' = Some (preview_of first rest)
   else
     exists d',
       previewFile name w = (Ok false, with_dom w d')
       /\ children "preview-table" d' = Some no_preview)
  /\ (forall k, k < 1000 ->
        column_label k = "Column " ++ of_chars (digits (Z.of_nat k + 1))).
Proof.
  apply (file_preview "data.csv" (units ("name,city" ++ nl ++ "Ada,London" ++ nl)) []
           (page AppJs.initial preview_dom)).
  reflexivity.
Defined.

(** Two lines and the empty piece after the last line break: a head of
    two labels, a row of two cells and a row with one empty cell. *)
Example preview_of_two_lines :
  children "preview-table"
    (dom (snd (previewFile_onload "data.csv"
                 (units ("name,city" ++ nl ++ "Ada,London" ++ nl))
                 (page AppJs.initial preview_dom))))
  = Some [Element "thead" "" ""
            [Element "tr" "" ""
               [Element "th" "" "" [Markup "Column 1"];
                Element "th" "" "" [Markup "Column 2"]]];
          Element "tbody" "" ""
            [Element "tr" "" ""
               [Element "td" "" "" [Markup "Ada"];
                Element "td" "" "" [Markup "London"]];
             Element "tr" "" "" [Element "td" "" "" [Markup ""]]]].
Proof. vm_compute. reflexivity. Qed.

(** A field of 30 letters of two bytes each is shown in full, one of 51
    letters is cut after the fiftieth. *)
Example long_fields :
  shown_field (repeat 233%N 30) = utf8 (repeat 233%N 30)
  /\ String.length (shown_field (repeat 233%N 30)) = 60
  /\ shown_field (repeat 65%N 51) = of_chars (repeat "A"%char 50) ++ "...".
Proof. vm_compute. repeat split. Qed.

End PreviewFacts.

(** ** The statistics tab of app.js *)

Module SummaryFacts.
Import Str Num Js Page Spec DomFacts.
Local Open Scope js_scope.

Lemma entries_truthy (v : jsval) :
  truthy v = true -> exists es, entries v = Ok es.
Proof. destruct v; simpl; try discriminate; eauto. Qed.

Lemma card_of_object (tab : summary_tab) (column : string)
    (fields : list (string * jsval)) :
  In tab summary_tabs -> exists c, tab_card tab column (JObj fields) = Ok c.
Proof.
  intros [<-|[<-|[<-|[<-|[]]]]]; cbn [tab_card].
  - eexists. reflexivity.
  - unfold AppJs.categorical_card, bindr. cbn [get].
    destruct (entries_truthy (or_else (lookup "top_values" fields) (JObj [])))
      as (es & E).
    + unfold or_else. now destruct (truthy (lookup "top_values" fields)) eqn:T.
    + rewrite E. eexists. reflexivity.
  - eexists. reflexivity.
  - eexists. reflexivity.
Qed.

Lemma cards_of_summary (tab : summary_tab)
    (columns : list (string * list (string * jsval))) :
  In tab summary_tabs ->
  exists cards,
    Forall2 (fun e c => tab_card tab (fst e) (snd e) = Ok c)
      (map (fun p => (fst p, JObj (snd p))) columns) cards.
Proof.
  intros I. induction columns as [|[column fields] columns (cards & F)].
  - exists []. constructor.
  - destruct (card_of_object tab column fields I) as (c & E).
    exists (c :: cards). now constructor.
Qed.

Lemma display_cards_empty (container : string) (mk : string -> jsval -> res node)
    (empty : string) (stats : jsval) (old : list node) (w : world AppJs.vars) :
  children container (dom w) = Some old ->
  truthy stats && match keys stats with Ok (_ :: _) => true | _ => false end = false ->
  exists d',
    AppJs.display_cards container mk empty stats w = (Ok tt, with_dom w d')
    /\ children container d' = Some [no_data empty].
Proof.
  intros H N. unfold AppJs.display_cards. rewrite N.
  destruct (set_content_run container [] old w H) as (d1 & E1 & C1).
  destruct (set_content_run container [no_data empty] [] (with_dom w d1) C1)
    as (d2 & E2 & C2).
  exists d2. split; [|exact C2]. unfold bind. rewrite E1. exact E2.
Qed.

Lemma display_cards_full (container : string) (mk : string -> jsval -> res node)
    (empty : string) (es : list (string * jsval)) (cards old : list node)
    (w : world AppJs.vars) :
  children container (dom w) = Some old ->
  es <> [] ->
  Forall2 (fun e c => mk (fst e) (snd e) = Ok c) es cards ->
  exists d',
    AppJs.display_cards container mk empty (JObj es) w = (Ok tt, with_dom w d')
    /\ children container d' = Some cards.
Proof.
  intros H N F. unfold AppJs.display_cards.
  destruct es as [|e es']; [contradiction|].
  cbn [truthy keys entries map andb].
  destruct (set_content_run container [] old w H) as (d1 & E1 & C1).
  destruct (append_cards container (fun e => mk (fst e) (snd e)) (e :: es') cards F
              [] (with_dom w d1) C1) as (d2 & E2 & C2).
  exists d2. split; [|exact C2].
  unfold bind at 1. rewrite E1. unfold bind at 1. cbn [lift]. exact E2.
Qed.

(** Each renderer of the statistics tab (numeric, categorical, text,
    datetime) shows its placeholder when the summary is missing, [null]
    or without columns, and otherwise one card for each column, in the
    order of the summary; it returns whatever fields the columns lack. *)
Theorem summaries_shown (tab : summary_tab) (stats : jsval)
    (columns : list (string * list (string * jsval))) (old : list node)
    (w : world AppJs.vars) :
  In tab summary_tabs ->
  children (tab_container tab) (dom w) = Some old ->
  (truthy stats = false \/ stats = JObj [] ->
   exists d',
     tab_display tab stats w = (Ok tt, with_dom w d')
     /\ children (tab_container tab) d' = Some [no_data (tab_empty tab)])
  /\ (columns <> [] ->
      exists d' cards,
        tab_display tab (summary_of columns) w = (Ok tt, with_dom w d')
        /\ children (tab_container tab) d' = Some cards
        /\ Forall2 (fun p c => tab_card tab (fst p) (JObj (snd p)) = Ok c)
             columns cards).
Proof.
  intros I H.
  assert (D : tab_display tab
              = AppJs.display_cards (tab_container tab) (tab_card tab) (tab_empty tab))
    by (destruct I as [<-|[<-|[<-|[<-|[]]]]]; reflexivity).
  rewrite D. split.
  - intros E. apply (display_cards_empty _ _ _ _ old); [exact H|].
    destruct E as [E| ->]; [now rewrite E|reflexivity].
  - intros N. destruct (cards_of_summary tab columns I) as (cards & F).
    destruct (display_cards_full (tab_container tab) (tab_card tab) (tab_empty tab)
                (map (fun p => (fst p, JObj (snd p))) columns) cards old w H)
      as (d' & E & C); [|exact F|].
    + destruct columns; [contradiction|discriminate].
    + exists d', cards. split; [exact E|]. split; [exact C|].
      clear - F. revert cards F. induction columns as [|p columns IH]; intros cards F.
      * inversion F. constructor.
      * inversion F as [|? c ? cards' Hc F']; subst. constructor; [exact Hc|].
        now apply IH.
Qed.

Lemma summaries_shown_witness :
  let tab := mkTab "categorical-stats-content" AppJs.categorical_card
               "No categorical columns found" AppJs.displayCategoricalStats in
  let columns := [("city", [("most_frequent", JStr "Paris")]); ("country", [])] in
  let w := page AppJs.initial app_dom in
  (truthy JUndefined = false \/ JUndefined = JObj [] ->
   exists d',
     tab_display tab JUndefined w = (Ok tt, with_dom w d')
     /\ children (tab_container tab) d' = Some [no_data (tab_empty tab)])
  /\ (columns <> [] ->
      exists d' cards,
        tab_display tab (summary_of columns) w = (Ok tt, with_dom w d')
        /\ children (tab_container tab) d' = Some cards
        /\ Forall2 (fun p c => tab_card tab (fst p) (JObj (snd p)) = Ok c)
             columns cards).
Proof.
  apply (summaries_shown
           (mkTab "categorical-stats-content" AppJs.categorical_card
              "No categorical columns found" AppJs.displayCategoricalStats)
           JUndefined
           [("city", [("most_frequent", JStr "Paris")]); ("country", [])]
           [] (page AppJs.initial app_dom)).
  - simpl. tauto.
  - reflexivity.
Defined.

End SummaryFacts.

(** ** What a successful upload or filter leaves, and the timer of
    script (11).js *)

Module AnswerFacts.
Import Str Num Js Page Shared Spec Logic ChartFacts TimerFacts FlowFacts.
Local Open Scope js_scope.

Section View.

Context {G X : Type}.
Variable f : world G -> X.

(** A script that keeps the view [f]: only what comes after it matters. *)
Lemma wpx_keeps {A} (m : M (G:=G) A) Q E (w : world G) :
  keeps f m ->
  (forall a w', f w' = f w -> Q a w') ->
  (forall e w', f w' = f w -> E e w') ->
  wpx m Q E w.
Proof.
  intros K HQ HE. unfold wpx. specialize (K w).
  destruct (m w) as [[a|e] w']; simpl in K; auto.
Qed.

Lemma wpx_get_timers Q E (w : world G) :
  Q (timers w) w -> wpx (get_timers (G:=G)) Q E w.
Proof. exact (fun H => H). Qed.

Lemma wpx_set_timers (t : list nat) Q E (w : world G) :
  Q tt (mkWorld (globals w) (dom w) (log w) (next_id w) t) ->
  wpx (set_timers (G:=G) t) Q E w.
Proof. exact (fun H => H). Qed.

End View.

Ltac view_step f :=
  match goal with
  | |- wpx (bind _ _) _ _ _ => apply wpx_bind
  | |- wpx (ret _) _ _ _ => apply wpx_ret
  | |- wpx (throw _) _ _ _ => apply wpx_throw
  | |- wpx (lift ?r) _ _ _ => apply wpx_lift; destruct r eqn:?
  | |- wpx read _ _ _ => apply wpx_read
  | |- wpx (write _) _ _ _ => apply wpx_write
  | |- wpx (emit _) _ _ _ => apply wpx_emit
  | |- wpx get_timers _ _ _ => apply wpx_get_timers
  | |- wpx (set_timers _) _ _ _ => apply wpx_set_timers
  | |- wpx (clearTimeout _) _ _ _ => unfold clearTimeout
  | |- wpx (try_catch _ _) _ _ _ => apply wpx_try_catch
  | |- wpx (finally _ _) _ _ _ => apply wpx_finally
  | |- wpx (if ?b then _ else _) _ _ _ => destruct b eqn:?
  | |- wpx (match ?x with _ => _ end) _ _ _ => destruct x eqn:?
  | |- wpx (let _ := _ in _) _ _ _ => cbv zeta
  | |- wpx ?m _ _ _ =>
      first [ apply (wpx_keeps f); [solve [keeps_all] | intros ? ? ? | intros ? ? ?]
            | let h := head_of m in progress unfold h ]
  | |- _ => progress cbv beta iota
  end.

Ltac view_all f := repeat view_step f.

Lemma get_any (v : jsval) (k k' : string) (a : jsval) :
  get v k = Ok a -> exists b, get v k' = Ok b.
Proof.
  destruct v; simpl; try discriminate; intros _; try (eexists; reflexivity).
  - destruct (String.eqb k' "length"); [eexists; reflexivity|].
    destruct (index_of_key k'); eexists; reflexivity.
  - destruct (String.eqb k' "length"); [eexists; reflexivity|].
    destruct (index_of_key k'); eexists; reflexivity.
Qed.

Ltac leaf :=
  try match goal with
      | H : get ?d ?k = Throw _, H' : get ?d _ = Ok _ |- _ =>
          let b := fresh in let E := fresh in
          destruct (get_any d _ k _ H') as [b E]; congruence
      end;
  unfold session in *; cbn [globals currentData] in *;
  repeat match goal with
         | H : negb _ = true |- _ => apply negb_true_iff in H
         end;
  congruence.

(** An upload or a filter that the server answers without an error puts
    the analysis of the answer in [currentData], and there it stays even
    when a renderer throws afterwards.  (The third variant wants the
    analysis truthy.) *)
Theorem answer_becomes_session (t : nat) (status : Z) (statusText : string)
    (data analysis result : jsval) (w : world vars) :
  truthy (get_opt data "error") = false ->
  get data "analysis" = Ok analysis ->
  get data "result" = Ok result ->
  let o := Responded true status statusText (BodyJson data) in
  session (snd (Script11.processFiles_settle t o w)) = analysis
  /\ session (snd (Script11.applyFilter_settle o w)) = result
  /\ (truthy analysis = true ->
      session (snd (Part000.processFiles_settle t o w)) = analysis).
Proof.
  intros He Ha Hr o. unfold get_opt in He. subst o.
  split; [|split; [|intros Ht]].
  - apply (wpx_run _ (fun w' => session w' = analysis)).
    unfold Script11.processFiles_settle. cbn [negb].
    view_all (session); leaf.
  - apply (wpx_run _ (fun w' => session w' = result)).
    unfold Script11.applyFilter_settle. cbn [negb].
    view_all (session); leaf.
  - apply (wpx_run _ (fun w' => session w' = analysis)).
    unfold Part000.processFiles_settle. cbn [negb].
    view_all (session); leaf.
Qed.

Lemma answer_becomes_session_witness :
  let data := JObj [("analysis", JObj [("insights", JArr [])]);
                    ("result", JObj [("insights", JArr [JStr "filtered"])])] in
  let o := Responded true 200 "OK" (BodyJson data) in
  let w := page initial shared_dom in
  session (snd (Script11.processFiles_settle 0 o w)) = JObj [("insights", JArr [])]
  /\ session (snd (Script11.applyFilter_settle o w))
     = JObj [("insights", JArr [JStr "filtered"])]
  /\ (truthy (JObj [("insights", JArr [])]) = true ->
      session (snd (Part000.processFiles_settle 0 o w)) = JObj [("insights", JArr [])]).
Proof.
  apply (answer_becomes_session 0 200 "OK"
           (JObj [("analysis", JObj [("insights", JArr [])]);
                  ("result", JObj [("insights", JArr [JStr "filtered"])])])
           (JObj [("insights", JArr [])])
           (JObj [("insights", JArr [JStr "filtered"])])
           (page initial shared_dom)); reflexivity.
Defined.

(** In script (11).js the chain of an upload takes its timer away exactly
    when a response has arrived, whatever the response is; when the
    request is rejected the pending timers are the ones from before. *)
Theorem script11_timer_cleared_on_response (t : nat) (o : fetch_outcome)
    (w : world vars) :
  timers (snd (Script11.processFiles_settle t o w))
  = match o with
    | Rejected _ => timers w
    | Responded _ _ _ _ => others t (timers w)
    end.
Proof.
  destruct o as [e|ok status statusText body].
  - assert (K : keeps (fun w => timers w) (Script11.processFiles_settle t (Rejected e)))
      by (unfold Script11.processFiles_settle; keeps_all).
    apply (K w).
  - apply (wpx_run _ (fun w' => timers w' = others t (timers w))).
    unfold Script11.processFiles_settle.
    view_all (@timers vars);
      unfold others; cbn [timers] in *; congruence.
Qed.

End AnswerFacts.
